(** * Medibot: a shallow embedding of the disease-prediction backend

    The development follows the layout of the repository:
    - [utils.py]        : the symptom vectorizer [create_input_vector];
    - [backend/chat.py] : [chat_history], [get_query] and [_invoke_and_record];
    - [backend/db.py]   : the [ChatDetails] table and [create_chat];
    - [main.py]         : the endpoints [predict], [conversation], [chat_hist]
                          and [update_confidence].

    Modelling conventions.
    - Python [str] is [string], a text outside ASCII being held as its UTF-8
      bytes; [str.isdigit] is read on ASCII decimal digits (every key this
      program writes is [f'message{n}'] for a Python int [n]); [str.lower],
      which [get_symptoms] applies to what the caller sends, is the parameter
      [Py.lower].
    - A Python [int] that counts messages is a [nat]; row identifiers are [Z].
    - A Python [float] is the rational it denotes ([Q]); [f"{p:.2%}"] rounds
      [100 * p] to two fractional digits, ties to even.
    - A Python [dict] whose order matters (the message log) is an association
      list in insertion order.
    - A [TEXT] column holding JSON is represented by what [json.loads] makes of
      it, with one constructor per way the handlers tell the contents apart.
    - Exceptions are values of [exn]; a handler runs in the monad [M] of a
      world (database, classifier call log) with exceptions.
    - The SQL statements the handlers issue do what SQLite documents for
      them; none fails on its own account. *)

From Stdlib Require Import List Bool Arith ZArith Zdiv QArith Qround Qabs Lia.
From Stdlib Require Import String Ascii Permutation Sorted.
From Stdlib Require Import DecimalString DecimalNat.
Import ListNotations.

#[local] Close Scope Q_scope.
#[local] Open Scope string_scope.
#[local] Open Scope list_scope.

(** ** Python values and exceptions *)

Module Py.

(** [True] for a non-empty string, the truth value Python gives an optional
    string in [if msg.get('query'):]. *)
Definition truthy (v : option string) : bool :=
  match v with
  | None => false
  | Some s => negb (s =? EmptyString)
  end.

(** [str(v)] of a value that is a string or [None]. *)
Definition str_opt (v : option string) : string :=
  match v with
  | None => "None"
  | Some s => s
  end.

(** [str(n)] of a non-negative int. *)
Definition str_of_nat (n : nat) : string :=
  NilEmpty.string_of_uint (Nat.to_uint n).

Definition is_digit (c : ascii) : bool :=
  match c with
  | "0" | "1" | "2" | "3" | "4" | "5" | "6" | "7" | "8" | "9" => true
  | _ => false
  end%char.

Fixpoint all_digits (s : string) : bool :=
  match s with
  | EmptyString => true
  | String c s' => is_digit c && all_digits s'
  end.

(** [s.isdigit()] : non-empty and made of digits. *)
Definition isdigit (s : string) : bool :=
  match s with
  | EmptyString => false
  | String _ _ => all_digits s
  end.

(** [int(s)] for a string of digits (leading zeros allowed); the handlers call
    it only behind [isdigit]. *)
Definition int (s : string) : nat :=
  match NilEmpty.uint_of_string s with
  | Some d => Nat.of_uint d
  | None => 0
  end.

(** [s.replace(pat, '')] : the non-overlapping occurrences of [pat], found from
    the left, are dropped. [skip] counts the characters of an occurrence that
    remain to be dropped. *)
Fixpoint remove_from (pat : string) (skip : nat) (s : string) : string :=
  match s with
  | EmptyString => EmptyString
  | String c s' =>
      match skip with
      | S k => remove_from pat k s'
      | O =>
          if prefix pat s
          then remove_from pat (String.length pat - 1) s'
          else String c (remove_from pat 0 s')
      end
  end.

Definition replace_with_empty (pat s : string) : string :=
  match pat with
  | EmptyString => s
  | String _ _ => remove_from pat 0 s
  end.

(** [d[k] = v] on an insertion-ordered dict: an existing key keeps its place. *)
Fixpoint dict_set {V : Type} (k : string) (v : V) (d : list (string * V))
  : list (string * V) :=
  match d with
  | [] => [(k, v)]
  | (k', v') :: d' =>
      if k' =? k then (k', v) :: d' else (k', v') :: dict_set k v d'
  end.

(** [d.get(k)]. *)
Fixpoint dict_get {V : Type} (d : list (string * V)) (k : string) : option V :=
  match d with
  | [] => None
  | (k', v) :: d' => if k' =? k then Some v else dict_get d' k
  end.

Definition keys {V : Type} (d : list (string * V)) : list string := map fst d.

(** A stable sort for the order [le]: an element is put in front of the first
    element it is not above, so elements that compare equal keep the order
    they had in [l]. *)
Fixpoint insert_by {A : Type} (le : A -> A -> bool) (x : A) (l : list A)
  : list A :=
  match l with
  | [] => [x]
  | y :: l' => if le x y then x :: l else y :: insert_by le x l'
  end.

Definition stable_sort {A : Type} (le : A -> A -> bool) (l : list A) : list A :=
  fold_right (insert_by le) [] l.

(** [sorted(l, key=key)] : stable, ascending in [key]. *)
Definition sorted {A : Type} (key : A -> nat) (l : list A) : list A :=
  stable_sort (fun x y => Nat.leb (key x) (key y)) l.

(** [itertools.zip_longest(l1, l2, fillvalue=None)]. *)
Fixpoint zip_longest {A B : Type} (l1 : list A) (l2 : list B)
  : list (option A * option B) :=
  match l1, l2 with
  | [], [] => []
  | x :: l1', [] => (Some x, None) :: zip_longest l1' []
  | [], y :: l2' => (None, Some y) :: map (fun y => (None, Some y)) l2'
  | x :: l1', y :: l2' => (Some x, Some y) :: zip_longest l1' l2'
  end.

(** [enumerate(l)]. *)
Definition enumerate {A : Type} (l : list A) : list (nat * A) :=
  combine (seq 0 (List.length l)) l.

(** [max(a, b)] on floats: [b] when it is greater than [a], else [a]. *)
Definition max (a b : Q) : Q :=
  match (a ?= b)%Q with
  | Lt => b
  | _ => a
  end.

(** [numpy.max] and [numpy.argmax] of a non-empty array (the first maximum
    wins); [None] for the empty array, where numpy raises. *)
Fixpoint np_argmax_from (i best_i : nat) (best : Q) (l : list Q) : nat * Q :=
  match l with
  | [] => (best_i, best)
  | x :: l' =>
      match (best ?= x)%Q with
      | Lt => np_argmax_from (S i) i x l'
      | _ => np_argmax_from (S i) best_i best l'
      end
  end.

Definition np_argmax_max (l : list Q) : option (nat * Q) :=
  match l with
  | [] => None
  | x :: l' => Some (np_argmax_from 1 0 x l')
  end.

(** Rounding to the nearest integer, ties to even. *)
Definition round_half_even (q : Q) : Z :=
  let f := Qfloor q in
  match (q - inject_Z f ?= 1 # 2)%Q with
  | Lt => f
  | Gt => (f + 1)%Z
  | Eq => if Z.even f then f else (f + 1)%Z
  end.

Definition digit_char (n : Z) : ascii :=
  ascii_of_nat (48 + Z.to_nat n).

(** [f"{p:.2%}"] : [p] times 100 with two fractional digits and a percent
    sign; [h] below is the value in hundredths of a percent. *)
Definition format_percent (p : Q) : string :=
  let sign := match (p ?= 0)%Q with Lt => "-" | _ => EmptyString end in
  let h := round_half_even (Qabs p * 10000)%Q in
  sign ++ str_of_nat (Z.to_nat (h / 100)) ++ "."
       ++ String (digit_char ((h mod 100) / 10))
            (String (digit_char (h mod 10)) "%").

(** [c.lower()] for an ASCII character: the letters [A] to [Z] move to [a]
    to [z], the others stay. *)
Definition lower_char (c : ascii) : ascii :=
  let n := nat_of_ascii c in
  if (65 <=? n)%nat && (n <=? 90)%nat then ascii_of_nat (n + 32) else c.

(** [s.lower()] for a text of ASCII characters. *)
Fixpoint ascii_lower (s : string) : string :=
  match s with
  | EmptyString => EmptyString
  | String c s' => String (lower_char c) (ascii_lower s')
  end.

(** [s.isascii()]: every character is below 128. *)
Fixpoint isascii (s : string) : bool :=
  match s with
  | EmptyString => true
  | String c s' => (nat_of_ascii c <? 128)%nat && isascii s'
  end.

(** [str.lower] on any text follows the case mapping of Unicode: it sends the
    Kelvin sign (U+212A) to [k], and a text may come out longer than it went
    in. The mapping is not spelled out here: [lower] is a parameter, of which
    the development knows what it does on ASCII texts. *)
Class Unicode : Type := {
  lower : string -> string;
  lower_ascii : forall s, isascii s = true -> lower s = ascii_lower s
}.

(** [needle in hay] on strings: [needle] occurs in [hay] as a substring. On
    the UTF-8 bytes of two texts this is the same as on their code points. *)
Fixpoint contains (needle hay : string) : bool :=
  match hay with
  | EmptyString => prefix needle hay
  | String _ hay' => prefix needle hay || contains needle hay'
  end.

End Py.

(** ** Exceptions and results *)

(** The exceptions the handlers raise or catch. [HTTPException] derives from
    [Exception], so [except Exception] catches it. The [detail] of an
    [HTTPException] is kept as the template it is built from and the values
    put into it, not as rendered text. *)
Inductive exn : Type :=
| HTTPException (status_code : Z) (detail : http_detail)
| AttributeError (attribute : string)
| IndexError
| ValueError
| JSONDecodeError
| CollaboratorError (message : string)
with http_detail : Type :=
| ChatNotFound
| InvalidSymptoms (names : list string)
| DiseaseMappingNotFound
| PredictionFailed (cause : exn)
| FailedToProcessChat (cause : exn)
| FailedToRetrieveChatHistory (cause : exn)
| NoSymptomsFound
| InvalidSymptomsData
| FailedToParseSymptoms
| FailedToUpdateConfidence (cause : exn).

Inductive outcome (A : Type) : Type :=
| Returns (a : A)
| Raises (e : exn).

Arguments Returns {A} a.
Arguments Raises {A} e.

(** What a call to an external collaborator (classifier, chat model) gives:
    a value, or an exception [e], kept as the text [str(e)]. *)
Inductive reply (A : Type) : Type :=
| Reply (a : A)
| Failure (message : string).

Arguments Reply {A} a.
Arguments Failure {A} message.

(** ** Data model *)

(** One turn of a message log: [{'query': q, 'response': r}]. *)
Record Turn : Type := mkTurn {
  query : option string;
  response : option string
}.

(** The message log, in insertion order, keyed ["message1"], ["message2"], ... *)
Definition MessageLog : Type := list (string * Turn).

(** langchain messages handed to the chat model. *)
Inductive Message : Type :=
| HumanMessage (content : string)
| AIMessage (content : string).

(** The [messages] column as [json.loads] sees it. *)
Inductive MessagesText : Type :=
| MessagesNotJson
| MessagesNotDict
| MessagesDict (log : MessageLog).

(** The [symptoms] column when it is not [NULL]. *)
Inductive SymptomsText : Type :=
| SymptomsEmptyText
| SymptomsNotJson
| SymptomsNotList
| SymptomsList (names : list string).

(** A row of [ChatDetails]. [confidence] is read only while the table has the
    column. *)
Record ChatRow : Type := mkChatRow {
  user_id : Z;
  chat_id : Z;
  messages : MessagesText;
  disease : option string;
  symptoms : option SymptomsText;
  confidence : option string;
  created_at : string
}.

(** The database, as far as the chat endpoints use it. *)
Record DB : Type := mkDB {
  has_confidence_column : bool;
  ChatDetails : list ChatRow
}.

(** A fetched [sqlite3.Row] turned into a dict: the columns of the row as they
    were when the [SELECT *] ran; ["confidence"] is a key only if the table had
    the column then. *)
Record RowDict : Type := mkRowDict {
  columns_of : ChatRow;
  has_confidence_key : bool
}.

(** The system prompt of [conversation]: the fixed template, with the disease
    and the symptoms it is filled with. *)
Record SystemPrompt : Type := mkSystemPrompt {
  prompt_disease : option string;
  prompt_symptoms : option (list string)
}.

(** The module-level singletons of [utils.py]: the vocabulary, the disease
    table (rows [Encoded], [Disease]), the classifier (from a feature vector to
    the class probabilities [prediction[0]]) and the chat model (from the
    system prompt and the messages to the content of the answer). *)
Class Globals : Type := {
  SYMPTOMS : list string;
  disease_mapping : list (nat * string);
  PREDICTION_MODEL : list Z -> reply (list Q);
  CHAT_MODEL : SystemPrompt -> list Message -> reply string
}.

(** ** The world and its monad *)

(** What a handler can change: the database, and (for the statements about
    how often the classifier runs) the list of vectors the classifier was
    called with, latest first. *)
Record World : Type := mkWorld {
  database : DB;
  classifier_calls : list (list Z)
}.

Definition M (A : Type) : Type := World -> outcome A * World.

Definition ret {A : Type} (a : A) : M A := fun w => (Returns a, w).

Definition raise {A : Type} (e : exn) : M A := fun w => (Raises e, w).

Definition bind {A B : Type} (m : M A) (k : A -> M B) : M B :=
  fun w =>
    match m w with
    | (Returns a, w') => k a w'
    | (Raises e, w') => (Raises e, w')
    end.

(** [try: body except Exception as e: handler e]. What [body] committed before
    it raised stays committed. *)
Definition try_except {A : Type} (body : M A) (handler : exn -> M A) : M A :=
  fun w =>
    match body w with
    | (Returns a, w') => (Returns a, w')
    | (Raises e, w') => handler e w'
    end.

Definition read_db : M DB := fun w => (Returns (database w), w).

Definition write_db (d : DB) : M unit :=
  fun w => (Returns tt, mkWorld d (classifier_calls w)).

Declare Scope monad_scope.
Delimit Scope monad_scope with monad.
Notation "x <- c1 ;; c2" := (bind c1 (fun x => c2))
  (at level 100, c1 at next level, right associativity) : monad_scope.
Notation "c1 ;; c2" := (bind c1 (fun _ => c2))
  (at level 100, right associativity) : monad_scope.
#[local] Open Scope monad_scope.

(** [for x in l: body x], collecting what each iteration appends. *)
Fixpoint for_each {A B : Type} (body : A -> M B) (l : list A) : M (list B) :=
  match l with
  | [] => ret []
  | x :: l' =>
      y <- body x ;;
      ys <- for_each body l' ;;
      ret (y :: ys)
  end.

(** ** utils.py *)

Module Utils.

(** A [pandas.DataFrame] with the single row of index 0: the column labels in
    order, each with its cell. *)
Definition DataFrame : Type := list (string * Z).

Definition columns (df : DataFrame) : list string := map fst df.

(** [df.values], the row as an array. *)
Definition values (df : DataFrame) : list Z := map snd df.

(** [pd.DataFrame(columns=cols)] followed by [df.loc[0] = 0]. *)
Definition zero_frame (cols : list string) : DataFrame :=
  map (fun c => (c, 0%Z)) cols.

(** [symp in df.columns]. *)
Definition in_columns (symp : string) (df : DataFrame) : bool :=
  existsb (String.eqb symp) (columns df).

(** [df[symp] = v] for a label among the columns: every column of that label
    is set. *)
Definition set_column (symp : string) (v : Z) (df : DataFrame) : DataFrame :=
  map (fun cell => if fst cell =? symp then (fst cell, v) else cell) df.

Section WithGlobals.
Context `{Globals}.

Definition create_input_vector (selected_symptoms : list string) : DataFrame :=
  fold_left
    (fun df symp => if in_columns symp df then set_column symp 1%Z df else df)
    selected_symptoms
    (zero_frame SYMPTOMS).

End WithGlobals.
End Utils.

(** ** backend/chat.py *)

Module Chat.

Definition SUGGESTED_QUERIES : list string :=
  [ "Explain my disease in simple words";
    "Is this curable? If yes, how long?";
    "Write prescription & health tips";
    "When should I see a doctor?" ].

Definition newline : string := String (ascii_of_nat 10) EmptyString.

(** [_QUERY_MAP.get(query, (None, "Disease: {disease}\n{query_text}"))[1]
      .format(disease=disease, query_text=query)] *)
Definition human_message_text (disease : option string) (query : string)
  : string :=
  let d := Py.str_opt disease in
  if query =? nth 0 SUGGESTED_QUERIES EmptyString then
    "Explain my " ++ d ++ " in simple words."
  else if query =? nth 1 SUGGESTED_QUERIES EmptyString then
    "Is " ++ d ++ " curable? If yes, how long?"
  else if query =? nth 2 SUGGESTED_QUERIES EmptyString then
    "Write prescription & health tips for me to recover from " ++ d ++ "."
  else if query =? nth 3 SUGGESTED_QUERIES EmptyString then
    "When should I see a doctor for my " ++ d ++ "?"
  else
    "Disease: " ++ d ++ newline ++ query.

Section WithGlobals.
Context `{Globals}.

(** [_invoke_and_record] with [parser=None]. The list [conversation] is
    shared with the caller and appended to in place, so the function gives
    back the list as it leaves it, next to what it returns or raises. *)
Definition _invoke_and_record (system_msg : SystemPrompt)
    (conversation : list Message) : outcome string * list Message :=
  match CHAT_MODEL system_msg conversation with
  | Failure e =>
      let err_text := ("Error invoking model: " ++ e)%string in
      (Raises (CollaboratorError e), conversation ++ [AIMessage err_text])
  | Reply ai_content =>
      (Returns ai_content, conversation ++ [AIMessage ai_content])
  end.

(** [get_query]; [timestamp] is what the clock reads when the model has
    answered. *)
Definition get_query (query : string) (system_msg : SystemPrompt)
    (conversation : list Message) (disease : option string)
    (timestamp : string)
  : outcome (string * string) * list Message :=
  let conversation :=
    conversation ++ [HumanMessage (human_message_text disease query)] in
  match _invoke_and_record system_msg conversation with
  | (Returns ai_content, conversation) =>
      (Returns (ai_content, timestamp), conversation)
  | (Raises e, conversation) => (Raises e, conversation)
  end.

End WithGlobals.

(** [chat_history(queries, responses)]. *)
Definition chat_history (queries responses : list string) : MessageLog :=
  fold_left
    (fun messages item =>
       let '(i, (q, r)) := item in
       Py.dict_set ("message" ++ Py.str_of_nat (i + 1))%string (mkTurn q r)
         messages)
    (Py.enumerate (Py.zip_longest queries responses))
    [].

End Chat.

(** ** backend/db.py *)

Module Db.

(** [ALTER TABLE ChatDetails ADD COLUMN confidence TEXT]: the new column is
    [NULL] in every row. *)
Definition add_confidence_column (d : DB) : DB :=
  mkDB true
    (map (fun r => mkChatRow (user_id r) (chat_id r) (messages r) (disease r)
                     (symptoms r) None (created_at r))
       (ChatDetails d)).

(** [PRAGMA table_info], then the [ALTER TABLE] if ["confidence"] is not among
    the columns. *)
Definition ensure_confidence_column (d : DB) : DB :=
  if has_confidence_column d then d else add_confidence_column d.

(** [cursor.lastrowid] of an insert into the [AUTOINCREMENT] key of a table
    rows are never deleted from. *)
Definition next_chat_id (d : DB) : Z :=
  (fold_right Z.max 0 (map chat_id (ChatDetails d)) + 1)%Z.

(** [create_chat]. *)
Definition create_chat (user : Z) (time_str : string)
    (messages_dict : MessageLog) (disease_name : option string)
    (symptom_names : list string) (confidence_str : option string) : M Z :=
  (d <- read_db ;;
   let serialized_symptoms :=
     match symptom_names with
     | [] => None
     | _ => Some (SymptomsList symptom_names)
     end in
   let d := ensure_confidence_column d in
   let new_id := next_chat_id d in
   write_db (mkDB (has_confidence_column d)
               (ChatDetails d ++
                  [mkChatRow user new_id (MessagesDict messages_dict)
                     disease_name serialized_symptoms confidence_str
                     time_str])) ;;
   ret new_id)%monad.

(** [update_chat]: the log of the chat [chat] of [user] is replaced. *)
Definition update_chat (user chat : Z) (messages_dict : MessageLog) : M unit :=
  (d <- read_db ;;
   write_db
     (mkDB (has_confidence_column d)
        (map (fun r =>
                if (user_id r =? user)%Z && (chat_id r =? chat)%Z
                then mkChatRow (user_id r) (chat_id r)
                       (MessagesDict messages_dict) (disease r) (symptoms r)
                       (confidence r) (created_at r)
                else r)
           (ChatDetails d))))%monad.

End Db.

(** ** backend/schema.py *)

Module Schema.

Record PredictionResponse : Type := mkPredictionResponse {
  disease : string;
  confidence : string;
  symptoms_count : nat;
  chat_id : Z
}.

Record UserPrompt : Type := mkUserPrompt {
  prompt_chat_id : Z;
  query : string;
  sent_at : string
}.

Record LLMReponse : Type := mkLLMReponse {
  reply_chat_id : Z;
  response : string;
  response_at : string
}.

Record ChatDetails : Type := mkChatDetails {
  details_user_id : Z;
  details_chat_id : Z;
  details_messages : MessageLog;
  details_disease : option string;
  details_created_at : string;
  details_confidence : option string
}.

Record PaginationInfo : Type := mkPaginationInfo {
  page : nat;
  per_page : nat;
  total : nat;
  pages : nat
}.

Record ChatHistory : Type := mkChatHistory {
  chats : list ChatDetails;
  pagination : option PaginationInfo
}.

End Schema.

(** ** main.py *)

Module Main.

(** *** SQL statements of the handlers *)

(** [SELECT ... FROM ChatDetails WHERE chat_id = ? AND user_id = ?], then
    [fetchone()]. *)
Definition select_chat (d : DB) (chat user : Z) : option ChatRow :=
  find (fun r => (chat_id r =? chat)%Z && (user_id r =? user)%Z) (ChatDetails d).

(** [UPDATE ChatDetails SET messages = ? WHERE chat_id = ? AND user_id = ?]. *)
Definition update_messages (d : DB) (chat user : Z) (log : MessageLog) : DB :=
  mkDB (has_confidence_column d)
    (map (fun r =>
            if (chat_id r =? chat)%Z && (user_id r =? user)%Z
            then mkChatRow (user_id r) (chat_id r) (MessagesDict log)
                   (disease r) (symptoms r) (confidence r) (created_at r)
            else r)
       (ChatDetails d)).

(** [UPDATE ChatDetails SET confidence = ? WHERE chat_id = ?]. *)
Definition update_confidence_column (d : DB) (chat : Z) (value : string) : DB :=
  mkDB (has_confidence_column d)
    (map (fun r =>
            if (chat_id r =? chat)%Z
            then mkChatRow (user_id r) (chat_id r) (messages r) (disease r)
                   (symptoms r) (Some value) (created_at r)
            else r)
       (ChatDetails d)).

(** [SELECT * FROM ChatDetails WHERE user_id = ? ORDER BY created_at DESC
    LIMIT ? OFFSET ?]; rows of equal [created_at] are left in table order. *)
Definition select_page (d : DB) (user : Z) (limit offset : nat) : list RowDict :=
  let mine := filter (fun r => (user_id r =? user)%Z) (ChatDetails d) in
  let ordered :=
    Py.stable_sort (fun a b => String.leb (created_at b) (created_at a)) mine in
  map (fun r => mkRowDict r (has_confidence_column d))
    (firstn limit (skipn offset ordered)).

(** [SELECT COUNT( * ) FROM ChatDetails WHERE user_id = ?]. *)
Definition count_chats (d : DB) (user : Z) : nat :=
  List.length (filter (fun r => (user_id r =? user)%Z) (ChatDetails d)).

(** *** The connection object

    [get_db] yields a plain [sqlite3.Connection]. Its type has no instance
    dictionary, so the attribute [_compute_count] is never there:
    [getattr(conn, '_compute_count', default)] is [default], and
    [setattr(conn, '_compute_count', v)] raises [AttributeError]. *)
Definition getattr_compute_count (default : nat) : nat := default.

Definition setattr_compute_count (v : nat) : M unit :=
  raise (AttributeError "_compute_count").

(** *** Replaying a message log *)

(** The sort key of [conversation]:
    [int(k.replace('message', '')) if k.replace('message', '').isdigit() else 0] *)
Definition message_number (k : string) : nat :=
  let digits := Py.replace_with_empty "message" k in
  if Py.isdigit digits then Py.int digits else 0.

(** The messages one turn adds to the conversation. *)
Definition replay_turn (msg : Turn) : list Message :=
  (match query msg with
   | Some q => if Py.truthy (Some q) then [HumanMessage q] else []
   | None => []
   end)
  ++
  (match response msg with
   | Some r => if Py.truthy (Some r) then [AIMessage r] else []
   | None => []
   end).

Definition sorted_keys (stored_history : MessageLog) : list string :=
  Py.sorted message_number (Py.keys stored_history).

(** The loop over [sorted_keys]; [stored_history[msg_key]] is there for every
    key of the dict. *)
Definition build_conversation (stored_history : MessageLog) : list Message :=
  flat_map
    (fun msg_key =>
       match Py.dict_get stored_history msg_key with
       | Some msg => replay_turn msg
       | None => []
       end)
    (sorted_keys stored_history).

(** [msg_numbers] of [conversation]. *)
Definition msg_numbers (stored_history : MessageLog) : list nat :=
  map (fun k => Py.int (Py.replace_with_empty "message" k))
    (filter (fun k => Py.isdigit (Py.replace_with_empty "message" k))
       (Py.keys stored_history)).

Definition next_msg_num (stored_history : MessageLog) : nat :=
  match stored_history with
  | [] => 1
  | _ =>
      match msg_numbers stored_history with
      | [] => 1
      | numbers => list_max numbers + 1
      end
  end.

Section WithGlobals.
Context `{Globals}.

(** [create_input_vector(...).values] handed to [PREDICTION_MODEL.predict];
    the call is recorded in the world. *)
Definition predict_proba (symptom_names : list string) : M (list Q) :=
  fun w =>
    let pred_arr := Utils.values (Utils.create_input_vector symptom_names) in
    let w' := mkWorld (database w) (pred_arr :: classifier_calls w) in
    match PREDICTION_MODEL pred_arr with
    | Reply prediction => (Returns prediction, w')
    | Failure e => (Raises (CollaboratorError e), w')
    end.

(** [np.argmax(prediction[0])] and [prediction[0].max()]. *)
Definition argmax_and_max (prediction : list Q) : M (nat * Q) :=
  match Py.np_argmax_max prediction with
  | Some r => ret r
  | None => raise ValueError
  end.

(** [disease_mapping.loc[disease_mapping['Encoded'] == c]['Disease'].iloc[0]] *)
Definition lookup_disease (predicted_class : nat) : M string :=
  match find (fun row => fst row =? predicted_class)%nat disease_mapping with
  | Some row => ret (snd row)
  | None => raise IndexError
  end.

(** [migrate_db], run once when the module is loaded, on a database whose
    tables exist. *)
Definition migrate_db : M unit :=
  (d <- read_db ;;
   write_db (Db.ensure_confidence_column d))%monad.

(** [GET /get_symptoms]: the names of the vocabulary that hold the query,
    both put in lower case by [str.lower], cut after the tenth. *)
Definition get_symptoms {U : Py.Unicode} (query : string) : list string :=
  let query_lower := Py.lower query in
  let filtered_symptoms :=
    filter (fun symptom => Py.contains query_lower (Py.lower symptom))
      SYMPTOMS in
  firstn 10 filtered_symptoms.

(** [POST /predict]. The request model admits a non-empty list of names
    only. *)
Definition predict (selected_symptoms : list string) (user : Z) (now : string)
  : M Schema.PredictionResponse :=
  try_except
    (let invalid_symptoms :=
       filter (fun s => negb (existsb (String.eqb s) SYMPTOMS))
         selected_symptoms in
     match invalid_symptoms with
     | _ :: _ => raise (HTTPException 400 (InvalidSymptoms invalid_symptoms))
     | [] =>
         prediction <- predict_proba selected_symptoms ;;
         best <- argmax_and_max prediction ;;
         let predicted_class := fst best in
         let probability := snd best in
         actual_disease <- lookup_disease predicted_class ;;
         let probability := Py.max (1 # 1000) probability in
         let confidence_str := Py.format_percent probability in
         new_chat <- Db.create_chat user now [] (Some actual_disease)
                       selected_symptoms (Some confidence_str) ;;
         ret (Schema.mkPredictionResponse actual_disease confidence_str
                (List.length selected_symptoms) new_chat)
     end)
    (fun e =>
       match e with
       | IndexError => raise (HTTPException 500 DiseaseMappingNotFound)
       | _ => raise (HTTPException 500 (PredictionFailed e))
       end).

(** [POST /chat-message]; [answered_at] is the clock reading [get_query]
    returns as its timestamp. *)
Definition conversation (user_query : Schema.UserPrompt) (user : Z)
    (answered_at : string) : M Schema.LLMReponse :=
  try_except
    (d <- read_db ;;
     match select_chat d (Schema.prompt_chat_id user_query) user with
     | None => raise (HTTPException 404 ChatNotFound)
     | Some chat_row =>
         selected_symptoms <-
           match symptoms chat_row with
           | None | Some SymptomsEmptyText => ret (Some [])
           | Some SymptomsNotJson => raise JSONDecodeError
           | Some SymptomsNotList => ret None
           | Some (SymptomsList names) => ret (Some names)
           end ;;
         let stored_history :=
           match messages chat_row with
           | MessagesDict log => log
           | MessagesNotDict | MessagesNotJson => []
           end in
         let system_prompt :=
           mkSystemPrompt (disease chat_row) selected_symptoms in
         let conversation := build_conversation stored_history in
         answer <-
           match fst (Chat.get_query (Schema.query user_query) system_prompt
                        conversation (disease chat_row) answered_at) with
           | Returns a => ret a
           | Raises e => raise e
           end ;;
         let response := fst answer in
         let response_at := snd answer in
         let new_message_key :=
           ("message" ++ Py.str_of_nat (next_msg_num stored_history))%string in
         let stored_history :=
           Py.dict_set new_message_key
             (mkTurn (Some (Schema.query user_query)) (Some response))
             stored_history in
         d <- read_db ;;
         write_db (update_messages d (Schema.prompt_chat_id user_query) user
                     stored_history) ;;
         ret (Schema.mkLLMReponse (Schema.prompt_chat_id user_query) response
                response_at)
     end)
    (fun e => raise (HTTPException 500 (FailedToProcessChat e))).

(** The flag [has_valid_confidence] of [chat_hist] for a fetched row [c]:
    the table has the column now, the row dict has the key, and the value is
    neither [None] nor one of [""], ["0%"], ["0.00%"]. *)
Definition has_valid_confidence (has_confidence_column : bool) (c : RowDict)
  : bool :=
  has_confidence_column && has_confidence_key c &&
  match confidence (columns_of c) with
  | None => false
  | Some v => negb (existsb (String.eqb v) [EmptyString; "0%"; "0.00%"])
  end.

(** The [try] block of [chat_hist] that settles [confidence_value] for one
    fetched row [c]. *)
Definition confidence_of_row (recompute_confidence : bool) (c : RowDict)
  : M (option string) :=
  try_except
    (let row_dict := columns_of c in
     d <- read_db ;;
     let has_confidence_column := has_confidence_column d in
     let has_valid_confidence :=
       has_valid_confidence has_confidence_column c in
     let confidence_value : option string := None in
     if has_valid_confidence then ret (confidence row_dict)
     else
       match symptoms row_dict with
       | None | Some SymptomsEmptyText => ret confidence_value
       | Some text =>
           let stored_symptoms :=
             match text with
             | SymptomsList names => names
             | _ => []
             end in
           match stored_symptoms with
           | [] => ret confidence_value
           | _ :: _ =>
               let should_compute :=
                 recompute_confidence
                 || match confidence_value with None => true | _ => false end
                 || negb has_confidence_column in
               budget <-
                 (if should_compute && negb recompute_confidence
                     && negb has_confidence_column
                  then
                    let compute_count := getattr_compute_count 0 in
                    if (5 <? compute_count)%nat
                    then ret (false, Some "0.10%")
                    else (setattr_compute_count (compute_count + 1) ;;
                          ret (should_compute, confidence_value))
                  else ret (should_compute, confidence_value)) ;;
               let should_compute := fst budget in
               let confidence_value := snd budget in
               if should_compute then
                 pred <- predict_proba stored_symptoms ;;
                 best <- argmax_and_max pred ;;
                 let prob := snd best in
                 let prob := Py.max (1 # 1000) prob in
                 let confidence_value := Py.format_percent prob in
                 d <- read_db ;;
                 let d := Db.ensure_confidence_column d in
                 write_db (update_confidence_column d (chat_id row_dict)
                             confidence_value) ;;
                 ret (Some confidence_value)
               else ret confidence_value
           end
       end)
    (fun e => ret (Some "0.10%")).

(** The body of the loop over [chat_data]. The preview the loop extracts from
    the first message is not part of the entry it appends and is left out;
    [created_at] is kept as the stored text. *)
Definition chat_details_of_row (user : Z) (recompute_confidence : bool)
    (c : RowDict) : M Schema.ChatDetails :=
  let messages_dict :=
    match messages (columns_of c) with
    | MessagesDict log => log
    | MessagesNotDict | MessagesNotJson => []
    end in
  confidence_value <- confidence_of_row recompute_confidence c ;;
  ret (Schema.mkChatDetails user (chat_id (columns_of c)) messages_dict
         (disease (columns_of c)) (created_at (columns_of c))
         confidence_value).

(** [GET /chat-history]. The framework admits [page >= 1] and
    [5 <= per_page <= 100] only. *)
Definition chat_hist (user : Z) (page per_page : nat)
    (include_messages recompute_confidence : bool) : M Schema.ChatHistory :=
  try_except
    (d <- read_db ;;
     let total_count := count_chats d user in
     let offset := (page - 1) * per_page in
     let chat_data := select_page d user per_page offset in
     match chat_data with
     | [] => ret (Schema.mkChatHistory [] None)
     | _ :: _ =>
         chats <- for_each (chat_details_of_row user recompute_confidence)
                    chat_data ;;
         let total_pages := (total_count + per_page - 1) / per_page in
         ret (Schema.mkChatHistory chats
                (Some (Schema.mkPaginationInfo page per_page total_count
                         total_pages)))
     end)
    (fun e => raise (HTTPException 500 (FailedToRetrieveChatHistory e))).

(** [POST /update-confidence]; gives back the chat id and the new confidence. *)
Definition update_confidence (chat : Z) (user : Z) : M (Z * string) :=
  try_except
    (d <- read_db ;;
     match select_chat d chat user with
     | None => raise (HTTPException 404 ChatNotFound)
     | Some chat_dict =>
         stored_symptoms <-
           match symptoms chat_dict with
           | None | Some SymptomsEmptyText =>
               raise (HTTPException 400 NoSymptomsFound)
           | Some SymptomsNotJson =>
               raise (HTTPException 400 FailedToParseSymptoms)
           | Some SymptomsNotList | Some (SymptomsList []) =>
               raise (HTTPException 400 InvalidSymptomsData)
           | Some (SymptomsList names) => ret names
           end ;;
         pred <- predict_proba stored_symptoms ;;
         best <- argmax_and_max pred ;;
         let prob := snd best in
         let prob := Py.max (1 # 1000) prob in
         let confidence_value := Py.format_percent prob in
         d <- read_db ;;
         let d := Db.ensure_confidence_column d in
         write_db (update_confidence_column d chat confidence_value) ;;
         ret (chat, confidence_value)
     end)
    (fun e =>
       match e with
       | HTTPException _ _ => raise e
       | _ => raise (HTTPException 500 (FailedToUpdateConfidence e))
       end).

End WithGlobals.
End Main.

(** ** main.py: accounts

    The account handlers work on the tables [UserProfile] and
    [RefreshTokens] only, which the chat handlers never touch; they are
    modelled on a state of their own. A handler commits once, at its end:
    when a statement raises before that, the connection is closed without
    commit and the tables are as they were. Random values (the bcrypt salt,
    the refresh token) and clock readings are arguments. *)

Module Auth.

Inductive Gender : Type := male | female | other.

(** The request and response models of [backend/schema.py]. *)
Module Models.

Record UserSignupRequest : Type := mkUserSignupRequest {
  signup_name : string;
  signup_email : string;
  signup_password : string;
  signup_age : Z;
  signup_bmi : Q;
  signup_gender : Gender
}.

Record UserLoginRequest : Type := mkUserLoginRequest {
  login_email : string;
  login_password : string
}.

Record UserProfile : Type := mkUserProfile {
  profile_user_id : Z;
  profile_name : string;
  profile_email : string;
  profile_age : Z;
  profile_bmi : Q;
  profile_gender : Gender;
  profile_created_at : string;
  profile_updated_at : string
}.

Record AuthSuccessResponse : Type := mkAuthSuccessResponse {
  message : string;
  user : UserProfile;
  access_token : string;
  refresh_token : string;
  token_type : string
}.

Record UserProfileUpdateRequest : Type := mkUserProfileUpdateRequest {
  new_name : option string;
  new_age : option Z;
  new_bmi : option Q;
  new_gender : option Gender;
  new_password : option string
}.

End Models.

(** A row of [UserProfile]. *)
Record UserRow : Type := mkUserRow {
  user_id : Z;
  name : string;
  email : string;
  password_hash : string;
  age : Z;
  bmi : Q;
  gender : Gender;
  created_at : string;
  updated_at : string
}.

(** A row of [RefreshTokens]. *)
Record TokenRow : Type := mkTokenRow {
  token_id : Z;
  token_user_id : Z;
  token : string;
  expires_at : string;
  token_created_at : string
}.

(** The two tables, and the greatest [token_id] handed out so far (the
    [AUTOINCREMENT] sequence; tokens are deleted, users are not). *)
Record Tables : Type := mkTables {
  UserProfile : list UserRow;
  RefreshTokens : list TokenRow;
  last_token_id : Z
}.

(** What a handler raises. *)
Inductive raised : Type :=
| HTTPException (status_code : Z) (detail : string)
| IntegrityError (constraint : string)
| TypeError.

Inductive result (A : Type) : Type :=
| Ok (a : A)
| Fails (e : raised).

Arguments Ok {A} a.
Arguments Fails {A} e.

(** The primitives of [utils.py] that rest on bcrypt and PyJWT:
    [hash_password password salt] is [bcrypt.hashpw] with the salt drawn by
    [bcrypt.gensalt]; [verify_password] is [bcrypt.checkpw];
    [create_access_token user_id utcnow] is the JWT with subject
    [str(user_id)] expiring 30 minutes after [utcnow]. *)
Class Crypto : Type := {
  hash_password : string -> string -> string;
  verify_password : string -> string -> bool;
  create_access_token : Z -> string -> string
}.

(** [SELECT ... FROM UserProfile WHERE email = ?], then [fetchone()]. *)
Definition select_user_by_email (t : Tables) (e : string) : option UserRow :=
  find (fun u => email u =? e) (UserProfile t).

(** [SELECT * FROM UserProfile WHERE user_id = ?], then [fetchone()]. *)
Definition select_user (t : Tables) (id : Z) : option UserRow :=
  find (fun u => (user_id u =? id)%Z) (UserProfile t).

(** [cursor.lastrowid] of an insert into [UserProfile]. *)
Definition next_user_id (t : Tables) : Z :=
  (fold_right Z.max 0 (map user_id (UserProfile t)) + 1)%Z.

(** [INSERT INTO RefreshTokens (user_id, token, expires_at, created_at)]:
    the column [token] is [UNIQUE]. *)
Definition insert_token (t : Tables) (owner : Z) (value expires now : string)
  : result Tables :=
  if existsb (fun r => token r =? value) (RefreshTokens t)
  then Fails (IntegrityError "RefreshTokens.token")
  else
    let id := (last_token_id t + 1)%Z in
    Ok (mkTables (UserProfile t)
          (RefreshTokens t ++ [mkTokenRow id owner value expires now])
          id).

(** The [UserProfile] model built from a row. *)
Definition profile_of (u : UserRow) : Models.UserProfile :=
  Models.mkUserProfile (user_id u) (name u) (email u) (age u) (bmi u)
    (gender u) (created_at u) (updated_at u).

Section WithCrypto.
Context `{Crypto}.

(** [POST /auth/signup]. [now] is the first clock reading, [refresh_expire]
    the second one plus seven days, [utcnow] the one of
    [create_access_token]. *)
Definition signup (request : Models.UserSignupRequest)
    (salt now fresh_token refresh_expire utcnow : string) (t : Tables)
  : result Models.AuthSuccessResponse * Tables :=
  match select_user_by_email t (Models.signup_email request) with
  | Some _ => (Fails (HTTPException 400 "Email already registered"), t)
  | None =>
      let hashed := hash_password (Models.signup_password request) salt in
      let new_id := next_user_id t in
      let inserted :=
        mkTables
          (UserProfile t ++
             [mkUserRow new_id (Models.signup_name request)
                (Models.signup_email request) hashed
                (Models.signup_age request) (Models.signup_bmi request)
                (Models.signup_gender request) now now])
          (RefreshTokens t) (last_token_id t) in
      let access := create_access_token new_id utcnow in
      match insert_token inserted new_id fresh_token refresh_expire now with
      | Fails e => (Fails e, t)
      | Ok t' =>
          match select_user t' new_id with
          | None => (Fails TypeError, t')
          | Some user_row =>
              (Ok (Models.mkAuthSuccessResponse "User created successfully"
                     (profile_of user_row) access fresh_token "bearer"),
               t')
          end
      end
  end.

(** [POST /auth/login]. *)
Definition login (request : Models.UserLoginRequest)
    (now fresh_token refresh_expire utcnow : string) (t : Tables)
  : result Models.AuthSuccessResponse * Tables :=
  match select_user_by_email t (Models.login_email request) with
  | None => (Fails (HTTPException 401 "Invalid email or password"), t)
  | Some user_row =>
      if negb (verify_password (Models.login_password request)
                 (password_hash user_row))
      then (Fails (HTTPException 401 "Invalid email or password"), t)
      else
        let access := create_access_token (user_id user_row) utcnow in
        match insert_token t (user_id user_row) fresh_token refresh_expire now
        with
        | Fails e => (Fails e, t)
        | Ok t' =>
            (Ok (Models.mkAuthSuccessResponse "Login successful"
                   (profile_of user_row) access fresh_token "bearer"),
             t')
        end
  end.

(** [POST /auth/refresh]: [SELECT ... WHERE token = ? AND expires_at > ?],
    the dates compared as texts. Gives the new access token. *)
Definition refresh_token (presented now utcnow : string) (t : Tables)
  : result string * Tables :=
  match find (fun r => (token r =? presented) && String.ltb now (expires_at r))
          (RefreshTokens t) with
  | None => (Fails (HTTPException 401 "Invalid or expired refresh token"), t)
  | Some token_row =>
      (Ok (create_access_token (token_user_id token_row) utcnow), t)
  end.

(** [POST /auth/logout]: [DELETE FROM RefreshTokens WHERE token = ?]. The
    handler does not look at [current_user]. *)
Definition logout (presented : string) (current_user : UserRow) (t : Tables)
  : result string * Tables :=
  (Ok "Logged out successfully",
   mkTables (UserProfile t)
     (filter (fun r => negb (token r =? presented)) (RefreshTokens t))
     (last_token_id t)).

(** The [UPDATE UserProfile SET ... WHERE user_id = ?] that [update_profile]
    builds from the fields of the request that are not [None]. *)
Definition apply_update (request : Models.UserProfileUpdateRequest)
    (salt now : string) (u : UserRow) : UserRow :=
  mkUserRow (user_id u)
    (match Models.new_name request with Some v => v | None => name u end)
    (email u)
    (match Models.new_password request with
     | Some p => hash_password p salt
     | None => password_hash u
     end)
    (match Models.new_age request with Some v => v | None => age u end)
    (match Models.new_bmi request with Some v => v | None => bmi u end)
    (match Models.new_gender request with Some v => v | None => gender u end)
    (created_at u) now.

(** [update_fields] is not empty. *)
Definition has_update (request : Models.UserProfileUpdateRequest) : bool :=
  match Models.new_name request, Models.new_age request,
        Models.new_bmi request, Models.new_gender request,
        Models.new_password request with
  | None, None, None, None, None => false
  | _, _, _, _, _ => true
  end.

(** [PUT /profile] for the user [current_user] that [get_current_user]
    found. *)
Definition update_profile (request : Models.UserProfileUpdateRequest)
    (current_user : UserRow) (salt now : string) (t : Tables)
  : result Models.UserProfile * Tables :=
  let id := user_id current_user in
  let t' :=
    if has_update request
    then mkTables
           (map (fun u => if (user_id u =? id)%Z
                          then apply_update request salt now u else u)
              (UserProfile t))
           (RefreshTokens t) (last_token_id t)
    else t in
  match select_user t' id with
  | None => (Fails TypeError, t')
  | Some updated_user => (Ok (profile_of updated_user), t')
  end.

End WithCrypto.
End Auth.

(** * Vocabulary of the statements *)

(** The frame with a 1 under every column whose label is in [sel]. *)
Definition one_hot (cols sel : list string) : Utils.DataFrame :=
  map (fun c => (c, if existsb (String.eqb c) sel then 1%Z else 0%Z)) cols.

(** The key [f'message{n}']. *)
Definition message_key (n : nat) : string := "message" ++ Py.str_of_nat n.

(** The entry [chat_history] writes for position [i] (counted from 0). *)
Definition history_entry (queries responses : list string) (i : nat)
  : string * Turn :=
  (message_key (i + 1), mkTurn (nth_error queries i) (nth_error responses i)).

(** The log [conversation] works on: the stored one, or the empty log when
    the column does not hold a JSON object. *)
Definition stored_log (row : ChatRow) : MessageLog :=
  match messages row with
  | MessagesDict log => log
  | MessagesNotDict | MessagesNotJson => []
  end.

(** The system prompt [conversation] builds for a row whose symptoms parse. *)
Definition prompt_of (row : ChatRow) : SystemPrompt :=
  mkSystemPrompt (disease row)
    match symptoms row with
    | None | Some SymptomsEmptyText => Some []
    | Some (SymptomsList names) => Some names
    | Some SymptomsNotList | Some SymptomsNotJson => None
    end.

(** The messages handed to the chat model: the replayed log, then the new
    query. *)
Definition context_of (row : ChatRow) (q : string) : list Message :=
  Main.build_conversation (stored_log row)
  ++ [HumanMessage (Chat.human_message_text (disease row) q)].

(** The text [f"{p:.2%}"] for a non-negative number of hundredths [h]: the
    integer part, a dot, two digits, a percent sign. *)
Definition percent_text (h : Z) : string :=
  Py.str_of_nat (Z.to_nat (h / 100)) ++ "."
    ++ String (Py.digit_char ((h mod 100) / 10))
         (String (Py.digit_char (h mod 10)) "%").

(** The row [create_chat] inserts. *)
Definition new_chat_row (user new_id : Z) (time_str : string)
    (messages_dict : MessageLog) (disease_name : option string)
    (symptom_names : list string) (confidence_str : option string) : ChatRow :=
  mkChatRow user new_id (MessagesDict messages_dict) disease_name
    match symptom_names with
    | [] => None
    | _ :: _ => Some (SymptomsList symptom_names)
    end
    confidence_str time_str.

(** The database after [create_chat]: the column is there, the new row comes
    last, under the next id. *)
Definition with_new_chat (d : DB) (user : Z) (time_str : string)
    (messages_dict : MessageLog) (disease_name : option string)
    (symptom_names : list string) (confidence_str : option string) : DB :=
  let d' := Db.ensure_confidence_column d in
  mkDB (has_confidence_column d')
    (ChatDetails d' ++
       [new_chat_row user (Db.next_chat_id d') time_str messages_dict
          disease_name symptom_names confidence_str]).

(** [r'] is [r] with, at most, another message log. *)
Definition same_but_messages (r r' : ChatRow) : Prop :=
  user_id r' = user_id r /\ chat_id r' = chat_id r
  /\ disease r' = disease r /\ symptoms r' = symptoms r
  /\ confidence r' = confidence r /\ created_at r' = created_at r.

(** [r'] is [r] with, at most, another confidence. *)
Definition same_but_confidence (r r' : ChatRow) : Prop :=
  user_id r' = user_id r /\ chat_id r' = chat_id r
  /\ messages r' = messages r /\ disease r' = disease r
  /\ symptoms r' = symptoms r /\ created_at r' = created_at r.

(** The [symptoms] column gives the handlers no name to compute from: it is
    [NULL], empty, not JSON, not a list, or the empty list. *)
Definition no_symptoms (column : option SymptomsText) : Prop :=
  match column with
  | Some (SymptomsList (_ :: _)) => False
  | _ => True
  end.

(** The row dict a [SELECT *] gives for the row [r] of the database [d]. *)
Definition fetched (d : DB) (r : ChatRow) : RowDict :=
  mkRowDict r (has_confidence_column d).

(** [w'] comes from [w] by a listing over [k] rows: rows keep their place and
    everything but their confidence, the [confidence] column is not dropped,
    and at most [k] classifier calls were added. *)
Definition listed_from (k : nat) (w w' : World) : Prop :=
  Forall2 same_but_confidence
    (ChatDetails (database w)) (ChatDetails (database w'))
  /\ (has_confidence_column (database w) = true ->
      has_confidence_column (database w') = true)
  /\ exists calls,
       classifier_calls w' = calls ++ classifier_calls w
       /\ List.length calls <= k.


(** The row [r] with the log [log]. *)
Definition with_log (log : MessageLog) (r : ChatRow) : ChatRow :=
  mkChatRow (user_id r) (chat_id r) (MessagesDict log) (disease r)
    (symptoms r) (confidence r) (created_at r).

(** Some account has the address [e]. *)
Definition registered (t : Auth.Tables) (e : string) : Prop :=
  exists u, In u (Auth.UserProfile t) /\ Auth.email u = e.

(** Some stored refresh token has the value [value]. *)
Definition token_stored (t : Auth.Tables) (value : string) : Prop :=
  exists r, In r (Auth.RefreshTokens t) /\ Auth.token r = value.

(** No two accounts share an address. *)
Definition emails_unique (t : Auth.Tables) : Prop :=
  NoDup (map Auth.email (Auth.UserProfile t)).

(** The row [signup] inserts for a request. *)
Definition signed_up_row (request : Auth.Models.UserSignupRequest)
    (id : Z) (hashed now : string) : Auth.UserRow :=
  Auth.mkUserRow id (Auth.Models.signup_name request)
    (Auth.Models.signup_email request) hashed
    (Auth.Models.signup_age request) (Auth.Models.signup_bmi request)
    (Auth.Models.signup_gender request) now now.

(** The token row [signup] and [login] insert. *)
Definition issued_token (t : Auth.Tables) (owner : Z)
    (value expires now : string) : Auth.TokenRow :=
  Auth.mkTokenRow (Auth.last_token_id t + 1) owner value expires now.

Section WithGlobals.
Context `{Globals}.

(** The names of [selected] the vocabulary knows. *)
Definition known_symptoms (selected : list string) : list string :=
  filter (fun s => existsb (String.eqb s) SYMPTOMS) selected.

(** The array the classifier gets for the symptoms [names]. *)
Definition vector_of (names : list string) : list Z :=
  Utils.values (Utils.create_input_vector names).

(** The world after one more classifier call and, when [stored] is a value,
    after writing it to the [confidence] of chat [chat] (the column is added
    first if the table lacks it). *)
Definition after_call (w : World) (names : list string) (chat : Z)
    (stored : option string) : World :=
  mkWorld
    match stored with
    | Some v =>
        Main.update_confidence_column
          (Db.ensure_confidence_column (database w)) chat v
    | None => database w
    end
    (vector_of names :: classifier_calls w).

(** [v] is what a handler computes for the symptoms [names]: the classifier
    answers, and [v] is its greatest probability, raised to 0.001 if lower,
    as a percentage. *)
Definition computed_confidence (names : list string) (v : string) : Prop :=
  exists prediction best,
    PREDICTION_MODEL (vector_of names) = Reply prediction
    /\ Py.np_argmax_max prediction = Some best
    /\ v = Py.format_percent (Py.max (1 # 1000) (snd best)).



(** The names of [selected] outside the vocabulary, in their order:
    [invalid_symptoms] of [predict]. *)
Definition unknown_symptoms (selected : list string) : list string :=
  filter (fun s => negb (existsb (String.eqb s) SYMPTOMS)) selected.

(** The world once the classifier has been called for [names]. *)
Definition after_classifier (w : World) (names : list string) : World :=
  mkWorld (database w) (vector_of names :: classifier_calls w).

End WithGlobals.

(** ** Fixtures *)

Module Demo.

(** A classifier sure at 75% of class 1, and a chat model with one answer. *)
Definition globals : Globals := {|
  SYMPTOMS := ["fever"; "cough"; "rash"];
  disease_mapping := [(0, "Flu"); (1, "Measles")];
  PREDICTION_MODEL := fun _ => Reply [(1 # 4)%Q; (3 # 4)%Q];
  CHAT_MODEL := fun _ _ => Reply "Rest and drink water."
|}.


(** A classifier that gives probability 0 to every class. *)
Definition globals_zero : Globals := {|
  SYMPTOMS := ["fever"; "cough"; "rash"];
  disease_mapping := [(0, "Flu"); (1, "Measles")];
  PREDICTION_MODEL := fun _ => Reply [0%Q; 0%Q];
  CHAT_MODEL := fun _ _ => Reply "Rest and drink water."
|}.

(** A classifier that raises. *)
Definition globals_classifier_down : Globals := {|
  SYMPTOMS := ["fever"; "cough"; "rash"];
  disease_mapping := [(0, "Flu"); (1, "Measles")];
  PREDICTION_MODEL := fun _ => Failure "model not loaded";
  CHAT_MODEL := fun _ _ => Reply "Rest and drink water."
|}.

(** A log stored out of key order, with a turn that holds nothing. *)
Definition shuffled_log : MessageLog :=
  [ ("message3", mkTurn (Some "And rest?") (Some "Yes."));
    ("message1", mkTurn (Some "Is it serious?") (Some "Rarely."));
    ("message10", mkTurn (Some "Thanks") None);
    ("message2", mkTurn None (Some EmptyString)) ].

Definition ordered_log : MessageLog :=
  [ ("message1", mkTurn (Some "Is it serious?") (Some "Rarely."));
    ("message2", mkTurn None (Some EmptyString));
    ("message3", mkTurn (Some "And rest?") (Some "Yes."));
    ("message10", mkTurn (Some "Thanks") None) ].

(** A chat of user 1 with the symptom ["fever"]. *)
Definition chat (id : Z) (log : MessageLog) (stored_confidence : option string)
    (time_str : string) : ChatRow :=
  mkChatRow 1 id (MessagesDict log) (Some "Flu")
    (Some (SymptomsList ["fever"])) stored_confidence time_str.

Definition world_of (rows : list ChatRow) : World :=
  mkWorld (mkDB true rows) [].

(** One chat with the shuffled log. *)
Definition one_chat : World :=
  world_of [chat 1 shuffled_log (Some "73.42%") "2025-01-01T10:00:00"].

(** Seven chats that never had a confidence stored. *)
Definition seven_chats : World :=
  world_of
    (map (fun i => chat (Z.of_nat i) [] None
                     ("2025-01-0" ++ Py.str_of_nat i ++ "T10:00:00"))
       (seq 1 7)).

Definition question : Schema.UserPrompt :=
  Schema.mkUserPrompt 1 "What should I eat?" "2025-01-02T09:00:00".

(** A stand-in for bcrypt and PyJWT, to run the account handlers. *)
Definition crypto : Auth.Crypto := {|
  Auth.hash_password := fun password salt => ("bcrypt$" ++ password)%string;
  Auth.verify_password :=
    fun password hashed => (hashed =? "bcrypt$" ++ password)%string;
  Auth.create_access_token :=
    fun id utcnow => ("jwt." ++ Py.str_of_nat (Z.to_nat id) ++ "." ++ utcnow)%string
|}.

Definition al_request : Auth.Models.UserSignupRequest :=
  Auth.Models.mkUserSignupRequest "Al" "a@x.com" "secret1" 30 (22 # 1)
    Auth.male.

Definition no_accounts : Auth.Tables := Auth.mkTables [] [] 0.

(** The tables once Al has signed up. *)
Definition al_signed_up : Auth.Tables :=
  snd (Auth.signup (H := crypto) al_request "salt" "2025-01-01T10:00:00"
         "token-1" "2025-01-08T10:00:00" "2025-01-01T09:00:00" no_accounts).

(** A stand-in for [str.lower], right on ASCII texts: the fixtures hold no
    other. *)
Definition unicode : Py.Unicode := {|
  Py.lower := Py.ascii_lower;
  Py.lower_ascii := fun _ _ => eq_refl
|}.

End Demo.

(** * Properties *)

(** ** The symptom vectorizer *)

Section Vectorizer.
Context `{Globals}.

Lemma existsb_eqb_In (x : string) (l : list string) :
  existsb (String.eqb x) l = true <-> In x l.
Proof.
  rewrite existsb_exists. split.
  - intros (y & Hy & E). apply String.eqb_eq in E. now subst.
  - intros Hx. exists x. split; [assumption | apply String.eqb_refl].
Qed.

Lemma existsb_eqb_app_single (c s : string) (acc : list string) :
  existsb (String.eqb c) (acc ++ [s]) =
  existsb (String.eqb c) acc || (c =? s).
Proof. rewrite existsb_app. simpl. now rewrite orb_false_r. Qed.

Lemma columns_one_hot (cols sel : list string) :
  Utils.columns (one_hot cols sel) = cols.
Proof.
  unfold Utils.columns, one_hot. rewrite map_map. simpl. apply map_id.
Qed.

Lemma vectorizer_step (cols acc : list string) (s : string) :
  (if Utils.in_columns s (one_hot cols acc)
   then Utils.set_column s 1%Z (one_hot cols acc)
   else one_hot cols acc) = one_hot cols (acc ++ [s]).
Proof.
  unfold Utils.in_columns. rewrite columns_one_hot.
  destruct (existsb (String.eqb s) cols) eqn:E.
  - unfold Utils.set_column, one_hot. rewrite map_map. apply map_ext.
    intros c. simpl. rewrite existsb_eqb_app_single.
    destruct (c =? s); [now rewrite orb_true_r | now rewrite orb_false_r].
  - unfold one_hot. apply map_ext_in. intros c Hc.
    rewrite existsb_eqb_app_single.
    destruct (c =? s) eqn:Ecs; [| now rewrite orb_false_r].
    apply String.eqb_eq in Ecs. subst c.
    apply existsb_eqb_In in Hc. congruence.
Qed.

Lemma vectorizer_fold (cols sel acc : list string) :
  fold_left
    (fun df symp =>
       if Utils.in_columns symp df then Utils.set_column symp 1%Z df else df)
    sel (one_hot cols acc)
  = one_hot cols (acc ++ sel).
Proof.
  revert acc. induction sel as [| s sel IH]; intros acc; simpl.
  - now rewrite app_nil_r.
  - rewrite vectorizer_step, IH, <- app_assoc. reflexivity.
Qed.

Lemma create_input_vector_eq (selected : list string) :
  Utils.create_input_vector selected = one_hot SYMPTOMS selected.
Proof.
  unfold Utils.create_input_vector.
  change (Utils.zero_frame SYMPTOMS) with (one_hot SYMPTOMS []).
  now rewrite vectorizer_fold.
Qed.

Lemma count_ones_one_hot (cols sel : list string) :
  count_occ Z.eq_dec (Utils.values (one_hot cols sel)) 1%Z =
  List.length (filter (fun c => existsb (String.eqb c) sel) cols).
Proof.
  induction cols as [| c cols IH]; simpl; [reflexivity |].
  destruct (existsb (String.eqb c) sel); simpl.
  - destruct (Z.eq_dec 1 1); [| congruence]. now f_equal.
  - destruct (Z.eq_dec 0 1); [discriminate | assumption].
Qed.

Lemma one_hot_known (cols selected : list string) :
  (forall c, In c cols -> In c SYMPTOMS) ->
  one_hot cols (known_symptoms selected) = one_hot cols selected.
Proof.
  intros Hcols. unfold one_hot. apply map_ext_in. intros c Hc.
  replace (existsb (String.eqb c) (known_symptoms selected))
    with (existsb (String.eqb c) selected); [reflexivity |].
  apply eq_iff_eq_true. rewrite !existsb_eqb_In.
  unfold known_symptoms. rewrite filter_In, existsb_eqb_In.
  split; [| tauto]. intros Hin. split; [assumption | now apply Hcols].
Qed.

(** C7. With a vocabulary free of repetitions, the vector of any list
    [selected] of names has the length of the vocabulary, holds only zeros and
    ones, has a one exactly at the vocabulary indices of the names in
    [selected], and counts as many ones as there are distinct known names;
    names outside the vocabulary change nothing, and when every name is in
    the vocabulary the known names are all of [selected]. *)
Theorem create_input_vector_one_hot (selected : list string) :
  NoDup SYMPTOMS ->
  let vector := Utils.values (Utils.create_input_vector selected) in
  let known := known_symptoms selected in
  List.length vector = List.length SYMPTOMS
  /\ count_occ Z.eq_dec vector 1%Z = List.length (nodup string_dec known)
  /\ (forall i name,
         nth_error SYMPTOMS i = Some name ->
         nth_error vector i =
         Some (if in_dec string_dec name selected then 1%Z else 0%Z))
  /\ (forall i name, nth_error SYMPTOMS i = Some name ->
         (nth_error vector i = Some 1%Z <-> In name selected))
  /\ Utils.create_input_vector selected = Utils.create_input_vector known
  /\ (incl selected SYMPTOMS -> known = selected).
Proof.
  intros Hnodup vector known. subst vector.
  rewrite create_input_vector_eq.
  assert (Hnth : forall i name,
             nth_error SYMPTOMS i = Some name ->
             nth_error (Utils.values (one_hot SYMPTOMS selected)) i =
             Some (if in_dec string_dec name selected then 1%Z else 0%Z)).
  { intros i name Hi. unfold Utils.values, one_hot. rewrite map_map. simpl.
    rewrite nth_error_map, Hi. simpl. f_equal.
    destruct (in_dec string_dec name selected) as [Hin | Hout].
    - apply existsb_eqb_In in Hin. now rewrite Hin.
    - destruct (existsb (String.eqb name) selected) eqn:E; [| reflexivity].
      apply existsb_eqb_In in E. contradiction. }
  split; [| split; [| split; [| split; [| split]]]].
  - unfold Utils.values, one_hot. now rewrite !length_map.
  - rewrite count_ones_one_hot. apply Permutation_length.
    apply NoDup_Permutation.
    + now apply NoDup_filter.
    + apply NoDup_nodup.
    + intros x. rewrite filter_In, nodup_In. unfold known.
      unfold known_symptoms. rewrite filter_In, !existsb_eqb_In. tauto.
  - exact Hnth.
  - intros i name Hi. rewrite (Hnth i name Hi).
    destruct (in_dec string_dec name selected); split; intros E;
      solve [assumption | discriminate | reflexivity | contradiction].
  - rewrite create_input_vector_eq. symmetry. now apply one_hot_known.
  - intros Hincl. unfold known, known_symptoms.
    apply forallb_filter_id. apply forallb_forall. intros x Hx.
    apply existsb_eqb_In. now apply Hincl.
Qed.

End Vectorizer.

(** ** Decimal numerals and message keys *)

Section MessageKeys.

Lemma all_digits_string_of_uint (d : Decimal.uint) :
  Py.all_digits (NilEmpty.string_of_uint d) = true.
Proof. induction d; simpl; auto. Qed.

Lemma to_uint_not_nil (n : nat) : Nat.to_uint n <> Decimal.Nil.
Proof.
  rewrite <- (DecimalNat.Unsigned.of_to n) at 1.
  rewrite DecimalNat.Unsigned.to_of. apply DecimalFacts.unorm_nonnil.
Qed.

Lemma all_digits_str_of_nat (n : nat) : Py.all_digits (Py.str_of_nat n) = true.
Proof. apply all_digits_string_of_uint. Qed.

Lemma str_of_nat_not_empty (n : nat) : Py.str_of_nat n <> EmptyString.
Proof.
  unfold Py.str_of_nat. intros E.
  apply (to_uint_not_nil n).
  destruct (Nat.to_uint n); simpl in E; congruence.
Qed.

Lemma isdigit_str_of_nat (n : nat) : Py.isdigit (Py.str_of_nat n) = true.
Proof.
  generalize (all_digits_str_of_nat n) (str_of_nat_not_empty n).
  destruct (Py.str_of_nat n); simpl; congruence.
Qed.

Lemma int_str_of_nat (n : nat) : Py.int (Py.str_of_nat n) = n.
Proof.
  unfold Py.int, Py.str_of_nat. rewrite NilEmpty.usu.
  apply DecimalNat.Unsigned.of_to.
Qed.

Lemma str_of_nat_inj (n m : nat) : Py.str_of_nat n = Py.str_of_nat m -> n = m.
Proof.
  intros E. rewrite <- (int_str_of_nat n), <- (int_str_of_nat m).
  now rewrite E.
Qed.

Lemma prefix_message_digit (c : ascii) (s : string) :
  Py.is_digit c = true -> prefix "message" (String c s) = false.
Proof.
  intros Ec.
  change (prefix "message" (String c s))
    with (match ascii_dec "m" c with
          | left _ => prefix "essage" s
          | right _ => false
          end).
  destruct (ascii_dec "m" c) as [<- | _]; [discriminate | reflexivity].
Qed.

Lemma remove_from_cons (pat : string) (c : ascii) (s : string) :
  Py.remove_from pat 0 (String c s) =
  if prefix pat (String c s)
  then Py.remove_from pat (String.length pat - 1) s
  else String c (Py.remove_from pat 0 s).
Proof. reflexivity. Qed.

(** A string of digits holds no occurrence of ["message"]. *)
Lemma remove_from_digits (s : string) :
  Py.all_digits s = true -> Py.remove_from "message" 0 s = s.
Proof.
  induction s as [| c s IH]; [reflexivity |].
  intros E. cbn [Py.all_digits] in E.
  apply andb_true_iff in E. destruct E as [Ec Es].
  rewrite remove_from_cons, (prefix_message_digit c s Ec).
  now rewrite IH.
Qed.

Lemma strip_message_key (n : nat) :
  Py.replace_with_empty "message" (message_key n) = Py.str_of_nat n.
Proof.
  unfold message_key. cbn.
  replace (prefix EmptyString (Py.str_of_nat n)) with true
    by (now destruct (Py.str_of_nat n)).
  apply remove_from_digits, all_digits_str_of_nat.
Qed.

Lemma message_number_key (n : nat) : Main.message_number (message_key n) = n.
Proof.
  unfold Main.message_number. rewrite strip_message_key.
  now rewrite isdigit_str_of_nat, int_str_of_nat.
Qed.

Lemma message_key_inj (n m : nat) : message_key n = message_key m -> n = m.
Proof.
  intros E. rewrite <- (message_number_key n), <- (message_number_key m).
  now rewrite E.
Qed.

End MessageKeys.

(** ** Insertion-ordered dicts *)

Section Dicts.
Context {V : Type}.

Lemma dict_set_fresh (k : string) (v : V) (d : list (string * V)) :
  ~ In k (Py.keys d) -> Py.dict_set k v d = d ++ [(k, v)].
Proof.
  induction d as [| [k' v'] d IH]; simpl; intros Hfresh; [reflexivity |].
  destruct (k' =? k) eqn:E.
  - apply String.eqb_eq in E. tauto.
  - rewrite IH; [reflexivity | tauto].
Qed.

Lemma dict_get_app_fresh (k : string) (d1 d2 : list (string * V)) :
  ~ In k (Py.keys d1) -> Py.dict_get (d1 ++ d2) k = Py.dict_get d2 k.
Proof.
  induction d1 as [| [k' v'] d1 IH]; simpl; intros Hfresh; [reflexivity |].
  destruct (k' =? k) eqn:E.
  - apply String.eqb_eq in E. tauto.
  - apply IH. tauto.
Qed.

Lemma dict_get_app_old (k : string) (d1 d2 : list (string * V)) :
  In k (Py.keys d1) -> Py.dict_get (d1 ++ d2) k = Py.dict_get d1 k.
Proof.
  induction d1 as [| [k' v'] d1 IH]; simpl; intros Hin; [contradiction |].
  destruct (k' =? k) eqn:E; [reflexivity |].
  apply IH. destruct Hin as [-> | Hin]; [| assumption].
  now rewrite String.eqb_refl in E.
Qed.

End Dicts.

(** ** chat_history *)

Section ChatHistory.

Lemma zip_longest_nil_r {A B : Type} (l : list A) :
  Py.zip_longest l (@nil B) = map (fun x => (Some x, None)) l.
Proof. induction l; simpl; [reflexivity | now f_equal]. Qed.

Lemma zip_longest_nil_l {A B : Type} (l : list B) :
  Py.zip_longest (@nil A) l = map (fun y => (None, Some y)) l.
Proof. destruct l; reflexivity. Qed.

Lemma nth_error_zip_longest {A B : Type} (l1 : list A) (l2 : list B) (i : nat) :
  i < Nat.max (List.length l1) (List.length l2) ->
  nth_error (Py.zip_longest l1 l2) i = Some (nth_error l1 i, nth_error l2 i).
Proof.
  revert l2 i. induction l1 as [| x l1 IH]; intros l2 i Hi.
  - rewrite zip_longest_nil_l, nth_error_map. simpl in Hi.
    destruct (nth_error l2 i) eqn:E; simpl.
    + now destruct i.
    + apply nth_error_None in E. lia.
  - destruct l2 as [| y l2].
    + rewrite zip_longest_nil_r, nth_error_map. simpl in Hi.
      destruct (nth_error (x :: l1) i) eqn:E; simpl.
      * now destruct i.
      * apply nth_error_None in E. simpl in E. lia.
    + destruct i as [| i]; simpl; [reflexivity |].
      apply IH. simpl in Hi. lia.
Qed.

Lemma length_zip_longest {A B : Type} (l1 : list A) (l2 : list B) :
  List.length (Py.zip_longest l1 l2) =
  Nat.max (List.length l1) (List.length l2).
Proof.
  revert l2. induction l1 as [| x l1 IH]; intros l2.
  - rewrite zip_longest_nil_l, length_map. reflexivity.
  - destruct l2 as [| y l2].
    + rewrite zip_longest_nil_r, length_map. reflexivity.
    + simpl. now rewrite IH.
Qed.

Lemma chat_history_fold (items : list (option string * option string))
    (start : nat) (acc : MessageLog) :
  (forall k, In k (Py.keys acc) -> exists j, j < start /\ k = message_key (j + 1)) ->
  fold_left
    (fun messages item =>
       let '(i, (q, r)) := item in
       Py.dict_set ("message" ++ Py.str_of_nat (i + 1))%string (mkTurn q r)
         messages)
    (combine (seq start (List.length items)) items) acc
  = acc ++ map (fun item => (message_key (fst item + 1),
                             mkTurn (fst (snd item)) (snd (snd item))))
             (combine (seq start (List.length items)) items).
Proof.
  revert start acc. induction items as [| [q r] items IH]; intros start acc Hacc.
  - simpl. now rewrite app_nil_r.
  - simpl. rewrite dict_set_fresh.
    + rewrite IH.
      * rewrite <- app_assoc. reflexivity.
      * intros k Hk. unfold Py.keys in Hk. rewrite map_app in Hk.
        apply in_app_or in Hk. destruct Hk as [Hk | Hk].
        -- destruct (Hacc k Hk) as (j & Hj & ->). exists j. split; [lia | easy].
        -- simpl in Hk. destruct Hk as [<- | []]. exists start.
           split; [lia | reflexivity].
    + intros Hin. destruct (Hacc _ Hin) as (j & Hj & E).
      apply message_key_inj in E. lia.
Qed.

End ChatHistory.

Section ChatHistoryEntries.

Lemma combine_seq_map {A : Type} (h : nat -> A) (items : list A) (start : nat) :
  (forall i, i < List.length items -> nth_error items i = Some (h (start + i))) ->
  combine (seq start (List.length items)) items =
  map (fun i => (i, h i)) (seq start (List.length items)).
Proof.
  revert start. induction items as [| x items IH]; intros start Hh.
  - reflexivity.
  - simpl. f_equal.
    + specialize (Hh 0 (Nat.lt_0_succ _)). simpl in Hh.
      rewrite Nat.add_0_r in Hh. congruence.
    + apply IH. intros i Hi.
      specialize (Hh (S i) (proj1 (Nat.succ_lt_mono _ _) Hi)). simpl in Hh.
      now rewrite Nat.add_succ_r in Hh.
Qed.

Lemma chat_history_eq (queries responses : list string) :
  Chat.chat_history queries responses =
  map (history_entry queries responses)
    (seq 0 (Nat.max (List.length queries) (List.length responses))).
Proof.
  unfold Chat.chat_history, Py.enumerate.
  rewrite chat_history_fold by (intros k []).
  rewrite (combine_seq_map
             (fun i => (nth_error queries i, nth_error responses i))).
  - simpl. rewrite map_map, length_zip_longest. reflexivity.
  - intros i Hi. rewrite length_zip_longest in Hi.
    now apply nth_error_zip_longest.
Qed.

Lemma dict_get_In {V : Type} (d : list (string * V)) (k : string) (v : V) :
  NoDup (Py.keys d) -> In (k, v) d -> Py.dict_get d k = Some v.
Proof.
  induction d as [| [k' v'] d IH]; simpl; intros Hnd Hin; [contradiction |].
  inversion Hnd as [| ? ? Hfresh Hnd']; subst.
  destruct Hin as [E | Hin].
  - inversion E; subst. now rewrite String.eqb_refl.
  - destruct (k' =? k) eqn:E.
    + apply String.eqb_eq in E. subst k'. exfalso. apply Hfresh.
      change k with (fst (k, v)). now apply in_map.
    + now apply IH.
Qed.

Lemma NoDup_message_keys (n : nat) :
  NoDup (map (fun i => message_key (i + 1)) (seq 0 n)).
Proof.
  apply Finite.Injective_map_NoDup; [| apply seq_NoDup].
  intros i j E. apply message_key_inj in E. lia.
Qed.

(** C10. [chat_history queries responses] has max(|queries|, |responses|)
    entries, keyed [message1], [message2], ... in this order; entry [i]
    (counted from 1) holds the [i]-th query and the [i]-th response, each
    [None] past the end of its list. *)
Theorem chat_history_entries (queries responses : list string) :
  let n := Nat.max (List.length queries) (List.length responses) in
  let messages := Chat.chat_history queries responses in
  messages = map (history_entry queries responses) (seq 0 n)
  /\ List.length messages = n
  /\ Py.keys messages = map (fun i => message_key (i + 1)) (seq 0 n)
  /\ NoDup (Py.keys messages)
  /\ (forall i, i < n ->
        Py.dict_get messages (message_key (i + 1)) =
        Some (mkTurn (nth_error queries i) (nth_error responses i)))
  /\ message_key 1 = "message1".
Proof.
  intros n messages.
  assert (E : messages = map (history_entry queries responses) (seq 0 n))
    by apply chat_history_eq.
  assert (K : Py.keys messages = map (fun i => message_key (i + 1)) (seq 0 n)).
  { rewrite E. unfold Py.keys. rewrite map_map. reflexivity. }
  split; [exact E |]. split; [| split; [exact K | split; [| split]]].
  - rewrite E, length_map, length_seq. reflexivity.
  - rewrite K. apply NoDup_message_keys.
  - intros i Hi. apply dict_get_In.
    + rewrite K. apply NoDup_message_keys.
    + rewrite E.
      change (message_key (i + 1),
              mkTurn (nth_error queries i) (nth_error responses i))
        with (history_entry queries responses i).
      apply in_map, in_seq. lia.
  - reflexivity.
Qed.

End ChatHistoryEntries.

(** ** Replaying the message log in key order *)

Section Replay.

Section StableSort.
Context {A : Type} (key : A -> nat).

Lemma insert_by_perm (le : A -> A -> bool) (x : A) (l : list A) :
  Permutation (Py.insert_by le x l) (x :: l).
Proof.
  induction l as [| y l IH]; simpl; [reflexivity |].
  destruct (le x y); [reflexivity |].
  rewrite IH. apply perm_swap.
Qed.

Lemma sorted_perm (l : list A) : Permutation (Py.sorted key l) l.
Proof.
  unfold Py.sorted, Py.stable_sort.
  induction l as [| x l IH]; simpl; [reflexivity |].
  rewrite insert_by_perm. now constructor.
Qed.

Lemma insert_by_sorted (x : A) (l : list A) :
  StronglySorted (fun a b => key a <= key b) l ->
  StronglySorted (fun a b => key a <= key b)
    (Py.insert_by (fun a b => Nat.leb (key a) (key b)) x l).
Proof.
  induction l as [| y l IH]; simpl; intros Hs.
  - repeat constructor.
  - inversion Hs as [| ? ? Hs' Hy]; subst.
    destruct (Nat.leb_spec (key x) (key y)) as [Hle | Hgt].
    + constructor; [assumption |]. constructor; [assumption |].
      eapply Forall_impl; [| exact Hy]. simpl. intros. lia.
    + constructor; [now apply IH |].
      eapply Permutation_Forall.
      * symmetry. apply insert_by_perm.
      * constructor; [lia | assumption].
Qed.

Lemma sorted_sorted (l : list A) :
  StronglySorted (fun a b => key a <= key b) (Py.sorted key l).
Proof.
  unfold Py.sorted, Py.stable_sort.
  induction l as [| x l IH]; simpl; [constructor |].
  now apply insert_by_sorted.
Qed.

(** Two sorted arrangements of the same elements agree when no two elements
    share a key. *)
Lemma sorted_unique (l1 l2 : list A) :
  StronglySorted (fun a b => key a <= key b) l1 ->
  StronglySorted (fun a b => key a <= key b) l2 ->
  Permutation l1 l2 ->
  NoDup (map key l1) ->
  l1 = l2.
Proof.
  revert l2. induction l1 as [| a l1 IH]; intros l2 H1 H2 Hp Hnd.
  - apply Permutation_nil in Hp. now subst.
  - destruct l2 as [| b l2].
    + symmetry in Hp. apply Permutation_nil in Hp. discriminate.
    + inversion H1 as [| ? ? H1' Ha]; subst.
      inversion H2 as [| ? ? H2' Hb]; subst.
      inversion Hnd as [| ? ? Hfresh Hnd']; subst.
      assert (Eab : a = b).
      { assert (Hb_in : In b (a :: l1))
          by (eapply Permutation_in; [symmetry; exact Hp | now left]).
        assert (Ha_in : In a (b :: l2))
          by (eapply Permutation_in; [exact Hp | now left]).
        destruct Hb_in as [E | Hb_in]; [assumption |].
        destruct Ha_in as [E | Ha_in]; [now symmetry |].
        rewrite Forall_forall in Ha, Hb.
        specialize (Ha _ Hb_in). specialize (Hb _ Ha_in).
        exfalso. apply Hfresh.
        replace (key a) with (key b) by lia. now apply in_map. }
      subst b. f_equal. apply IH; try assumption.
      now apply Permutation_cons_inv in Hp.
Qed.

End StableSort.

Lemma dict_get_Some_In {V : Type} (d : list (string * V)) (k : string) (v : V) :
  Py.dict_get d k = Some v -> In (k, v) d.
Proof.
  induction d as [| [k' v'] d IH]; simpl; [discriminate |].
  destruct (k' =? k) eqn:E.
  - apply String.eqb_eq in E. intros [= ->]. subst. now left.
  - intros Hget. right. now apply IH.
Qed.

Lemma dict_get_None {V : Type} (d : list (string * V)) (k : string) :
  Py.dict_get d k = None -> ~ In k (Py.keys d).
Proof.
  induction d as [| [k' v'] d IH]; simpl; [tauto |].
  destruct (k' =? k) eqn:E; [discriminate |].
  intros Hget [-> | Hin]; [now rewrite String.eqb_refl in E | now apply IH].
Qed.

Lemma dict_get_perm {V : Type} (d d' : list (string * V)) (k : string) :
  NoDup (Py.keys d) -> Permutation d d' -> Py.dict_get d' k = Py.dict_get d k.
Proof.
  intros Hnd Hp.
  assert (Hnd' : NoDup (Py.keys d')).
  { eapply Permutation_NoDup; [| exact Hnd]. now apply Permutation_map. }
  destruct (Py.dict_get d k) as [v |] eqn:E.
  - apply dict_get_In; [assumption |].
    eapply Permutation_in; [exact Hp |]. now apply dict_get_Some_In.
  - destruct (Py.dict_get d' k) as [v' |] eqn:E'; [| reflexivity].
    exfalso. apply (dict_get_None _ _ E).
    apply dict_get_Some_In in E'.
    change k with (fst (k, v')). apply in_map.
    eapply Permutation_in; [symmetry; exact Hp | exact E'].
Qed.

Lemma NoDup_map_inv' {A B : Type} (f : A -> B) (l : list A) :
  NoDup (map f l) -> NoDup l.
Proof.
  induction l as [| x l IH]; simpl; intros Hnd; [constructor |].
  inversion Hnd; subst. constructor; [| now apply IH].
  intros Hin. now apply (in_map f) in Hin.
Qed.

Lemma build_conversation_perm (stored_history other : MessageLog) :
  Permutation other stored_history ->
  NoDup (map Main.message_number (Py.keys stored_history)) ->
  Main.build_conversation other = Main.build_conversation stored_history.
Proof.
  intros Hp Hnd.
  assert (Hkeys : NoDup (Py.keys stored_history))
    by (eapply NoDup_map_inv'; exact Hnd).
  assert (Hpk : Permutation (Py.keys other) (Py.keys stored_history))
    by (now apply Permutation_map).
  unfold Main.build_conversation.
  assert (Es : Main.sorted_keys other = Main.sorted_keys stored_history).
  { unfold Main.sorted_keys. apply (sorted_unique Main.message_number).
    - apply sorted_sorted.
    - apply sorted_sorted.
    - rewrite !sorted_perm. exact Hpk.
    - eapply Permutation_NoDup; [| exact Hnd].
      apply Permutation_map. symmetry. rewrite sorted_perm. exact Hpk. }
  rewrite Es. apply flat_map_ext. intros k.
  rewrite (dict_get_perm stored_history other k Hkeys); [reflexivity |].
  now symmetry.
Qed.

(** C8. The conversation replayed into the chat model goes through the keys
    of the stored log in ascending order of their number (for [messageN], the
    number [N]), whatever the order the log is stored in: it is the same for
    any two logs with the same entries when no two keys share a number. A
    turn adds its query, then its response, each only when present and not
    empty, so a turn with neither adds nothing. *)
Theorem replay_in_key_order (stored_history : MessageLog) :
  let order := Main.sorted_keys stored_history in
  Permutation order (Py.keys stored_history)
  /\ StronglySorted
       (fun a b => Main.message_number a <= Main.message_number b) order
  /\ (forall n, Main.message_number (message_key n) = n)
  /\ Main.build_conversation stored_history =
     flat_map
       (fun k =>
          match Py.dict_get stored_history k with
          | Some msg => Main.replay_turn msg
          | None => []
          end)
       order
  /\ (forall msg,
        Main.replay_turn msg =
        (if Py.truthy (query msg)
         then [HumanMessage (Py.str_opt (query msg))] else [])
        ++
        (if Py.truthy (response msg)
         then [AIMessage (Py.str_opt (response msg))] else []))
  /\ (forall msg,
        Py.truthy (query msg) = false -> Py.truthy (response msg) = false ->
        Main.replay_turn msg = [])
  /\ (forall other,
        Permutation other stored_history ->
        NoDup (map Main.message_number (Py.keys stored_history)) ->
        Main.build_conversation other = Main.build_conversation stored_history).
Proof.
  intros order.
  assert (Hturn : forall msg,
        Main.replay_turn msg =
        (if Py.truthy (query msg)
         then [HumanMessage (Py.str_opt (query msg))] else [])
        ++
        (if Py.truthy (response msg)
         then [AIMessage (Py.str_opt (response msg))] else [])).
  { intros [[q |] [r |]]; reflexivity. }
  split; [apply sorted_perm |].
  split; [apply sorted_sorted |].
  split; [exact message_number_key |].
  split; [reflexivity |].
  split; [exact Hturn |].
  split.
  - intros msg Hq Hr. now rewrite Hturn, Hq, Hr.
  - intros other. apply build_conversation_perm.
Qed.

End Replay.

(** ** The conversation endpoint *)

Section Conversation.
Context `{Globals}.

Lemma in_msg_numbers (log : MessageLog) (n : nat) :
  In (message_key n) (Py.keys log) -> In n (Main.msg_numbers log).
Proof.
  intros Hin. unfold Main.msg_numbers.
  rewrite <- (int_str_of_nat n), <- strip_message_key.
  apply (in_map (fun k => Py.int (Py.replace_with_empty "message" k))).
  apply filter_In. split; [assumption |].
  rewrite strip_message_key. apply isdigit_str_of_nat.
Qed.

Lemma list_max_bound (l : list nat) (n : nat) : In n l -> n <= list_max l.
Proof.
  intros Hin. assert (Hle := proj1 (list_max_le l (list_max l)) (le_n _)).
  rewrite Forall_forall in Hle. now apply Hle.
Qed.

Lemma next_msg_num_above (log : MessageLog) (n : nat) :
  In n (Main.msg_numbers log) -> n < Main.next_msg_num log.
Proof.
  intros Hin. unfold Main.next_msg_num.
  destruct log as [| entry log]; [contradiction |].
  destruct (Main.msg_numbers (entry :: log)) as [| m ms] eqn:E;
    [contradiction |].
  apply list_max_bound in Hin. lia.
Qed.

Lemma next_msg_num_max (log : MessageLog) :
  Main.msg_numbers log <> [] ->
  Main.next_msg_num log = list_max (Main.msg_numbers log) + 1.
Proof.
  intros Hne. unfold Main.next_msg_num.
  destruct log as [| entry log]; [now contradiction Hne |].
  destruct (Main.msg_numbers (entry :: log)); [now contradiction Hne |].
  reflexivity.
Qed.

Lemma next_msg_num_no_numbers (log : MessageLog) :
  Main.msg_numbers log = [] -> Main.next_msg_num log = 1.
Proof.
  intros E. unfold Main.next_msg_num. rewrite E. now destruct log.
Qed.

Lemma next_key_fresh (log : MessageLog) :
  ~ In (message_key (Main.next_msg_num log)) (Py.keys log).
Proof.
  intros Hin. apply in_msg_numbers, next_msg_num_above in Hin. lia.
Qed.

Lemma select_after_update (d : DB) (chat user : Z) (log : MessageLog) :
  Main.select_chat (Main.update_messages d chat user log) chat user =
  option_map
    (fun r => mkChatRow (user_id r) (chat_id r) (MessagesDict log) (disease r)
                (symptoms r) (confidence r) (created_at r))
    (Main.select_chat d chat user).
Proof.
  unfold Main.select_chat, Main.update_messages. simpl.
  induction (ChatDetails d) as [| r rows IH]; simpl; [reflexivity |].
  destruct ((chat_id r =? chat)%Z && (user_id r =? user)%Z) eqn:E; simpl.
  - now rewrite E.
  - rewrite E. exact IH.
Qed.

(** What [conversation] does when the chat is found and its symptoms
    parse. *)
Lemma conversation_found (user_query : Schema.UserPrompt) (user : Z)
    (answered_at : string) (w : World) (row : ChatRow) :
  Main.select_chat (database w) (Schema.prompt_chat_id user_query) user
  = Some row ->
  symptoms row <> Some SymptomsNotJson ->
  Main.conversation user_query user answered_at w =
  match CHAT_MODEL (prompt_of row) (context_of row (Schema.query user_query)) with
  | Reply answer =>
      (Returns (Schema.mkLLMReponse (Schema.prompt_chat_id user_query) answer
                  answered_at),
       mkWorld
         (Main.update_messages (database w) (Schema.prompt_chat_id user_query)
            user
            (stored_log row ++
               [(message_key (Main.next_msg_num (stored_log row)),
                 mkTurn (Some (Schema.query user_query)) (Some answer))]))
         (classifier_calls w))
  | Failure e =>
      (Raises (HTTPException 500 (FailedToProcessChat (CollaboratorError e))),
       w)
  end.
Proof.
  intros Hsel Hsym.
  unfold Main.conversation, try_except, bind, read_db. rewrite Hsel.
  unfold prompt_of, context_of.
  change (match messages row with
          | MessagesDict log => log
          | MessagesNotDict | MessagesNotJson => []
          end) with (stored_log row).
  generalize (next_key_fresh (stored_log row)).
  generalize (stored_log row). intros log Hfresh.
  unfold Chat.get_query, Chat._invoke_and_record.
  destruct (symptoms row) as [[| | | names] |] eqn:Esym;
    try (now contradiction Hsym);
    unfold ret, raise, write_db;
    match goal with
    | |- context [CHAT_MODEL ?p ?c] => destruct (CHAT_MODEL p c) as [answer | e]
    end;
    cbn [fst snd database classifier_calls]; try reflexivity;
    rewrite (dict_set_fresh (message_key (Main.next_msg_num log)) _ log Hfresh);
    reflexivity.
Qed.

(** What [conversation] does when no row matches the chat id and the user. *)
Lemma conversation_not_found (user_query : Schema.UserPrompt) (user : Z)
    (answered_at : string) (w : World) :
  Main.select_chat (database w) (Schema.prompt_chat_id user_query) user = None ->
  Main.conversation user_query user answered_at w =
  (Raises (HTTPException 500
             (FailedToProcessChat (HTTPException 404 ChatNotFound))), w).
Proof.
  intros Hsel. unfold Main.conversation, try_except, bind, read_db.
  now rewrite Hsel.
Qed.

End Conversation.

(** ** A chat turn *)

Section ChatTurn.
Context `{Globals}.

(** C9. For a chat that is found and whose symptoms parse: when the chat
    model answers, the pair (query, answer) is appended to the log under the
    key [message<n>], [n] being 1 for a log without numbered keys (an empty
    log among them) and one more than the greatest number otherwise, the
    updated log is what the row holds afterwards, and the answer is returned;
    when the chat model raises, the world is left as it was and the caller
    gets the error 500 "Failed to process chat". *)
Theorem conversation_turn (user_query : Schema.UserPrompt) (user : Z)
    (answered_at : string) (w : World) (row : ChatRow) :
  Main.select_chat (database w) (Schema.prompt_chat_id user_query) user
  = Some row ->
  symptoms row <> Some SymptomsNotJson ->
  let chat := Schema.prompt_chat_id user_query in
  let q := Schema.query user_query in
  let log := stored_log row in
  let n := Main.next_msg_num log in
  (forall answer,
      CHAT_MODEL (prompt_of row) (context_of row q) = Reply answer ->
      let log' := log ++ [(message_key n, mkTurn (Some q) (Some answer))] in
      Main.conversation user_query user answered_at w =
      (Returns (Schema.mkLLMReponse chat answer answered_at),
       mkWorld (Main.update_messages (database w) chat user log')
         (classifier_calls w))
      /\ option_map messages
           (Main.select_chat (Main.update_messages (database w) chat user log')
              chat user)
         = Some (MessagesDict log'))
  /\ (forall e,
        CHAT_MODEL (prompt_of row) (context_of row q) = Failure e ->
        Main.conversation user_query user answered_at w =
        (Raises (HTTPException 500 (FailedToProcessChat (CollaboratorError e))),
         w))
  /\ Main.next_msg_num [] = 1
  /\ (Main.msg_numbers log = [] -> n = 1)
  /\ (Main.msg_numbers log <> [] -> n = list_max (Main.msg_numbers log) + 1)
  /\ (forall m, In m (Main.msg_numbers log) -> m < n)
  /\ (forall m, In (message_key m) (Py.keys log) -> m < n)
  /\ ~ In (message_key n) (Py.keys log).
Proof.
  intros Hsel Hsym chat q log n.
  assert (Hrun := conversation_found user_query user answered_at w row
                    Hsel Hsym).
  split; [| split; [| split; [| split; [| split; [| split; [| split]]]]]].
  - intros answer Hanswer log'. split.
    + rewrite Hrun. fold q. now rewrite Hanswer.
    + rewrite select_after_update. fold chat in Hsel. now rewrite Hsel.
  - intros e He. rewrite Hrun. fold q. now rewrite He.
  - reflexivity.
  - apply next_msg_num_no_numbers.
  - apply next_msg_num_max.
  - apply next_msg_num_above.
  - intros m Hm. now apply next_msg_num_above, in_msg_numbers.
  - apply next_key_fresh.
Qed.

End ChatTurn.

(** The turn of [Demo.question] on [Demo.one_chat], whose keys go up to
    [message10]: the new turn is stored under [message11]. *)
Lemma conversation_turn_witness :
  Main.conversation (H := Demo.globals) Demo.question 1 "2025-01-02 09:00:01"
    Demo.one_chat
  = (Returns (Schema.mkLLMReponse 1 "Rest and drink water."
                "2025-01-02 09:00:01"),
     Demo.world_of
       [Demo.chat 1
          (Demo.shuffled_log ++
             [("message11",
               mkTurn (Some "What should I eat?")
                 (Some "Rest and drink water."))])
          (Some "73.42%") "2025-01-01T10:00:00"]).
Proof.
  destruct (@conversation_turn Demo.globals Demo.question 1
              "2025-01-02 09:00:01" Demo.one_chat
              (Demo.chat 1 Demo.shuffled_log (Some "73.42%")
                 "2025-01-01T10:00:00")
              eq_refl ltac:(discriminate)) as [Hok _].
  exact (proj1 (Hok "Rest and drink water." eq_refl)).
Defined.

(** C4 (the code departs from the claim). A chat-message request for a chat
    id that matches no row of the user ends in the error 500 whose detail
    wraps the 404 "Chat not found": the [HTTPException] raised inside the
    [try] block is caught by its [except Exception]. *)
Theorem conversation_unknown_chat_is_500 :
  Main.conversation (H := Demo.globals)
    (Schema.mkUserPrompt 99 "What should I eat?" "2025-01-02T09:00:00") 1
    "2025-01-02 09:00:01" Demo.one_chat
  = (Raises (HTTPException 500
               (FailedToProcessChat (HTTPException 404 ChatNotFound))),
     Demo.one_chat).
Proof. apply conversation_not_found. reflexivity. Qed.

(** ** The floor on the formatted confidence *)

Section ConfidenceFloor.

Lemma round_half_even_floor (q : Q) : (Qfloor q <= Py.round_half_even q)%Z.
Proof.
  unfold Py.round_half_even.
  destruct (q - inject_Z (Qfloor q) ?= 1 # 2)%Q;
    [destruct (Z.even (Qfloor q)) | |]; lia.
Qed.

Lemma py_max_floor (p : Q) : (1 # 1000 <= Py.max (1 # 1000) p)%Q.
Proof.
  unfold Py.max. destruct (1 # 1000 ?= p)%Q eqn:E; try apply Qle_refl.
  apply Qlt_le_weak. now apply Qlt_alt.
Qed.

Lemma py_max_below (p : Q) :
  (p <= 1 # 1000)%Q -> Py.max (1 # 1000) p = (1 # 1000)%Q.
Proof.
  intros Hle. unfold Py.max. destruct (1 # 1000 ?= p)%Q eqn:E; try reflexivity.
  apply Qlt_alt in E. exfalso. now apply (Qlt_not_le _ _ E).
Qed.

(** From 0.1% on, the value in hundredths of a percent is at least 10. *)
Lemma hundredths_floor (p : Q) :
  (1 # 1000 <= p)%Q -> (10 <= Py.round_half_even (Qabs p * 10000))%Z.
Proof.
  intros Hp.
  eapply Z.le_trans; [| apply round_half_even_floor].
  change 10%Z with (Qfloor (inject_Z 10)). apply Qfloor_resp_le.
  apply Qle_trans with (p * 10000)%Q.
  - apply Qle_trans with ((1 # 1000) * 10000)%Q; [now compute |].
    apply Qmult_le_compat_r; [assumption | now compute].
  - apply Qmult_le_compat_r; [apply Qle_Qabs | now compute].
Qed.

Lemma digit_char_zero (n : Z) :
  (0 <= n < 10)%Z -> Py.digit_char n = "0"%char -> n = 0%Z.
Proof.
  intros Hn E. unfold Py.digit_char in E.
  apply (f_equal nat_of_ascii) in E.
  rewrite nat_ascii_embedding in E by lia.
  change (nat_of_ascii "0") with 48 in E. lia.
Qed.

Lemma str_of_nat_zero (n : nat) : Py.str_of_nat n = "0" -> n = 0.
Proof. intros E. now apply str_of_nat_inj. Qed.

Lemma format_percent_positive (p : Q) :
  (1 # 1000 <= p)%Q ->
  Py.format_percent p = percent_text (Py.round_half_even (Qabs p * 10000)).
Proof.
  intros Hp. unfold Py.format_percent, percent_text.
  destruct (p ?= 0)%Q eqn:E; try reflexivity.
  apply Qlt_alt in E. exfalso.
  apply (Qlt_not_le _ _ E). apply Qle_trans with (1 # 1000)%Q; [now compute | assumption].
Qed.

(** A text made by [percent_text] is none of the values the validity check
    rejects, as soon as [h] is at least 10. *)
Lemma percent_text_not_rejected (h : Z) :
  (10 <= h)%Z ->
  percent_text h <> EmptyString /\ percent_text h <> "0%" /\ percent_text h <> "0.00%".
Proof.
  intros Hh. unfold percent_text.
  generalize (all_digits_str_of_nat (Z.to_nat (h / 100))).
  generalize (str_of_nat_zero (Z.to_nat (h / 100))).
  destruct (Py.str_of_nat (Z.to_nat (h / 100))) as [| c [| c' s]];
    intros Hzero Hdigits.
  - repeat split; discriminate.
  - repeat split; try discriminate.
    intros E. injection E as -> E1 E2.
    specialize (Hzero eq_refl).
    apply digit_char_zero in E1;
      [| split; [apply Z.div_pos; [apply Z.mod_pos_bound |]; lia
               | apply Z.div_lt_upper_bound; [lia |];
                 apply (Z.mod_pos_bound h 100); lia]].
    apply digit_char_zero in E2; [| apply Z.mod_pos_bound; lia].
    assert (h / 100 = 0)%Z by (assert (0 <= h / 100)%Z by (apply Z.div_pos; lia); lia).
    assert (Hmod : ((h mod 100) mod 10 = h mod 10)%Z).
    { apply Z.mod_mod_divide. exists 10%Z. reflexivity. }
    pose proof (Z.div_mod h 100 ltac:(lia)).
    pose proof (Z.div_mod (h mod 100) 10 ltac:(lia)).
    lia.
  - cbn [Py.all_digits] in Hdigits.
    apply andb_true_iff in Hdigits. destruct Hdigits as [_ Hdigits].
    apply andb_true_iff in Hdigits. destruct Hdigits as [Hc' _].
    repeat split; try discriminate;
      intros E; injection E as _ ->; discriminate.
Qed.

Lemma floored_not_rejected (p : Q) :
  let v := Py.format_percent (Py.max (1 # 1000) p) in
  v <> EmptyString /\ v <> "0%" /\ v <> "0.00%".
Proof.
  intros v. subst v.
  rewrite format_percent_positive by apply py_max_floor.
  apply percent_text_not_rejected, hundredths_floor, py_max_floor.
Qed.

Lemma py_max_above (p : Q) :
  (1 # 1000 < p)%Q -> Py.max (1 # 1000) p = p.
Proof.
  intros Hlt. unfold Py.max.
  destruct (1 # 1000 ?= p)%Q eqn:E; [| reflexivity |].
  - apply Qeq_alt in E. rewrite E in Hlt. now apply Qlt_irrefl in Hlt.
  - apply Qgt_alt in E. exfalso. apply (Qlt_irrefl p).
    now apply Qlt_trans with (1 # 1000)%Q.
Qed.

Lemma Qabs_positive (p : Q) : (0 < p)%Q -> Qabs p = p.
Proof.
  destruct p as [n d]. unfold Qlt, Qabs. cbn. intros Hp.
  f_equal. apply Z.abs_eq. lia.
Qed.

(** Above the floor the text is made from the probability itself. *)
Lemma floored_above_floor (p : Q) :
  (1 # 1000 < p)%Q ->
  Py.format_percent (Py.max (1 # 1000) p) = Py.format_percent p
  /\ Py.format_percent p = percent_text (Py.round_half_even (p * 10000)).
Proof.
  intros Hp. rewrite (py_max_above p Hp). split; [reflexivity |].
  rewrite format_percent_positive by now apply Qlt_le_weak.
  rewrite Qabs_positive; [reflexivity |].
  apply Qlt_trans with (1 # 1000)%Q; [now compute | exact Hp].
Qed.

Lemma floored_at_floor (p : Q) :
  (p <= 1 # 1000)%Q -> Py.format_percent (Py.max (1 # 1000) p) = "0.10%".
Proof. intros Hp. now rewrite py_max_below. Qed.

End ConfidenceFloor.

(** ** The confidence of a listed chat *)

Section RowConfidence.
Context `{Globals}.

(** [confidence_of_row] unfolded by cases. *)
Lemma confidence_of_row_cases (recompute : bool) (c : RowDict) (w : World) :
  Main.confidence_of_row recompute c w =
  if Main.has_valid_confidence (has_confidence_column (database w)) c
  then (Returns (confidence (columns_of c)), w)
  else
    match symptoms (columns_of c) with
    | Some (SymptomsList ((_ :: _) as names)) =>
        if negb recompute && negb (has_confidence_column (database w))
        then (Returns (Some "0.10%"), w)
        else
          match PREDICTION_MODEL (vector_of names) with
          | Failure _ =>
              (Returns (Some "0.10%"), after_call w names 0 None)
          | Reply prediction =>
              match Py.np_argmax_max prediction with
              | None => (Returns (Some "0.10%"), after_call w names 0 None)
              | Some best =>
                  let v := Py.format_percent (Py.max (1 # 1000) (snd best)) in
                  (Returns (Some v),
                   after_call w names (chat_id (columns_of c)) (Some v))
              end
          end
    | _ => (Returns None, w)
    end.
Proof.
  unfold Main.confidence_of_row, try_except, bind, read_db.
  destruct (Main.has_valid_confidence _ c); [reflexivity |].
  destruct (symptoms (columns_of c)) as [[| | | [| name names]] |];
    try reflexivity.
  destruct recompute, (has_confidence_column (database w)) eqn:Ecol;
    cbn [orb andb negb]; try reflexivity;
    unfold ret, Main.predict_proba, Main.argmax_and_max, after_call, vector_of;
    (destruct (PREDICTION_MODEL _) as [prediction | e]; [| reflexivity]);
    (destruct (Py.np_argmax_max prediction) as [best |]; reflexivity).
Qed.




End RowConfidence.

(** ** Loops that do not raise *)

Section Loops.


End Loops.

(** ** Listing the chats *)

Section Listing.
Context `{Globals}.

(** C5. With the column in the table and the key in the row, the validity
    check fails exactly on [None], [""], ["0%"] and ["0.00%"]; it never
    passes without the column, the key and a value. A row that passes gets
    its stored confidence back, the world untouched (no classifier call, no
    write), whatever the recompute flag; a row with a stored value that fails
    the check never gets that value back. *)
Theorem valid_cached_confidence :
  (forall row,
      Main.has_valid_confidence true (mkRowDict row true) = false
      <-> In (confidence row) [None; Some EmptyString; Some "0%"; Some "0.00%"])
  /\ (forall col c,
        Main.has_valid_confidence col c = true ->
        col = true /\ has_confidence_key c = true
        /\ exists v, confidence (columns_of c) = Some v
                     /\ ~ In v [EmptyString; "0%"; "0.00%"])
  /\ (forall recompute c w,
        Main.has_valid_confidence (has_confidence_column (database w)) c = true ->
        Main.confidence_of_row recompute c w
        = (Returns (confidence (columns_of c)), w))
  /\ (forall recompute c w v,
        has_confidence_column (database w) = true ->
        has_confidence_key c = true ->
        confidence (columns_of c) = Some v ->
        Main.has_valid_confidence (has_confidence_column (database w)) c = false ->
        fst (Main.confidence_of_row recompute c w) <> Returns (Some v)).
Proof.
  split; [| split; [| split]].
  - intros row. unfold Main.has_valid_confidence. simpl.
    destruct (confidence row) as [v |]; [| intuition].
    rewrite !orb_false_r.
    destruct (String.eqb_spec v EmptyString) as [-> | E1]; [simpl; intuition |].
    destruct (String.eqb_spec v "0%") as [-> | E2]; [simpl; intuition |].
    destruct (String.eqb_spec v "0.00%") as [-> | E3]; [simpl; intuition |].
    simpl. split; [discriminate |].
    intros [E | [E | [E | [E | []]]]]; congruence.
  - intros col c Hvalid. unfold Main.has_valid_confidence in Hvalid.
    apply andb_true_iff in Hvalid. destruct Hvalid as [Hck Hv].
    apply andb_true_iff in Hck. destruct Hck as [Hcol Hkey].
    split; [assumption |]. split; [assumption |].
    destruct (confidence (columns_of c)) as [v |]; [| discriminate].
    exists v. split; [reflexivity |].
    apply negb_true_iff in Hv. intros Hin.
    apply existsb_eqb_In in Hin. congruence.
  - intros recompute c w Hvalid.
    rewrite confidence_of_row_cases, Hvalid. reflexivity.
  - intros recompute c w v Hcol Hkey Hv Hinvalid.
    assert (Hrejected : In v [EmptyString; "0%"; "0.00%"]).
    { unfold Main.has_valid_confidence in Hinvalid.
      rewrite Hcol, Hkey, Hv in Hinvalid. simpl in Hinvalid.
      apply negb_false_iff in Hinvalid.
      now apply (existsb_eqb_In v [EmptyString; "0%"; "0.00%"]). }
    rewrite confidence_of_row_cases, Hinvalid.
    destruct (symptoms (columns_of c)) as [[| | | [| name names]] |];
      try discriminate.
    destruct (negb recompute && negb _).
    + simpl. intros [= <-]. simpl in Hrejected.
      intuition discriminate.
    + destruct (PREDICTION_MODEL _) as [prediction | e].
      * destruct (Py.np_argmax_max prediction) as [best |].
        -- simpl. intros [= <-].
           destruct (floored_not_rejected (snd best)) as (N1 & N2 & N3).
           simpl in Hrejected. intuition.
        -- simpl. intros [= <-]. simpl in Hrejected. intuition discriminate.
      * simpl. intros [= <-]. simpl in Hrejected. intuition discriminate.
Qed.



End Listing.

(** ** Where a confidence is computed *)

Section ComputedConfidence.
Context `{Globals}.

Lemma predict_returns (selected : list string) (user : Z) (now : string)
    (w w' : World) (resp : Schema.PredictionResponse) :
  Main.predict selected user now w = (Returns resp, w') ->
  computed_confidence selected (Schema.confidence resp)
  /\ exists row,
       In row (ChatDetails (database w'))
       /\ chat_id row = Schema.chat_id resp
       /\ confidence row = Some (Schema.confidence resp).
Proof.
  unfold Main.predict, try_except, bind.
  destruct (filter _ selected) as [| bad rest]; [| discriminate].
  unfold Main.predict_proba, computed_confidence, vector_of.
  destruct (PREDICTION_MODEL _) as [prediction | e] eqn:Emodel;
    [| discriminate].
  unfold Main.argmax_and_max.
  destruct (Py.np_argmax_max prediction) as [best |] eqn:Ebest;
    [| discriminate].
  unfold ret, Main.lookup_disease.
  destruct (find _ disease_mapping) as [found |]; [| discriminate].
  unfold Db.create_chat, bind, read_db, write_db, ret. cbn [database].
  intros [= <- <-]. cbn [Schema.confidence Schema.chat_id database ChatDetails].
  split.
  - exists prediction, best. repeat split; assumption.
  - eexists. split; [apply in_or_app; right; left; reflexivity |].
    split; reflexivity.
Qed.

Lemma update_confidence_returns (chat user : Z) (w w' : World)
    (r : Z * string) :
  Main.update_confidence chat user w = (Returns r, w') ->
  exists row names,
    Main.select_chat (database w) chat user = Some row
    /\ symptoms row = Some (SymptomsList names)
    /\ computed_confidence names (snd r)
    /\ database w' =
       Main.update_confidence_column
         (Db.ensure_confidence_column (database w)) chat (snd r).
Proof.
  unfold Main.update_confidence, try_except, bind, read_db.
  destruct (Main.select_chat (database w) chat user) as [row |];
    [| discriminate].
  destruct (symptoms row) as [[| | | [| name names]] |] eqn:Esym;
    try discriminate.
  unfold ret, Main.predict_proba, computed_confidence, vector_of.
  destruct (PREDICTION_MODEL _) as [prediction | e] eqn:Emodel;
    [| discriminate].
  unfold Main.argmax_and_max.
  destruct (Py.np_argmax_max prediction) as [best |] eqn:Ebest;
    [| discriminate].
  unfold ret, write_db. cbn [database].
  intros [= <- <-]. exists row, (name :: names).
  split; [reflexivity |]. split; [exact Esym |]. split; [| reflexivity].
  exists prediction, best. repeat split; assumption.
Qed.

Lemma confidence_of_row_origin (recompute : bool) (c : RowDict) (w w' : World)
    (r : outcome (option string)) :
  Main.confidence_of_row recompute c w = (r, w') ->
  (r = Returns (confidence (columns_of c))
   /\ Main.has_valid_confidence (has_confidence_column (database w)) c = true
   /\ w' = w)
  \/ (r = Returns None /\ w' = w)
  \/ (r = Returns (Some "0.10%") /\ database w' = database w)
  \/ (exists names v,
        symptoms (columns_of c) = Some (SymptomsList names)
        /\ computed_confidence names v
        /\ r = Returns (Some v)
        /\ database w' =
           Main.update_confidence_column
             (Db.ensure_confidence_column (database w))
             (chat_id (columns_of c)) v).
Proof.
  rewrite confidence_of_row_cases.
  destruct (Main.has_valid_confidence _ c) eqn:Evalid.
  { intros [= <- <-]. left. auto. }
  destruct (symptoms (columns_of c)) as [[| | | [| name names]] |] eqn:Esym;
    try (intros [= <- <-]; right; left; now auto).
  destruct (negb recompute && negb _).
  { intros [= <- <-]. right. right. left. auto. }
  destruct (PREDICTION_MODEL (vector_of (name :: names)))
    as [prediction | e] eqn:Emodel.
  - destruct (Py.np_argmax_max prediction) as [best |] eqn:Ebest.
    + intros [= <- <-]. right. right. right.
      exists (name :: names). eexists.
      split; [reflexivity |]. split; [| split; reflexivity].
      exists prediction, best. repeat split; assumption.
    + intros [= <- <-]. right. right. left. auto.
  - intros [= <- <-]. right. right. left. auto.
Qed.

(** C6. The text made from a probability raised to 0.001 is never ["0.00%"]
    and is ["0.10%"] for every probability up to 0.001, 0 among them; a
    probability above 0.001 is not changed by the floor, and its text is its
    value in hundredths of a percent, rounded (three quarters give
    ["75.00%"]). Each
    confidence a handler computes is made this way from the greatest class
    probability: the one [predict] returns and stores with the new chat, the
    one [update_confidence] returns and stores, and the one [chat_hist]
    stores for a row and puts in its entry (its other outcomes being the
    stored value that passed the validity check, no value, and the
    placeholder, with nothing written). *)
Theorem confidence_floor :
  (forall p,
      let v := Py.format_percent (Py.max (1 # 1000) p) in
      v <> "0.00%" /\ ((p <= 1 # 1000)%Q -> v = "0.10%"))
  /\ Py.format_percent (Py.max (1 # 1000) 0) = "0.10%"
  /\ (forall names v, computed_confidence names v -> v <> "0.00%")
  /\ (forall names v prediction best,
        computed_confidence names v ->
        PREDICTION_MODEL (vector_of names) = Reply prediction ->
        Py.np_argmax_max prediction = Some best ->
        (snd best <= 0)%Q ->
        v = "0.10%")
  /\ (forall selected user now w w' resp,
        Main.predict selected user now w = (Returns resp, w') ->
        computed_confidence selected (Schema.confidence resp)
        /\ exists row,
             In row (ChatDetails (database w'))
             /\ chat_id row = Schema.chat_id resp
             /\ confidence row = Some (Schema.confidence resp))
  /\ (forall chat user w w' r,
        Main.update_confidence chat user w = (Returns r, w') ->
        exists row names,
          Main.select_chat (database w) chat user = Some row
          /\ symptoms row = Some (SymptomsList names)
          /\ computed_confidence names (snd r)
          /\ database w' =
             Main.update_confidence_column
               (Db.ensure_confidence_column (database w)) chat (snd r))
  /\ (forall recompute c w w' r,
        Main.confidence_of_row recompute c w = (r, w') ->
        (r = Returns (confidence (columns_of c))
         /\ Main.has_valid_confidence (has_confidence_column (database w)) c
            = true
         /\ w' = w)
        \/ (r = Returns None /\ w' = w)
        \/ (r = Returns (Some "0.10%") /\ database w' = database w)
        \/ (exists names v,
              symptoms (columns_of c) = Some (SymptomsList names)
              /\ computed_confidence names v
              /\ r = Returns (Some v)
              /\ database w' =
                 Main.update_confidence_column
                   (Db.ensure_confidence_column (database w))
                   (chat_id (columns_of c)) v))
  /\ (forall p, (1 # 1000 < p)%Q -> Py.max (1 # 1000) p = p)
  /\ (forall names v prediction best,
        computed_confidence names v ->
        PREDICTION_MODEL (vector_of names) = Reply prediction ->
        Py.np_argmax_max prediction = Some best ->
        (1 # 1000 < snd best)%Q ->
        v = Py.format_percent (snd best)
        /\ v = percent_text (Py.round_half_even (snd best * 10000)))
  /\ Py.format_percent (Py.max (1 # 1000) (3 # 4)) = "75.00%"
  /\ Py.format_percent (Py.max (1 # 1000) (1 # 200)) = "0.50%".
Proof.
  split; [| split; [| split; [| split; [| split; [| split; [| split;
    [| split; [| split; [| split]]]]]]]]].
  - intros p v. split.
    + apply (floored_not_rejected p).
    + apply floored_at_floor.
  - reflexivity.
  - intros names v (prediction & best & _ & _ & ->).
    apply (floored_not_rejected (snd best)).
  - intros names v prediction best (prediction' & best' & E1 & E2 & ->)
      Hmodel Hbest Hzero.
    rewrite Hmodel in E1. injection E1 as <-.
    rewrite Hbest in E2. injection E2 as <-.
    apply floored_at_floor.
    apply Qle_trans with 0%Q; [assumption | now compute].
  - exact predict_returns.
  - exact update_confidence_returns.
  - exact confidence_of_row_origin.
  - exact py_max_above.
  - intros names v prediction best (prediction' & best' & E1 & E2 & ->)
      Hmodel Hbest Habove.
    rewrite Hmodel in E1. injection E1 as <-.
    rewrite Hbest in E2. injection E2 as <-.
    destruct (floored_above_floor _ Habove) as [Esame Etext].
    split; [exact Esame | now rewrite Esame].
  - reflexivity.
  - reflexivity.
Qed.

End ComputedConfidence.

(** ** The handlers on the fixtures *)

Lemma NoDup_demo_symptoms : NoDup (SYMPTOMS (Globals := Demo.globals)).
Proof.
  repeat constructor; simpl; intuition discriminate.
Qed.

(** Two known names, one of them twice, and an unknown one: two ones. *)
Lemma create_input_vector_one_hot_witness :
  count_occ Z.eq_dec
    (Utils.values
       (Utils.create_input_vector (H := Demo.globals)
          ["rash"; "itch"; "fever"; "rash"]))
    1%Z
  = 2.
Proof.
  destruct (@create_input_vector_one_hot Demo.globals
              ["rash"; "itch"; "fever"; "rash"] NoDup_demo_symptoms)
    as (_ & Hcount & _).
  exact Hcount.
Defined.

(** The shuffled log replays like the ordered one. *)
Lemma replay_in_key_order_witness :
  Main.build_conversation Demo.shuffled_log =
  Main.build_conversation Demo.ordered_log.
Proof.
  destruct (replay_in_key_order Demo.ordered_log)
    as (_ & _ & _ & _ & _ & _ & Hsame).
  apply Hsame.
  - apply Permutation_sym.
    apply (perm_trans (l' := [ ("message1", mkTurn (Some "Is it serious?") (Some "Rarely."));
                               ("message3", mkTurn (Some "And rest?") (Some "Yes."));
                               ("message10", mkTurn (Some "Thanks") None);
                               ("message2", mkTurn None (Some EmptyString)) ])).
    + apply perm_skip.
      apply (perm_trans (l' := [ ("message3", mkTurn (Some "And rest?") (Some "Yes."));
                                 ("message2", mkTurn None (Some EmptyString));
                                 ("message10", mkTurn (Some "Thanks") None) ])).
      * apply perm_swap.
      * apply perm_skip. apply perm_swap.
    + apply perm_swap.
  - repeat constructor; simpl; intuition discriminate.
Defined.

Example replay_of_shuffled_log :
  Main.build_conversation Demo.shuffled_log =
  [ HumanMessage "Is it serious?"; AIMessage "Rarely.";
    HumanMessage "And rest?"; AIMessage "Yes.";
    HumanMessage "Thanks" ].
Proof. reflexivity. Qed.

(** A stored ["73.42%"] comes back as it is. *)
Lemma valid_cached_confidence_witness :
  Main.confidence_of_row (H := Demo.globals) true
    (mkRowDict (Demo.chat 1 [] (Some "73.42%") "2025-01-01T10:00:00") true)
    Demo.one_chat
  = (Returns (Some "73.42%"), Demo.one_chat).
Proof.
  destruct (@valid_cached_confidence Demo.globals) as (_ & _ & Hcached & _).
  apply (Hcached true
           (mkRowDict (Demo.chat 1 [] (Some "73.42%") "2025-01-01T10:00:00")
              true)
           Demo.one_chat).
  reflexivity.
Defined.


Example listing_with_classifier_down :
  exists history w',
    Main.chat_hist (H := Demo.globals_classifier_down) 1 1 20 false false
      Demo.seven_chats
    = (Returns history, w')
    /\ map Schema.details_confidence (Schema.chats history)
       = repeat (Some "0.10%") 7
    /\ database w' = database Demo.seven_chats.
Proof. eexists. eexists. split; [reflexivity |]. split; reflexivity. Qed.

(** A classifier that gives 0 to every class: the confidence
    [update_confidence] returns is ["0.10%"]. *)
Lemma confidence_floor_witness :
  match fst (Main.update_confidence (H := Demo.globals_zero) 1 1 Demo.one_chat)
  with
  | Returns r => snd r
  | Raises _ => EmptyString
  end = "0.10%".
Proof.
  destruct (@confidence_floor Demo.globals_zero) as (_ & _ & _ & Hzero & _).
  apply (Hzero ["fever"] _ [0%Q; 0%Q] (0, 0%Q)).
  - exists [0%Q; 0%Q], (0, 0%Q). repeat split.
  - reflexivity.
  - reflexivity.
  - discriminate.
Defined.

Example predict_with_zero_classifier :
  exists resp w',
    Main.predict (H := Demo.globals_zero) ["fever"; "rash"] 1
      "2025-01-03T08:00:00" Demo.one_chat
    = (Returns resp, w')
    /\ Schema.confidence resp = "0.10%"
    /\ Schema.symptoms_count resp = 2
    /\ Schema.chat_id resp = 2%Z.
Proof. eexists. eexists. split; [reflexivity |]. repeat split. Qed.

(** C1 (the code departs from the claim). Seven chats of one user, none with
    a stored confidence, each with a symptom, the table having its
    [confidence] column, listed in one page without forced recompute: the
    classifier is called seven times, the seven entries carry the computed
    ["75.00%"], none the placeholder, and the seven rows hold ["75.00%"]
    afterwards. The cap is only looked at when the table lacks the column. *)
Theorem seven_chats_all_recomputed :
  exists history w',
    Main.chat_hist (H := Demo.globals) 1 1 20 false false Demo.seven_chats
    = (Returns history, w')
    /\ map Schema.details_confidence (Schema.chats history)
       = repeat (Some "75.00%") 7
    /\ List.length (classifier_calls w') = 7
    /\ map confidence (ChatDetails (database w')) = repeat (Some "75.00%") 7.
Proof.
  eexists. eexists. split; [reflexivity |]. repeat split.
Qed.

(** The same chats in a table without the column, where the cap is looked
    at: setting the counter on the connection raises, so every entry gets the
    placeholder and the classifier is never called. *)
Example seven_chats_without_column :
  exists history w',
    Main.chat_hist (H := Demo.globals) 1 1 20 false false
      (mkWorld (mkDB false (ChatDetails (database Demo.seven_chats))) [])
    = (Returns history, w')
    /\ map Schema.details_confidence (Schema.chats history)
       = repeat (Some "0.10%") 7
    /\ classifier_calls w' = []
    /\ has_confidence_column (database w') = false.
Proof.
  eexists. eexists. split; [reflexivity |]. repeat split.
Qed.

(** C2 (the code departs from the claim). A chat with the stored confidence
    ["73.42%"], listed with [recompute_confidence] set: the entry carries
    ["73.42%"], the classifier is not called and nothing is written, although
    recomputing gives ["75.00%"], as [update_confidence] shows on the same
    chat. *)
Theorem forced_recompute_keeps_cached_value :
  Main.chat_hist (H := Demo.globals) 1 1 20 false true Demo.one_chat
  = (Returns
       (Schema.mkChatHistory
          [Schema.mkChatDetails 1 1 Demo.shuffled_log (Some "Flu")
             "2025-01-01T10:00:00" (Some "73.42%")]
          (Some (Schema.mkPaginationInfo 1 20 1 1))),
     Demo.one_chat)
  /\ classifier_calls Demo.one_chat = []
  /\ fst (Main.update_confidence (H := Demo.globals) 1 1 Demo.one_chat)
     = Returns (1%Z, "75.00%").
Proof. repeat split. Qed.

(** ** Checks of the Python helpers *)

Example format_percent_floor : Py.format_percent (1 # 1000) = "0.10%".
Proof. reflexivity. Qed.

Example format_percent_typical : Py.format_percent (7342 # 10000) = "73.42%".
Proof. reflexivity. Qed.

Example format_percent_tie_to_even :
  Py.format_percent (125 # 100000) = "0.12%"
  /\ Py.format_percent (135 # 100000) = "0.14%".
Proof. split; reflexivity. Qed.

Example format_percent_one : Py.format_percent 1 = "100.00%".
Proof. reflexivity. Qed.

Example replace_drops_every_occurrence :
  Py.replace_with_empty "message" "mesmessagesage1message" = "message1".
Proof. reflexivity. Qed.

Example message_number_examples :
  map Main.message_number ["message12"; "message007"; "note"; "message"; "12"]
  = [12; 7; 0; 0; 12].
Proof. reflexivity. Qed.

Example sorted_is_stable :
  Py.sorted fst [(3, "a"); (1, "b"); (3, "c"); (1, "d")]
  = [(1, "b"); (1, "d"); (3, "a"); (3, "c")].
Proof. reflexivity. Qed.

Example chat_history_uneven :
  Chat.chat_history ["a"; "b"; "c"] ["x"]
  = [ ("message1", mkTurn (Some "a") (Some "x"));
      ("message2", mkTurn (Some "b") None);
      ("message3", mkTurn (Some "c") None) ].
Proof. reflexivity. Qed.

(** * Further properties of the handlers *)

(** ** Slices of lists *)

Section Slices.
Context {A : Type}.

Lemma in_firstn (n : nat) (l : list A) (x : A) : In x (firstn n l) -> In x l.
Proof.
  intros Hin. rewrite <- (firstn_skipn n l). apply in_or_app. now left.
Qed.


Lemma NoDup_firstn_of (n : nat) (l : list A) : NoDup l -> NoDup (firstn n l).
Proof.
  intros Hnd. rewrite <- (firstn_skipn n l) in Hnd.
  now apply NoDup_app_remove_r in Hnd.
Qed.

Lemma NoDup_app_iff_single (l : list A) (x : A) :
  NoDup l -> ~ In x l -> NoDup (l ++ [x]).
Proof.
  intros Hnd Hx. induction Hnd as [| y l Hy Hnd IH]; simpl.
  - constructor; [intros [] | constructor].
  - constructor.
    + intros Hin. apply in_app_or in Hin. destruct Hin as [Hin | [-> | []]].
      * contradiction.
      * apply Hx. now left.
    + apply IH. intros Hin. apply Hx. now right.
Qed.

End Slices.

(** ** Searching the vocabulary *)

Section SymptomSearch.
Context `{Globals} {U : Py.Unicode}.

Lemma prefix_app (n h : string) :
  prefix n h = true <-> exists post, h = (n ++ post)%string.
Proof.
  revert h. induction n as [| a n IH]; intros h.
  - split; [intros _; now exists h | intros _; now destruct h].
  - destruct h as [| b h].
    + split; [discriminate | intros [post E]; discriminate].
    + change (prefix (String a n) (String b h))
        with (match ascii_dec a b with
              | left _ => prefix n h
              | right _ => false
              end).
      destruct (ascii_dec a b) as [<- | Hne].
      * rewrite IH. split; intros [post E]; exists post.
        -- simpl. now f_equal.
        -- simpl in E. now injection E.
      * split; [discriminate |]. intros [post E]. simpl in E.
        injection E as E _. congruence.
Qed.

Lemma contains_occurs (n h : string) :
  Py.contains n h = true <-> exists pre post, h = (pre ++ n ++ post)%string.
Proof.
  induction h as [| c h IH].
  - cbn [Py.contains]. rewrite prefix_app. split.
    + intros [post E]. now exists EmptyString, post.
    + intros (pre & post & E). destruct pre; [now exists post | discriminate].
  - cbn [Py.contains]. rewrite orb_true_iff, prefix_app, IH. split.
    + intros [[post E] | (pre & post & E)].
      * now exists EmptyString, post.
      * exists (String c pre), post. simpl. now f_equal.
    + intros (pre & post & E). destruct pre as [| c' pre].
      * left. now exists post.
      * right. simpl in E. injection E as _ E. now exists pre, post.
Qed.

(** X1. [get_symptoms] gives at most ten names; they are the first names of
    the vocabulary, in its order, whose lower-case form (by [str.lower])
    holds the lower-case form of the query as a substring; when fewer than
    ten come back no such name is missing; the empty query gives the first
    ten names. When the query and the vocabulary are ASCII texts, the
    lower-case forms are those with [A] to [Z] moved to [a] to [z] and
    every other character kept. *)
Theorem get_symptoms_result (query : string) :
  let result := Main.get_symptoms query in
  let occurs (s : string) :=
    exists pre post, Py.lower s = (pre ++ Py.lower query ++ post)%string in
  List.length result <= 10
  /\ (forall s, In s result -> In s SYMPTOMS /\ occurs s)
  /\ (exists rest,
         filter (fun s => Py.contains (Py.lower query) (Py.lower s)) SYMPTOMS
         = result ++ rest)
  /\ (List.length result < 10 ->
      forall s, In s SYMPTOMS -> occurs s -> In s result)
  /\ (NoDup SYMPTOMS -> NoDup result)
  /\ Main.get_symptoms EmptyString = firstn 10 SYMPTOMS
  /\ (Py.isascii query = true ->
      Forall (fun s => Py.isascii s = true) SYMPTOMS ->
      result =
      firstn 10
        (filter
           (fun s => Py.contains (Py.ascii_lower query) (Py.ascii_lower s))
           SYMPTOMS))
  /\ Py.ascii_lower "AZ@[`{az Skin_Rash" = "az@[`{az skin_rash".
Proof.
  intros result occurs. subst result. unfold Main.get_symptoms.
  set (matches := filter _ SYMPTOMS).
  assert (Hin : forall s, In s matches <-> In s SYMPTOMS /\ occurs s).
  { intros s. unfold matches. rewrite filter_In, contains_occurs. reflexivity. }
  split; [apply firstn_le_length |].
  split; [intros s Hs; apply Hin; eapply in_firstn; exact Hs |].
  split; [exists (skipn 10 matches); symmetry; apply firstn_skipn |].
  split; [| split; [| split; [| split]]].
  - intros Hshort s Hs Hocc.
    rewrite firstn_all2; [apply Hin; now split |].
    rewrite length_firstn in Hshort. lia.
  - intros Hnd. apply NoDup_firstn_of. unfold matches. now apply NoDup_filter.
  - f_equal. apply forallb_filter_id, forallb_forall. intros s _.
    rewrite (Py.lower_ascii EmptyString eq_refl).
    apply contains_occurs. now exists EmptyString, (Py.lower s).
  - intros Hquery Hnames. f_equal. unfold matches.
    rewrite (Py.lower_ascii query Hquery).
    apply filter_ext_in. intros s Hs.
    rewrite Forall_forall in Hnames.
    now rewrite (Py.lower_ascii s (Hnames s Hs)).
  - reflexivity.
Qed.

End SymptomSearch.

(** ** Creating a chat *)

Section CreateChat.

Lemma chat_id_le_max (rows : list ChatRow) (r : ChatRow) :
  In r rows -> (chat_id r <= fold_right Z.max 0 (map chat_id rows))%Z.
Proof.
  induction rows as [| x rows IH]; simpl; [contradiction |].
  intros [-> | Hin]; [lia |]. specialize (IH Hin). lia.
Qed.

Lemma next_chat_id_fresh (d : DB) (r : ChatRow) :
  In r (ChatDetails d) -> (chat_id r < Db.next_chat_id d)%Z.
Proof.
  intros Hin. unfold Db.next_chat_id.
  apply chat_id_le_max in Hin. lia.
Qed.

Lemma next_chat_id_ensure (d : DB) :
  Db.next_chat_id (Db.ensure_confidence_column d) = Db.next_chat_id d.
Proof.
  unfold Db.ensure_confidence_column, Db.add_confidence_column, Db.next_chat_id.
  destruct (has_confidence_column d); [reflexivity |].
  simpl. now rewrite map_map.
Qed.

Lemma ensure_when_present (d : DB) :
  has_confidence_column d = true -> Db.ensure_confidence_column d = d.
Proof. unfold Db.ensure_confidence_column. now intros ->. Qed.

Lemma ensure_has_column (d : DB) :
  has_confidence_column (Db.ensure_confidence_column d) = true.
Proof.
  unfold Db.ensure_confidence_column.
  destruct (has_confidence_column d) eqn:E; [exact E | reflexivity].
Qed.

Lemma create_chat_run (user : Z) (time_str : string) (log : MessageLog)
    (disease_name : option string) (names : list string)
    (value : option string) (w : World) :
  Db.create_chat user time_str log disease_name names value w =
  (Returns (Db.next_chat_id (database w)),
   mkWorld (with_new_chat (database w) user time_str log disease_name names
              value)
     (classifier_calls w)).
Proof.
  unfold Db.create_chat, bind, read_db, write_db, ret, with_new_chat,
    new_chat_row.
  cbn [database classifier_calls]. rewrite next_chat_id_ensure.
  destruct names; reflexivity.
Qed.

Lemma find_app_none {A : Type} (f : A -> bool) (l1 l2 : list A) :
  find f l1 = None -> find f (l1 ++ l2) = find f l2.
Proof.
  induction l1 as [| x l1 IH]; simpl; [reflexivity |].
  destruct (f x); [discriminate | exact IH].
Qed.

Lemma find_app_some {A : Type} (f : A -> bool) (l1 l2 : list A) (x : A) :
  find f l1 = Some x -> find f (l1 ++ l2) = Some x.
Proof.
  induction l1 as [| y l1 IH]; simpl; [discriminate |].
  destruct (f y); [trivial | exact IH].
Qed.

(** The chat [create_chat] has inserted is the one found under the new id. *)
Lemma select_new_chat (d : DB) (user : Z) (time_str : string)
    (log : MessageLog) (disease_name : option string) (names : list string)
    (value : option string) :
  Main.select_chat
    (with_new_chat d user time_str log disease_name names value)
    (Db.next_chat_id d) user
  = Some (new_chat_row user (Db.next_chat_id d) time_str log disease_name
            names value).
Proof.
  unfold with_new_chat, Main.select_chat. cbn [has_confidence_column ChatDetails].
  rewrite find_app_none.
  - simpl. rewrite next_chat_id_ensure, !Z.eqb_refl. reflexivity.
  - destruct (find _ (ChatDetails (Db.ensure_confidence_column d)))
      as [r |] eqn:E; [| reflexivity].
    apply find_some in E. destruct E as [Hin E].
    apply andb_true_iff in E. destruct E as [E _].
    apply Z.eqb_eq in E.
    apply next_chat_id_fresh in Hin. rewrite next_chat_id_ensure in *. lia.
Qed.

(** X2. [create_chat] always returns, and the id it returns is above every
    id of the table. Afterwards the table has its [confidence] column, the
    new chat is what a lookup by its id and owner finds, with the log,
    disease and confidence given and the symptoms given (an empty list being
    stored as [NULL]), and every chat that a lookup found before in a table
    with the column is still found, unchanged. *)
Theorem create_chat_then_select (user : Z) (time_str : string)
    (log : MessageLog) (disease_name : option string) (names : list string)
    (value : option string) (w : World) :
  exists new_id w',
    Db.create_chat user time_str log disease_name names value w
    = (Returns new_id, w')
    /\ (forall r, In r (ChatDetails (database w)) -> (chat_id r < new_id)%Z)
    /\ has_confidence_column (database w') = true
    /\ classifier_calls w' = classifier_calls w
    /\ Main.select_chat (database w') new_id user
       = Some (new_chat_row user new_id time_str log disease_name names value)
    /\ symptoms (new_chat_row user new_id time_str log disease_name [] value)
       = None
    /\ (has_confidence_column (database w) = true ->
        forall chat owner r,
          Main.select_chat (database w) chat owner = Some r ->
          Main.select_chat (database w') chat owner = Some r).
Proof.
  eexists. eexists. split; [apply create_chat_run |].
  cbn [database classifier_calls]. unfold with_new_chat.
  cbn [has_confidence_column ChatDetails].
  split; [apply next_chat_id_fresh |].
  split; [apply ensure_has_column |].
  split; [reflexivity |].
  split; [| split; [reflexivity |]].
  - apply (select_new_chat (database w)).
  - intros Hcol chat owner r Hsel.
    rewrite (ensure_when_present _ Hcol).
    unfold Main.select_chat in *. cbn [ChatDetails].
    now apply find_app_some.
Qed.

End CreateChat.

(** ** Predicting a disease *)

Section Predict.
Context `{Globals}.

(** [predict] unfolded by cases. *)
Lemma predict_cases (selected : list string) (user : Z) (now : string)
    (w : World) :
  Main.predict selected user now w =
  match unknown_symptoms selected with
  | (_ :: _) as bad =>
      (Raises (HTTPException 500
                 (PredictionFailed (HTTPException 400 (InvalidSymptoms bad)))),
       w)
  | [] =>
      match PREDICTION_MODEL (vector_of selected) with
      | Failure e =>
          (Raises (HTTPException 500 (PredictionFailed (CollaboratorError e))),
           after_classifier w selected)
      | Reply prediction =>
          match Py.np_argmax_max prediction with
          | None =>
              (Raises (HTTPException 500 (PredictionFailed ValueError)),
               after_classifier w selected)
          | Some best =>
              match find (fun row => fst row =? fst best)%nat disease_mapping
              with
              | None =>
                  (Raises (HTTPException 500 DiseaseMappingNotFound),
                   after_classifier w selected)
              | Some row =>
                  let v := Py.format_percent (Py.max (1 # 1000) (snd best)) in
                  (Returns
                     (Schema.mkPredictionResponse (snd row) v
                        (List.length selected)
                        (Db.next_chat_id (database w))),
                   mkWorld
                     (with_new_chat (database w) user now [] (Some (snd row))
                        selected (Some v))
                     (vector_of selected :: classifier_calls w))
              end
          end
      end
  end.
Proof.
  unfold Main.predict, try_except, bind, unknown_symptoms.
  destruct (filter _ selected) as [| bad rest]; [| reflexivity].
  unfold Main.predict_proba, after_classifier, vector_of.
  destruct (PREDICTION_MODEL _) as [prediction | e]; [| reflexivity].
  unfold Main.argmax_and_max.
  destruct (Py.np_argmax_max prediction) as [best |]; [| reflexivity].
  unfold ret, Main.lookup_disease.
  destruct (find _ disease_mapping) as [row |]; [| reflexivity].
  cbv beta iota delta [ret]. rewrite create_chat_run. reflexivity.
Qed.

Lemma unknown_symptoms_In (selected : list string) (s : string) :
  In s (unknown_symptoms selected) <-> In s selected /\ ~ In s SYMPTOMS.
Proof.
  unfold unknown_symptoms. rewrite filter_In, negb_true_iff.
  rewrite <- not_true_iff_false, existsb_eqb_In. reflexivity.
Qed.

(** X3. A prediction request that names a symptom outside the vocabulary is
    answered with the error 500 whose detail wraps the 400 "Invalid
    symptoms" (raised inside the [try], caught by its [except Exception]);
    the 400 lists exactly the unknown names, the classifier is not called and
    no chat is created. *)
Theorem predict_unknown_symptom (selected : list string) (user : Z)
    (now : string) (w : World) (s : string) :
  In s selected -> ~ In s SYMPTOMS ->
  Main.predict selected user now w =
  (Raises (HTTPException 500
             (PredictionFailed
                (HTTPException 400
                   (InvalidSymptoms (unknown_symptoms selected))))),
   w)
  /\ (forall x, In x (unknown_symptoms selected)
                <-> In x selected /\ ~ In x SYMPTOMS).
Proof.
  intros Hin Hout. split; [| intros x; apply unknown_symptoms_In].
  rewrite predict_cases.
  destruct (unknown_symptoms selected) as [| bad rest] eqn:E; [| reflexivity].
  assert (Hs : In s (unknown_symptoms selected))
    by (apply unknown_symptoms_In; now split).
  rewrite E in Hs. contradiction.
Qed.

(** X4. When [predict] returns, every name given is in the vocabulary, the
    classifier was called once, on the vector of the names, the disease is
    the one the table maps the most probable class to, the count is the
    number of names given, and one chat was added: it is what a lookup by the
    returned id and the user finds, its id is above all earlier ids, its log
    is empty and it holds the disease, the names and the confidence of the
    response. *)
Theorem predict_creates_chat (selected : list string) (user : Z)
    (now : string) (w w' : World) (resp : Schema.PredictionResponse) :
  Main.predict selected user now w = (Returns resp, w') ->
  incl selected SYMPTOMS
  /\ classifier_calls w' = vector_of selected :: classifier_calls w
  /\ Schema.symptoms_count resp = List.length selected
  /\ (exists prediction best,
        PREDICTION_MODEL (vector_of selected) = Reply prediction
        /\ Py.np_argmax_max prediction = Some best
        /\ In (fst best, Schema.disease resp) disease_mapping)
  /\ database w' =
     with_new_chat (database w) user now [] (Some (Schema.disease resp))
       selected (Some (Schema.confidence resp))
  /\ (forall r, In r (ChatDetails (database w)) ->
                (chat_id r < Schema.chat_id resp)%Z)
  /\ Main.select_chat (database w') (Schema.chat_id resp) user
     = Some (new_chat_row user (Schema.chat_id resp) now []
               (Some (Schema.disease resp)) selected
               (Some (Schema.confidence resp))).
Proof.
  rewrite predict_cases.
  destruct (unknown_symptoms selected) as [| bad rest] eqn:Ebad;
    [| discriminate].
  destruct (PREDICTION_MODEL _) as [prediction | e] eqn:Emodel;
    [| discriminate].
  destruct (Py.np_argmax_max prediction) as [best |] eqn:Ebest;
    [| discriminate].
  destruct (find _ disease_mapping) as [row |] eqn:Erow; [| discriminate].
  intros [= <- <-].
  cbn [Schema.symptoms_count Schema.disease Schema.confidence Schema.chat_id
       database classifier_calls].
  split.
  { intros s Hs. destruct (in_dec string_dec s SYMPTOMS) as [Hin | Hout];
      [assumption |].
    assert (Hbad : In s (unknown_symptoms selected))
      by (apply unknown_symptoms_In; now split).
    rewrite Ebad in Hbad. contradiction. }
  split; [reflexivity |]. split; [reflexivity |].
  split.
  { exists prediction, best.
    split; [first [reflexivity | assumption] |].
    split; [first [reflexivity | assumption] |].
    apply find_some in Erow. destruct Erow as [Hin E].
    apply Nat.eqb_eq in E. rewrite <- E. now destruct row. }
  split; [reflexivity |].
  split; [apply next_chat_id_fresh |].
  apply (select_new_chat (database w)).
Qed.

(** X5. Whatever makes [predict] fail, the caller gets an error 500 and the
    database is as it was before the request. *)
Theorem predict_failure_writes_nothing (selected : list string) (user : Z)
    (now : string) (w w' : World) (e : exn) :
  Main.predict selected user now w = (Raises e, w') ->
  database w' = database w
  /\ exists detail, e = HTTPException 500 detail.
Proof.
  rewrite predict_cases.
  destruct (unknown_symptoms selected) as [| bad rest].
  - destruct (PREDICTION_MODEL _) as [prediction | msg].
    + destruct (Py.np_argmax_max prediction) as [best |].
      * destruct (find _ disease_mapping) as [row |]; [discriminate |].
        intros [= <- <-]. split; [reflexivity | eauto].
      * intros [= <- <-]. split; [reflexivity | eauto].
    + intros [= <- <-]. split; [reflexivity | eauto].
  - intros [= <- <-]. split; [reflexivity | eauto].
Qed.

End Predict.

(** ** Numbering and replaying across turns *)

Section Turns.

Lemma insert_by_app_last {A : Type} (key : A -> nat) (a x : A) (s : list A) :
  key a <= key x ->
  Py.insert_by (fun u v => Nat.leb (key u) (key v)) a (s ++ [x]) =
  Py.insert_by (fun u v => Nat.leb (key u) (key v)) a s ++ [x].
Proof.
  intros Hle. induction s as [| y s IH]; simpl.
  - apply Nat.leb_le in Hle. now rewrite Hle.
  - destruct (Nat.leb (key a) (key y)); [reflexivity |]. now rewrite IH.
Qed.

Lemma sorted_app_last {A : Type} (key : A -> nat) (l : list A) (x : A) :
  (forall a, In a l -> key a <= key x) ->
  Py.sorted key (l ++ [x]) = Py.sorted key l ++ [x].
Proof.
  unfold Py.sorted, Py.stable_sort.
  induction l as [| a l IH]; intros Hle; [reflexivity |].
  simpl. rewrite IH by (intros b Hb; apply Hle; now right).
  apply insert_by_app_last. apply Hle. now left.
Qed.

Lemma sorted_of_sorted {A : Type} (key : A -> nat) (l : list A) :
  StronglySorted (fun a b => key a <= key b) l -> Py.sorted key l = l.
Proof.
  unfold Py.sorted, Py.stable_sort.
  induction 1 as [| a l Hs IH Ha]; [reflexivity |].
  simpl. rewrite IH. destruct l as [| b l]; [reflexivity |].
  simpl. inversion Ha as [| ? ? Hab _]; subst.
  apply Nat.leb_le in Hab. now rewrite Hab.
Qed.

Lemma message_number_bound (log : MessageLog) (k : string) :
  In k (Py.keys log) -> Main.message_number k < Main.next_msg_num log.
Proof.
  intros Hin. unfold Main.message_number.
  destruct (Py.isdigit (Py.replace_with_empty "message" k)) eqn:E.
  - apply next_msg_num_above. unfold Main.msg_numbers.
    apply (in_map (fun k => Py.int (Py.replace_with_empty "message" k))).
    apply filter_In. now split.
  - unfold Main.next_msg_num. destruct log; [contradiction |].
    destruct (Main.msg_numbers _); lia.
Qed.

Lemma msg_numbers_app_key (log : MessageLog) (n : nat) (t : Turn) :
  Main.msg_numbers (log ++ [(message_key n, t)]) = Main.msg_numbers log ++ [n].
Proof.
  unfold Main.msg_numbers, Py.keys.
  rewrite map_app, filter_app, map_app. f_equal.
  cbn [map filter fst]. rewrite strip_message_key, isdigit_str_of_nat.
  cbn [map]. now rewrite strip_message_key, int_str_of_nat.
Qed.

Lemma flat_map_ext_on {A B : Type} (f g : A -> list B) (l : list A) :
  (forall x, In x l -> f x = g x) -> flat_map f l = flat_map g l.
Proof.
  induction l as [| x l IH]; intros Hfg; [reflexivity |].
  simpl. rewrite (Hfg x) by now left.
  rewrite IH; [reflexivity |]. intros y Hy. apply Hfg. now right.
Qed.

(** X6. Once a turn is stored under the key [conversation] picks, the next
    key picked is one higher, and the conversation replayed from the new log
    is the one replayed from the old log followed by the new turn: nothing
    logged before changes place. *)
Theorem next_turn_follows (log : MessageLog) (t : Turn) :
  let n := Main.next_msg_num log in
  let log' := log ++ [(message_key n, t)] in
  Main.next_msg_num log' = n + 1
  /\ Main.sorted_keys log' = Main.sorted_keys log ++ [message_key n]
  /\ Main.build_conversation log' =
     Main.build_conversation log ++ Main.replay_turn t.
Proof.
  intros n log'.
  assert (Hkeys : Main.sorted_keys log' = Main.sorted_keys log ++ [message_key n]).
  { unfold Main.sorted_keys, log', Py.keys. rewrite map_app. cbn [map fst].
    apply sorted_app_last. intros k Hk. rewrite message_number_key.
    apply Nat.lt_le_incl. now apply message_number_bound. }
  split; [| split; [exact Hkeys |]].
  - unfold Main.next_msg_num at 1. unfold log'.
    rewrite msg_numbers_app_key.
    destruct (log ++ [(message_key n, t)]) eqn:E;
      [now destruct log |].
    destruct (Main.msg_numbers log ++ [n]) eqn:E';
      [now destruct (Main.msg_numbers log) |].
    rewrite <- E', list_max_app. cbn [list_max fold_right].
    assert (list_max (Main.msg_numbers log) <= n).
    { apply list_max_le. apply Forall_forall. intros m Hm.
      apply Nat.lt_le_incl. now apply next_msg_num_above. }
    lia.
  - unfold Main.build_conversation. rewrite Hkeys, flat_map_app.
    f_equal.
    + apply flat_map_ext_on. intros k Hk. unfold log'.
      rewrite dict_get_app_old; [reflexivity |].
      eapply Permutation_in; [apply sorted_perm | exact Hk].
    + cbn [flat_map]. unfold log'.
      rewrite dict_get_app_fresh by apply next_key_fresh.
      cbn [Py.dict_get]. rewrite String.eqb_refl. apply app_nil_r.
Qed.

Lemma StronglySorted_message_keys (start n : nat) :
  StronglySorted
    (fun a b => Main.message_number a <= Main.message_number b)
    (map (fun i => message_key (i + 1)) (seq start n)).
Proof.
  revert start. induction n as [| n IH]; intros start; [constructor |].
  simpl. constructor; [apply IH |].
  apply Forall_forall. intros k Hk. apply in_map_iff in Hk.
  destruct Hk as (i & <- & Hi). apply in_seq in Hi.
  rewrite !message_number_key. lia.
Qed.

Lemma list_max_succ_seq (n : nat) :
  list_max (map (fun i => i + 1) (seq 0 n)) = n.
Proof.
  induction n as [| n IH]; [reflexivity |].
  rewrite seq_S, map_app, list_max_app, IH. simpl. lia.
Qed.

(** X7. A log made by [chat_history] is replayed by [conversation]'s loop in
    the order of the two lists: the [i]-th query (if there is one and it is
    not empty), then the [i]-th response (likewise), for [i] from the first
    to the last position; and the next turn gets the number after the last
    position. *)
Theorem chat_history_replays_in_order (queries responses : list string) :
  let n := Nat.max (List.length queries) (List.length responses) in
  let messages := Chat.chat_history queries responses in
  Main.sorted_keys messages = Py.keys messages
  /\ Main.build_conversation messages =
     flat_map
       (fun i =>
          Main.replay_turn (mkTurn (nth_error queries i) (nth_error responses i)))
       (seq 0 n)
  /\ Main.next_msg_num messages = n + 1.
Proof.
  intros n messages.
  assert (E : messages = map (history_entry queries responses) (seq 0 n))
    by apply chat_history_eq.
  assert (K : Py.keys messages = map (fun i => message_key (i + 1)) (seq 0 n)).
  { rewrite E. unfold Py.keys. rewrite map_map. reflexivity. }
  assert (Hs : Main.sorted_keys messages = Py.keys messages).
  { unfold Main.sorted_keys. apply sorted_of_sorted. rewrite K.
    apply StronglySorted_message_keys. }
  split; [exact Hs |]. split.
  - unfold Main.build_conversation. rewrite Hs, K, flat_map_concat_map, map_map.
    rewrite <- flat_map_concat_map. apply flat_map_ext_on.
    intros i Hi. rewrite (dict_get_In messages (message_key (i + 1))
                            (mkTurn (nth_error queries i) (nth_error responses i))).
    + reflexivity.
    + rewrite K. apply NoDup_message_keys.
    + rewrite E.
      change (message_key (i + 1),
              mkTurn (nth_error queries i) (nth_error responses i))
        with (history_entry queries responses i).
      now apply in_map.
  - unfold Main.next_msg_num.
    assert (N : Main.msg_numbers messages = map (fun i => i + 1) (seq 0 n)).
    { unfold Main.msg_numbers. rewrite K.
      rewrite forallb_filter_id, map_map.
      - apply map_ext. intros i. now rewrite strip_message_key, int_str_of_nat.
      - apply forallb_forall. intros k Hk. apply in_map_iff in Hk.
        destruct Hk as (i & <- & _).
        now rewrite strip_message_key, isdigit_str_of_nat. }
    rewrite N, E. destruct n as [| n]; [reflexivity |].
    pose proof (list_max_succ_seq (S n)) as L.
    cbn [seq map] in L |- *. rewrite L. reflexivity.
Qed.

End Turns.

(** ** What a chat turn leaves alone *)

Section ConversationFrame.
Context `{Globals}.

Lemma conversation_bad_symptoms (user_query : Schema.UserPrompt) (user : Z)
    (answered_at : string) (w : World) (row : ChatRow) :
  Main.select_chat (database w) (Schema.prompt_chat_id user_query) user
  = Some row ->
  symptoms row = Some SymptomsNotJson ->
  Main.conversation user_query user answered_at w =
  (Raises (HTTPException 500 (FailedToProcessChat JSONDecodeError)), w).
Proof.
  intros Hsel Hsym. unfold Main.conversation, try_except, bind, read_db.
  rewrite Hsel, Hsym. reflexivity.
Qed.

(** A failed [conversation] has written nothing. *)
Lemma conversation_raises_same_world (user_query : Schema.UserPrompt)
    (user : Z) (answered_at : string) (w w' : World) (e : exn) :
  Main.conversation user_query user answered_at w = (Raises e, w') -> w' = w.
Proof.
  destruct (Main.select_chat (database w) (Schema.prompt_chat_id user_query)
              user) as [row |] eqn:Hsel.
  - destruct (symptoms row) as [[| | |names] |] eqn:Hsym;
      try (rewrite (conversation_found _ _ _ _ row Hsel)
             by (rewrite Hsym; discriminate);
           destruct (CHAT_MODEL _ _) as [answer | msg];
           [discriminate |];
           now intros [= <- <-]).
    rewrite (conversation_bad_symptoms _ _ _ _ row Hsel Hsym).
    now intros [= <- <-].
  - rewrite (conversation_not_found _ _ _ _ Hsel). now intros [= <- <-].
Qed.


Lemma update_messages_frame (d : DB) (chat user : Z) (log : MessageLog) :
  Forall2
    (fun old new =>
       same_but_messages old new
       /\ ((chat_id old <> chat \/ user_id old <> user) -> new = old))
    (ChatDetails d) (ChatDetails (Main.update_messages d chat user log)).
Proof.
  unfold Main.update_messages. cbn [ChatDetails].
  induction (ChatDetails d) as [| r rows IH]; simpl; constructor;
    [| exact IH].
  destruct (Z.eqb_spec (chat_id r) chat) as [Ec | Ec];
    destruct (Z.eqb_spec (user_id r) user) as [Eu | Eu]; simpl;
    (split; [now repeat split |]); intros [Hc | Hu];
    solve [reflexivity | contradiction].
Qed.

Lemma Forall2_same {A : Type} (R : A -> A -> Prop) (l : list A) :
  (forall x, R x x) -> Forall2 R l l.
Proof. intros Hr. induction l; constructor; auto. Qed.

(** X9. Whatever its outcome, [conversation] never calls the classifier,
    never touches the [confidence] column and changes nothing in the chats
    but the log: every row keeps its owner, id, disease, symptoms,
    confidence and date, no row is added or removed, and a row of another
    chat or another user stays as it is. *)
Theorem conversation_changes_one_log (user_query : Schema.UserPrompt)
    (user : Z) (answered_at : string) (w w' : World)
    (r : outcome Schema.LLMReponse) :
  Main.conversation user_query user answered_at w = (r, w') ->
  classifier_calls w' = classifier_calls w
  /\ has_confidence_column (database w') = has_confidence_column (database w)
  /\ Forall2
       (fun old new =>
          same_but_messages old new
          /\ ((chat_id old <> Schema.prompt_chat_id user_query
               \/ user_id old <> user) -> new = old))
       (ChatDetails (database w)) (ChatDetails (database w')).
Proof.
  intros Hrun.
  assert (Hsame : forall w0 : World,
             classifier_calls w0 = classifier_calls w0
             /\ has_confidence_column (database w0)
                = has_confidence_column (database w0)
             /\ Forall2
                  (fun old new =>
                     same_but_messages old new
                     /\ ((chat_id old <> Schema.prompt_chat_id user_query
                          \/ user_id old <> user) -> new = old))
                  (ChatDetails (database w0)) (ChatDetails (database w0))).
  { intros w0. split; [reflexivity |]. split; [reflexivity |].
    apply Forall2_same. intros x. split; [now repeat split | reflexivity]. }
  destruct r as [resp | e].
  - destruct (Main.select_chat (database w) (Schema.prompt_chat_id user_query)
                user) as [row |] eqn:Hsel.
    + destruct (symptoms row) as [[| | |names] |] eqn:Hsym;
        try (rewrite (conversation_found _ _ _ _ row Hsel) in Hrun
               by (rewrite Hsym; discriminate);
             destruct (CHAT_MODEL _ _) as [answer | msg];
             [| discriminate];
             injection Hrun as _ <-; cbn [database classifier_calls];
             split; [reflexivity |]; split; [reflexivity |];
             apply update_messages_frame).
      rewrite (conversation_bad_symptoms _ _ _ _ row Hsel Hsym) in Hrun.
      discriminate.
    + rewrite (conversation_not_found _ _ _ _ Hsel) in Hrun. discriminate.
  - apply conversation_raises_same_world in Hrun. subst w'. apply Hsame.
Qed.

(** X10. [get_query] hands the chat model the caller's messages followed by
    one human message made from the query, and leaves the caller's list
    extended by exactly that message and one AI message: the answer, which
    it returns with the timestamp, or, when the model raises, the text of
    the error, which it raises again. *)
Theorem get_query_extends_conversation (query : string)
    (system_msg : SystemPrompt) (conversation : list Message)
    (disease_name : option string) (timestamp : string) :
  let asked :=
    conversation ++ [HumanMessage (Chat.human_message_text disease_name query)]
  in
  let run :=
    Chat.get_query query system_msg conversation disease_name timestamp in
  List.length (snd run) = List.length conversation + 2
  /\ firstn (List.length conversation + 1) (snd run) = asked
  /\ match CHAT_MODEL system_msg asked with
     | Reply answer =>
         run = (Returns (answer, timestamp), asked ++ [AIMessage answer])
     | Failure e =>
         run = (Raises (CollaboratorError e),
                asked ++ [AIMessage ("Error invoking model: " ++ e)])
     end.
Proof.
  intros asked run. subst run.
  unfold Chat.get_query, Chat._invoke_and_record. fold asked.
  assert (Hlen : List.length asked = List.length conversation + 1)
    by (unfold asked; rewrite length_app; reflexivity).
  destruct (CHAT_MODEL system_msg asked) as [answer | e]; cbn [snd];
    (split; [rewrite length_app, Hlen; simpl; lia |]);
    (split; [| reflexivity]);
    rewrite <- Hlen, firstn_app, firstn_all, Nat.sub_diag;
    apply app_nil_r.
Qed.

End ConversationFrame.

(** ** Computing, storing and reading back a confidence *)

Section Memo.
Context `{Globals}.

Lemma valid_stored (c : RowDict) (col : bool) :
  Main.has_valid_confidence col c = true ->
  exists v, confidence (columns_of c) = Some v.
Proof.
  unfold Main.has_valid_confidence. intros Hvalid.
  apply andb_true_iff in Hvalid. destruct Hvalid as [_ Hv].
  destruct (confidence (columns_of c)) as [v |]; [now exists v | discriminate].
Qed.

Lemma update_confidence_column_rows (d : DB) (chat : Z) (v : string)
    (r' : ChatRow) :
  In r' (ChatDetails (Main.update_confidence_column d chat v)) ->
  chat_id r' = chat -> confidence r' = Some v.
Proof.
  unfold Main.update_confidence_column. cbn [ChatDetails].
  intros Hin Hid. apply in_map_iff in Hin. destruct Hin as (r & <- & _).
  destruct (Z.eqb_spec (chat_id r) chat) as [E | E]; [reflexivity |].
  contradiction.
Qed.

Lemma update_confidence_column_frame (d : DB) (chat : Z) (v : string) :
  Forall2
    (fun old new =>
       same_but_confidence old new /\ (chat_id old <> chat -> new = old))
    (ChatDetails d) (ChatDetails (Main.update_confidence_column d chat v)).
Proof.
  unfold Main.update_confidence_column. cbn [ChatDetails].
  induction (ChatDetails d) as [| r rows IH]; simpl; constructor;
    [| exact IH].
  destruct (Z.eqb_spec (chat_id r) chat) as [E | E]; simpl;
    (split; [now repeat split |]); intros Hne;
    solve [reflexivity | contradiction].
Qed.

Lemma ensure_frame (d : DB) :
  Forall2
    (fun old new =>
       same_but_confidence old new
       /\ (has_confidence_column d = true -> new = old))
    (ChatDetails d) (ChatDetails (Db.ensure_confidence_column d)).
Proof.
  unfold Db.ensure_confidence_column.
  destruct (has_confidence_column d).
  - apply Forall2_same. intros x. split; [now repeat split | reflexivity].
  - unfold Db.add_confidence_column. cbn [ChatDetails].
    induction (ChatDetails d) as [| r rows IH]; simpl; constructor;
      [| exact IH].
    split; [now repeat split | discriminate].
Qed.

(** A value the validity check accepts, once in the column, is what a later
    read of the row gives, with no classifier call and no write. *)
Lemma stored_value_is_cached (recompute : bool) (w : World) (r : ChatRow)
    (v : string) :
  has_confidence_column (database w) = true ->
  confidence r = Some v ->
  ~ In v [EmptyString; "0%"; "0.00%"] ->
  Main.confidence_of_row recompute (fetched (database w) r) w
  = (Returns (Some v), w).
Proof.
  intros Hcol Hv Hok. rewrite confidence_of_row_cases.
  unfold Main.has_valid_confidence, fetched. cbn [has_confidence_key columns_of].
  rewrite Hcol, Hv. cbn [andb].
  destruct (existsb (String.eqb v) [EmptyString; "0%"; "0.00%"]) eqn:E.
  - apply existsb_eqb_In in E. contradiction.
  - reflexivity.
Qed.

Lemma computed_not_rejected (names : list string) (v : string) :
  computed_confidence names v -> ~ In v [EmptyString; "0%"; "0.00%"].
Proof.
  intros (prediction & best & _ & _ & ->).
  destruct (floored_not_rejected (snd best)) as (N1 & N2 & N3).
  simpl. intuition.
Qed.

(** X11. A listed row without valid stored confidence and with symptoms,
    when the classifier answers and either the table has the column or
    recomputation is forced, is always recomputed (there is no cap): the
    classifier is called once, the value goes to the entry and into the
    [confidence] of the rows of that chat id, and any later read of such a
    row, forced or not, gives the same value without calling the classifier
    or writing. *)
Theorem recomputed_value_is_memoized (recompute : bool) (c : RowDict)
    (w : World) (names : list string) (v : string) :
  Main.has_valid_confidence (has_confidence_column (database w)) c = false ->
  symptoms (columns_of c) = Some (SymptomsList names) ->
  names <> [] ->
  recompute = true \/ has_confidence_column (database w) = true ->
  computed_confidence names v ->
  exists w',
    Main.confidence_of_row recompute c w = (Returns (Some v), w')
    /\ classifier_calls w' = vector_of names :: classifier_calls w
    /\ has_confidence_column (database w') = true
    /\ (forall r',
          In r' (ChatDetails (database w')) ->
          chat_id r' = chat_id (columns_of c) ->
          confidence r' = Some v
          /\ forall again,
               Main.confidence_of_row again (fetched (database w') r') w'
               = (Returns (Some v), w')).
Proof.
  intros Hinvalid Hsym Hne Hgate Hcomputed.
  pose proof (computed_not_rejected names v Hcomputed) as Hok.
  destruct Hcomputed as (prediction & best & Emodel & Ebest & ->).
  rewrite confidence_of_row_cases, Hinvalid, Hsym.
  destruct names as [| name names]; [now contradiction Hne |].
  replace (negb recompute && negb (has_confidence_column (database w)))
    with false
    by (destruct Hgate as [-> | ->]; [reflexivity | now rewrite andb_false_r]).
  rewrite Emodel, Ebest. cbv zeta.
  eexists. split; [reflexivity |].
  unfold after_call. cbn [database classifier_calls].
  split; [reflexivity |]. split; [apply ensure_has_column |].
  intros r' Hin Hid.
  pose proof (update_confidence_column_rows _ _ _ _ Hin Hid) as Hv.
  split; [exact Hv |]. intros again.
  apply (stored_value_is_cached again
           (mkWorld
              (Main.update_confidence_column
                 (Db.ensure_confidence_column (database w))
                 (chat_id (columns_of c))
                 (Py.format_percent (Py.max (1 # 1000) (snd best))))
              (vector_of (name :: names) :: classifier_calls w)));
    [apply ensure_has_column | exact Hv | exact Hok].
Qed.

(** X12. The entry of a listed row has no confidence exactly when the row
    has no valid stored confidence and no non-empty list of symptoms; then
    the world is untouched, whatever the recompute flag. *)
Theorem no_confidence_without_symptoms (recompute : bool) (c : RowDict)
    (w : World) :
  (fst (Main.confidence_of_row recompute c w) = Returns None
   <-> Main.has_valid_confidence (has_confidence_column (database w)) c = false
       /\ no_symptoms (symptoms (columns_of c)))
  /\ (fst (Main.confidence_of_row recompute c w) = Returns None ->
      snd (Main.confidence_of_row recompute c w) = w).
Proof.
  rewrite confidence_of_row_cases.
  destruct (Main.has_valid_confidence _ c) eqn:Evalid.
  - destruct (valid_stored c _ Evalid) as (v & Ev). rewrite Ev. cbn [fst snd].
    split; [| discriminate]. split; [discriminate | intros [? _]; discriminate].
  - unfold no_symptoms.
    destruct (symptoms (columns_of c)) as [[| | | [| name names]] |];
      cbn [fst snd]; try (split; [split; [now split | reflexivity] | reflexivity]).
    destruct (negb recompute && negb _); cbn [fst snd].
    + split; [| discriminate]. split; [discriminate | intros [_ []]].
    + destruct (PREDICTION_MODEL _) as [prediction | e];
        [destruct (Py.np_argmax_max prediction) |]; cbn [fst snd];
        (split; [| discriminate]);
        (split; [discriminate | intros [_ []]]).
Qed.

End Memo.

(** ** Updating one confidence *)

Section UpdateConfidence.
Context `{Globals}.

(** [update_confidence] unfolded by cases. *)
Lemma update_confidence_cases (chat user : Z) (w : World) :
  Main.update_confidence chat user w =
  match Main.select_chat (database w) chat user with
  | None => (Raises (HTTPException 404 ChatNotFound), w)
  | Some row =>
      match symptoms row with
      | None | Some SymptomsEmptyText =>
          (Raises (HTTPException 400 NoSymptomsFound), w)
      | Some SymptomsNotJson =>
          (Raises (HTTPException 400 FailedToParseSymptoms), w)
      | Some SymptomsNotList | Some (SymptomsList []) =>
          (Raises (HTTPException 400 InvalidSymptomsData), w)
      | Some (SymptomsList ((_ :: _) as names)) =>
          match PREDICTION_MODEL (vector_of names) with
          | Failure e =>
              (Raises (HTTPException 500
                         (FailedToUpdateConfidence (CollaboratorError e))),
               after_classifier w names)
          | Reply prediction =>
              match Py.np_argmax_max prediction with
              | None =>
                  (Raises (HTTPException 500
                             (FailedToUpdateConfidence ValueError)),
                   after_classifier w names)
              | Some best =>
                  let v := Py.format_percent (Py.max (1 # 1000) (snd best)) in
                  (Returns (chat, v), after_call w names chat (Some v))
              end
          end
      end
  end.
Proof.
  unfold Main.update_confidence, try_except, bind, read_db.
  destruct (Main.select_chat (database w) chat user) as [row |];
    [| reflexivity].
  destruct (symptoms row) as [[| | | [| name names]] |]; try reflexivity.
  unfold ret, Main.predict_proba, after_classifier, after_call, vector_of.
  destruct (PREDICTION_MODEL _) as [prediction | e]; [| reflexivity].
  unfold Main.argmax_and_max.
  destruct (Py.np_argmax_max prediction) as [best |]; reflexivity.
Qed.


(** X14. When [update_confidence] returns a value for a chat, the classifier
    was called once, every row of that chat id holds the value, the chats of
    other ids are as before (in a table that had the column), and listing
    such a row afterwards, forced or not, gives the value back without
    calling the classifier or writing. *)
Theorem update_confidence_then_cached (chat user : Z) (w w' : World)
    (r : Z * string) :
  Main.update_confidence chat user w = (Returns r, w') ->
  fst r = chat
  /\ List.length (classifier_calls w') = 1 + List.length (classifier_calls w)
  /\ has_confidence_column (database w') = true
  /\ (forall row, In row (ChatDetails (database w')) -> chat_id row = chat ->
        confidence row = Some (snd r)
        /\ forall recompute,
             Main.confidence_of_row recompute (fetched (database w') row) w'
             = (Returns (Some (snd r)), w'))
  /\ (has_confidence_column (database w) = true ->
      Forall2
        (fun old new =>
           same_but_confidence old new /\ (chat_id old <> chat -> new = old))
        (ChatDetails (database w)) (ChatDetails (database w'))).
Proof.
  intros Hrun.
  destruct (update_confidence_returns chat user w w' r Hrun)
    as (row & names & Hsel & Hsym & Hcomputed & Hdb).
  pose proof (computed_not_rejected names (snd r) Hcomputed) as Hok.
  rewrite update_confidence_cases, Hsel, Hsym in Hrun.
  destruct names as [| name names]; [discriminate |].
  destruct (PREDICTION_MODEL _) as [prediction | msg]; [| discriminate].
  destruct (Py.np_argmax_max prediction) as [best |]; [| discriminate].
  cbv zeta in Hrun. injection Hrun as <- <-.
  cbn [fst snd] in *. unfold after_call. cbn [database classifier_calls].
  split; [reflexivity |]. split; [reflexivity |].
  split; [apply ensure_has_column |]. split.
  - intros row' Hin Hid.
    pose proof (update_confidence_column_rows _ _ _ _ Hin Hid) as Hv.
    split; [exact Hv |]. intros recompute.
    apply (stored_value_is_cached recompute
             (mkWorld
                (Main.update_confidence_column
                   (Db.ensure_confidence_column (database w)) chat
                   (Py.format_percent (Py.max (1 # 1000) (snd best))))
                (vector_of (name :: names) :: classifier_calls w)));
      [apply ensure_has_column | exact Hv | exact Hok].
  - intros Hcol. rewrite (ensure_when_present _ Hcol).
    apply update_confidence_column_frame.
Qed.

End UpdateConfidence.

(** ** Listing: what changes and what is shown *)

Section Order.


Context {A : Type} (le : A -> A -> bool).
Hypothesis le_total : forall x y, le x y = true \/ le y x = true.
Hypothesis le_trans : forall x y z, le x y = true -> le y z = true -> le x z = true.




End Order.

Section SortedSlices.
Context {A : Type} (R : A -> A -> Prop).




End SortedSlices.

Section ListingFrame.
Context `{Globals}.

Lemma Forall2_trans {A : Type} (R : A -> A -> Prop) (l1 l2 l3 : list A) :
  (forall x y z, R x y -> R y z -> R x z) ->
  Forall2 R l1 l2 -> Forall2 R l2 l3 -> Forall2 R l1 l3.
Proof.
  intros Htrans H12. revert l3.
  induction H12 as [| x y l1 l2 Hxy _ IH]; intros l3 H23.
  - inversion H23. constructor.
  - inversion H23; subst. constructor; [eapply Htrans; eassumption | auto].
Qed.

Lemma Forall2_weaken {A : Type} (R S : A -> A -> Prop) (l1 l2 : list A) :
  (forall x y, R x y -> S x y) -> Forall2 R l1 l2 -> Forall2 S l1 l2.
Proof. intros Hrs. induction 1; constructor; auto. Qed.

Lemma same_but_confidence_trans (a b c : ChatRow) :
  same_but_confidence a b -> same_but_confidence b c ->
  same_but_confidence a c.
Proof.
  unfold same_but_confidence.
  intros (A1 & A2 & A3 & A4 & A5 & A6) (B1 & B2 & B3 & B4 & B5 & B6).
  repeat split; congruence.
Qed.

Lemma listed_from_refl (w : World) : listed_from 0 w w.
Proof.
  split; [| split; [trivial |]].
  - apply Forall2_same. intros x. now repeat split.
  - exists []. split; [reflexivity | simpl; lia].
Qed.

Lemma listed_from_trans (a b : nat) (w1 w2 w3 : World) :
  listed_from a w1 w2 -> listed_from b w2 w3 -> listed_from (a + b) w1 w3.
Proof.
  intros (R1 & C1 & calls1 & E1 & L1) (R2 & C2 & calls2 & E2 & L2).
  split; [| split].
  - eapply Forall2_trans; [apply same_but_confidence_trans | eassumption ..].
  - auto.
  - exists (calls2 ++ calls1). split.
    + rewrite E2, E1. apply app_assoc.
    + rewrite length_app. lia.
Qed.

Lemma listed_from_more (a b : nat) (w w' : World) :
  a <= b -> listed_from a w w' -> listed_from b w w'.
Proof.
  intros Hab (R1 & C1 & calls & E & L).
  split; [assumption |]. split; [assumption |].
  exists calls. split; [assumption | lia].
Qed.

Lemma listed_from_after_call (w : World) (names : list string) (chat : Z)
    (stored : option string) :
  listed_from 1 w (after_call w names chat stored).
Proof.
  unfold after_call. split; [| split]; cbn [database classifier_calls].
  - destruct stored as [v |].
    + eapply Forall2_trans; [apply same_but_confidence_trans | |].
      * eapply Forall2_weaken; [| apply ensure_frame]. now intros x y [Hs _].
      * eapply Forall2_weaken; [| apply update_confidence_column_frame].
        now intros x y [Hs _].
    + apply Forall2_same. intros x. now repeat split.
  - intros Hcol. destruct stored as [v |]; [| exact Hcol].
    cbn [Main.update_confidence_column has_confidence_column].
    apply ensure_has_column.
  - exists [vector_of names]. split; [reflexivity | simpl; lia].
Qed.

Lemma confidence_of_row_listed (recompute : bool) (c : RowDict) (w w' : World)
    (r : outcome (option string)) :
  Main.confidence_of_row recompute c w = (r, w') ->
  listed_from 1 w w'
  /\ (recompute = false -> has_confidence_column (database w) = false ->
      w' = w).
Proof.
  rewrite confidence_of_row_cases.
  assert (Hsame : listed_from 1 w w)
    by (apply (listed_from_more 0); [lia | apply listed_from_refl]).
  destruct (Main.has_valid_confidence _ c).
  { intros [= <- <-]. now split. }
  destruct (symptoms (columns_of c)) as [[| | | [| name names]] |];
    try (intros [= <- <-]; now split).
  destruct recompute, (has_confidence_column (database w)); cbn [negb andb];
    try (intros [= <- <-]; now split);
    (destruct (PREDICTION_MODEL _) as [prediction | e];
     [destruct (Py.np_argmax_max prediction) |]);
    intros [= <- <-];
    (split; [apply listed_from_after_call | discriminate]).
Qed.

Lemma for_each_listed {A B : Type} (body : A -> M B) (P : World -> Prop) :
  (forall x w r w', body x w = (r, w') ->
                    listed_from 1 w w' /\ (P w -> w' = w)) ->
  forall l w r w',
    for_each body l w = (r, w') ->
    listed_from (List.length l) w w' /\ (P w -> w' = w).
Proof.
  intros Hbody. induction l as [| x l IH]; intros w r w' Hrun.
  - injection Hrun as <- <-. split; [apply listed_from_refl | reflexivity].
  - simpl in Hrun. unfold bind in Hrun.
    destruct (body x w) as [[y | e] w1] eqn:Ex.
    + destruct (Hbody x w _ _ Ex) as [H1 Hp1].
      destruct (for_each body l w1) as [[ys | e] w2] eqn:El;
        injection Hrun as <- <-;
        destruct (IH w1 _ _ El) as [H2 Hp2];
        (split; [change (List.length (x :: l)) with (1 + List.length l);
                 eapply listed_from_trans; eassumption |]);
        intros Hp; specialize (Hp1 Hp); subst w1; now apply Hp2.
    + injection Hrun as <- <-. destruct (Hbody x w _ _ Ex) as [H1 Hp1].
      split; [| exact Hp1].
      eapply listed_from_more; [| exact H1]. simpl. lia.
Qed.

Lemma length_select_page (d : DB) (user : Z) (limit offset : nat) :
  List.length (Main.select_page d user limit offset) <= limit.
Proof.
  unfold Main.select_page. rewrite length_map. apply firstn_le_length.
Qed.

(** X15. Whatever its outcome, a listing changes nothing in the chats but
    confidences: every row keeps its place, owner, id, log, disease, symptoms
    and date; it never drops the [confidence] column; it calls the classifier
    at most once per row of the page, so at most [per_page] times; and
    without forced recompute on a table that lacks the column it changes
    nothing at all and never calls the classifier. *)
Theorem listing_changes_only_confidence (user : Z) (page per_page : nat)
    (include_messages recompute : bool) (w w' : World)
    (r : outcome Schema.ChatHistory) :
  Main.chat_hist user page per_page include_messages recompute w = (r, w') ->
  listed_from per_page w w'
  /\ (recompute = false -> has_confidence_column (database w) = false ->
      w' = w).
Proof.
  unfold Main.chat_hist, try_except, bind, read_db.
  pose proof (length_select_page (database w) user per_page
                ((page - 1) * per_page)) as Hlen.
  destruct (Main.select_page (database w) user per_page ((page - 1) * per_page))
    as [| c rows] eqn:Epage.
  - intros [= <- <-]. split; [| reflexivity].
    apply (listed_from_more 0); [lia | apply listed_from_refl].
  - destruct (for_each (Main.chat_details_of_row user recompute) (c :: rows) w)
      as [[entries | e] w1] eqn:Eloop.
    + intros [= <- <-].
      destruct (for_each_listed
                  (Main.chat_details_of_row user recompute)
                  (fun w0 => recompute = false
                             /\ has_confidence_column (database w0) = false))
        with (l := c :: rows) (w := w) (r := Returns entries) (w' := w1)
        as [Hl Hp]; [| exact Eloop |].
      * intros x w0 r0 w0' Hstep.
        unfold Main.chat_details_of_row, bind, ret in Hstep.
        destruct (Main.confidence_of_row recompute x w0) as [[value | e] w2]
          eqn:Erow; injection Hstep as _ <-;
          destruct (confidence_of_row_listed _ _ _ _ _ Erow) as [H1 H2];
          (split; [exact H1 | intros [Hf Hc]; now apply H2]).
      * split; [eapply listed_from_more; [exact Hlen | exact Hl] |].
        intros Hf Hc. apply Hp. now split.
    + unfold raise. intros [= <- <-].
      destruct (for_each_listed
                  (Main.chat_details_of_row user recompute)
                  (fun w0 => recompute = false
                             /\ has_confidence_column (database w0) = false))
        with (l := c :: rows) (w := w) (r := @Raises (list Schema.ChatDetails) e)
             (w' := w1)
        as [Hl Hp]; [| exact Eloop |].
      * intros x w0 r0 w0' Hstep.
        unfold Main.chat_details_of_row, bind, ret in Hstep.
        destruct (Main.confidence_of_row recompute x w0) as [[value | e0] w2]
          eqn:Erow; injection Hstep as _ <-;
          destruct (confidence_of_row_listed _ _ _ _ _ Erow) as [H1 H2];
          (split; [exact H1 | intros [Hf Hc]; now apply H2]).
      * split; [eapply listed_from_more; [exact Hlen | exact Hl] |].
        intros Hf Hc. apply Hp. now split.
Qed.

End ListingFrame.

Section ListingPage.
Context `{Globals}.








End ListingPage.

(** ** Migrating the table and replacing a log *)

Section Maintenance.

Lemma world_eta (w : World) : mkWorld (database w) (classifier_calls w) = w.
Proof. now destruct w. Qed.

(** X17. [migrate_db] always returns and leaves a table with the
    [confidence] column. It is additive: rows keep their place and
    everything but, when the column had to be added, a confidence that is
    now [NULL]; on a table that has the column it changes nothing, so
    running it again changes nothing. *)
Theorem migrate_db_adds_column_once (w : World) :
  exists w',
    Main.migrate_db w = (Returns tt, w')
    /\ has_confidence_column (database w') = true
    /\ classifier_calls w' = classifier_calls w
    /\ Forall2 same_but_confidence
         (ChatDetails (database w)) (ChatDetails (database w'))
    /\ (has_confidence_column (database w) = false ->
        Forall (fun r => confidence r = None) (ChatDetails (database w')))
    /\ (has_confidence_column (database w) = true -> w' = w)
    /\ Main.migrate_db w' = (Returns tt, w').
Proof.
  unfold Main.migrate_db, bind, read_db, write_db.
  eexists. split; [reflexivity |]. cbn [database classifier_calls].
  split; [apply ensure_has_column |]. split; [reflexivity |].
  split; [| split; [| split]].
  - eapply Forall2_weaken; [| apply ensure_frame]. now intros x y [Hs _].
  - intros Hcol. unfold Db.ensure_confidence_column. rewrite Hcol.
    unfold Db.add_confidence_column. cbn [ChatDetails].
    apply Forall_forall. intros r Hr. apply in_map_iff in Hr.
    now destruct Hr as (r0 & <- & _).
  - intros Hcol. rewrite (ensure_when_present _ Hcol). apply world_eta.
  - rewrite (ensure_when_present (Db.ensure_confidence_column (database w)))
      by apply ensure_has_column.
    reflexivity.
Qed.

Lemma update_chat_run (user chat : Z) (log : MessageLog) (w : World) :
  Db.update_chat user chat log w =
  (Returns tt,
   mkWorld (Main.update_messages (database w) chat user log)
     (classifier_calls w)).
Proof.
  unfold Db.update_chat, bind, read_db, write_db, Main.update_messages.
  cbn [database classifier_calls]. do 3 f_equal.
  apply map_ext. intros r. now rewrite andb_comm.
Qed.

Lemma update_messages_absent (d : DB) (chat user : Z) (log : MessageLog) :
  Main.select_chat d chat user = None ->
  Main.update_messages d chat user log = d.
Proof.
  unfold Main.select_chat, Main.update_messages. intros Hnone.
  destruct d as [col rows]. cbn [has_confidence_column ChatDetails] in *.
  f_equal. rewrite <- (map_id rows) at 2. apply map_ext_in. intros r Hr.
  now rewrite (find_none _ _ Hnone r Hr).
Qed.

Lemma update_messages_twice (d : DB) (chat user : Z) (log1 log2 : MessageLog) :
  Main.update_messages (Main.update_messages d chat user log1) chat user log2
  = Main.update_messages d chat user log2.
Proof.
  unfold Main.update_messages. cbn [has_confidence_column ChatDetails].
  f_equal. rewrite map_map. apply map_ext. intros r.
  destruct ((chat_id r =? chat)%Z && (user_id r =? user)%Z) eqn:E; cbn;
    now rewrite E.
Qed.

(** X18. [update_chat] always returns. If the chat id matches a chat of the
    user, a lookup then finds that chat with the new log and everything else
    as before; if it matches none, the world is as it was (no error is
    raised). No other chat changes, and of two updates in a row the later
    one wins. *)
Theorem update_chat_then_select (user chat : Z) (log : MessageLog) (w : World) :
  exists w',
    Db.update_chat user chat log w = (Returns tt, w')
    /\ Main.select_chat (database w') chat user
       = option_map (with_log log) (Main.select_chat (database w) chat user)
    /\ (Main.select_chat (database w) chat user = None -> w' = w)
    /\ Forall2
         (fun old new =>
            same_but_messages old new
            /\ ((chat_id old <> chat \/ user_id old <> user) -> new = old))
         (ChatDetails (database w)) (ChatDetails (database w'))
    /\ (forall earlier,
          snd (Db.update_chat user chat log
                 (snd (Db.update_chat user chat earlier w)))
          = w').
Proof.
  eexists. split; [apply update_chat_run |]. cbn [database classifier_calls].
  split; [apply select_after_update |].
  split; [| split].
  - intros Hnone. rewrite (update_messages_absent _ _ _ _ Hnone).
    apply world_eta.
  - apply update_messages_frame.
  - intros earlier. rewrite !update_chat_run. cbn [snd database classifier_calls].
    now rewrite update_messages_twice.
Qed.

End Maintenance.

(** ** Accounts *)

Section Accounts.
Context `{Auth.Crypto}.

Lemma user_id_le_max (users : list Auth.UserRow) (u : Auth.UserRow) :
  In u users -> (Auth.user_id u <= fold_right Z.max 0 (map Auth.user_id users))%Z.
Proof.
  induction users as [| x users IH]; simpl; [contradiction |].
  intros [-> | Hin]; [lia |]. specialize (IH Hin). lia.
Qed.

Lemma next_user_id_fresh (t : Auth.Tables) (u : Auth.UserRow) :
  In u (Auth.UserProfile t) -> (Auth.user_id u < Auth.next_user_id t)%Z.
Proof.
  intros Hin. unfold Auth.next_user_id. apply user_id_le_max in Hin. lia.
Qed.

Lemma select_user_by_email_registered (t : Auth.Tables) (e : string) :
  (exists u, Auth.select_user_by_email t e = Some u) <-> registered t e.
Proof.
  unfold Auth.select_user_by_email, registered. split.
  - intros [u Hu]. apply find_some in Hu. destruct Hu as [Hin E].
    apply String.eqb_eq in E. now exists u.
  - intros (u & Hin & E).
    destruct (find _ (Auth.UserProfile t)) as [v |] eqn:Hf; [now exists v |].
    apply (find_none _ _ Hf) in Hin. rewrite E, String.eqb_refl in Hin.
    discriminate.
Qed.

Lemma insert_token_cases (t : Auth.Tables) (owner : Z)
    (value expires now : string) :
  (token_stored t value
   /\ Auth.insert_token t owner value expires now
      = Auth.Fails (Auth.IntegrityError "RefreshTokens.token"))
  \/ (~ token_stored t value
      /\ Auth.insert_token t owner value expires now
         = Auth.Ok (Auth.mkTables (Auth.UserProfile t)
                      (Auth.RefreshTokens t
                         ++ [issued_token t owner value expires now])
                      (Auth.last_token_id t + 1))).
Proof.
  unfold Auth.insert_token, token_stored.
  destruct (existsb _ (Auth.RefreshTokens t)) eqn:E.
  - left. split; [| reflexivity]. apply existsb_exists in E.
    destruct E as (r & Hin & E). apply String.eqb_eq in E. now exists r.
  - right. split; [| reflexivity]. intros (r & Hin & Er).
    assert (existsb (fun r => (Auth.token r =? value)%string)
              (Auth.RefreshTokens t) = true); [| congruence].
    apply existsb_exists. exists r. split; [assumption |].
    now apply String.eqb_eq.
Qed.

(** [signup] unfolded by cases. *)
Lemma signup_cases (request : Auth.Models.UserSignupRequest)
    (salt now fresh_token refresh_expire utcnow : string) (t : Auth.Tables) :
  let new_id := Auth.next_user_id t in
  let row :=
    signed_up_row request new_id
      (Auth.hash_password (Auth.Models.signup_password request) salt) now in
  Auth.signup request salt now fresh_token refresh_expire utcnow t =
  match Auth.select_user_by_email t (Auth.Models.signup_email request) with
  | Some _ =>
      (Auth.Fails (Auth.HTTPException 400 "Email already registered"), t)
  | None =>
      if existsb (fun r => (Auth.token r =? fresh_token)%string)
           (Auth.RefreshTokens t)
      then (Auth.Fails (Auth.IntegrityError "RefreshTokens.token"), t)
      else
        (Auth.Ok
           (Auth.Models.mkAuthSuccessResponse "User created successfully"
              (Auth.profile_of row)
              (Auth.create_access_token new_id utcnow) fresh_token "bearer"),
         Auth.mkTables (Auth.UserProfile t ++ [row])
           (Auth.RefreshTokens t
              ++ [issued_token t new_id fresh_token refresh_expire now])
           (Auth.last_token_id t + 1))
  end.
Proof.
  intros new_id row. unfold Auth.signup.
  destruct (Auth.select_user_by_email t _); [reflexivity |].
  unfold Auth.insert_token. cbn [Auth.RefreshTokens Auth.last_token_id
                                 Auth.UserProfile].
  destruct (existsb _ (Auth.RefreshTokens t)); [reflexivity |].
  unfold Auth.select_user. cbn [Auth.UserProfile].
  rewrite find_app_none.
  - cbn [find Auth.user_id]. rewrite Z.eqb_refl. reflexivity.
  - destruct (find _ (Auth.UserProfile t)) as [u |] eqn:E; [| reflexivity].
    apply find_some in E. destruct E as [Hin E]. apply Z.eqb_eq in E.
    apply next_user_id_fresh in Hin. lia.
Qed.

(** X19. Signing up with an address that an account already has fails with
    400 "Email already registered" and leaves the tables as they were; this
    is the only way [signup] gives a 400. *)
Theorem signup_duplicate_email (request : Auth.Models.UserSignupRequest)
    (salt now fresh_token refresh_expire utcnow : string) (t : Auth.Tables) :
  (registered t (Auth.Models.signup_email request) ->
   Auth.signup request salt now fresh_token refresh_expire utcnow t
   = (Auth.Fails (Auth.HTTPException 400 "Email already registered"), t))
  /\ (forall detail t',
        Auth.signup request salt now fresh_token refresh_expire utcnow t
        = (Auth.Fails (Auth.HTTPException 400 detail), t') ->
        registered t (Auth.Models.signup_email request)).
Proof.
  rewrite signup_cases. split.
  - intros Hreg. apply select_user_by_email_registered in Hreg.
    destruct Hreg as [u ->]. reflexivity.
  - intros detail t'.
    destruct (Auth.select_user_by_email t _) as [u |] eqn:E.
    + intros _. apply select_user_by_email_registered. now exists u.
    + destruct (existsb _ (Auth.RefreshTokens t)); discriminate.
Qed.

Lemma signup_adds_one_account_rows
    (request : Auth.Models.UserSignupRequest)
    (salt now fresh_token refresh_expire utcnow : string)
    (t t' : Auth.Tables) (resp : Auth.Models.AuthSuccessResponse) :
  Auth.signup request salt now fresh_token refresh_expire utcnow t
  = (Auth.Ok resp, t') ->
  let row :=
    signed_up_row request (Auth.next_user_id t)
      (Auth.hash_password (Auth.Models.signup_password request) salt) now in
  ~ registered t (Auth.Models.signup_email request)
  /\ Auth.UserProfile t' = Auth.UserProfile t ++ [row]
  /\ Auth.Models.user resp = Auth.profile_of row.
Proof.
  rewrite signup_cases.
  destruct (Auth.select_user_by_email t _) as [u |] eqn:Eemail;
    [discriminate |].
  destruct (existsb _ (Auth.RefreshTokens t)); [discriminate |].
  intros [= <- <-]. cbv zeta. split; [| now split].
  intros Hreg. apply select_user_by_email_registered in Hreg.
  destruct Hreg as [v Hv]. congruence.
Qed.

(** X20. When [signup] succeeds, one account and one refresh token were
    added: the account has an id above all earlier ids, the address, name,
    age, BMI and gender of the request, and the hash of its password; the
    token belongs to it and expires at the date given; the response shows
    that account and carries that token and an access token for that id.
    Addresses that were unique stay unique. When [signup] fails, the tables
    are as they were. *)
Theorem signup_adds_one_account (request : Auth.Models.UserSignupRequest)
    (salt now fresh_token refresh_expire utcnow : string)
    (t t' : Auth.Tables) (r : Auth.result Auth.Models.AuthSuccessResponse) :
  Auth.signup request salt now fresh_token refresh_expire utcnow t = (r, t') ->
  match r with
  | Auth.Fails _ => t' = t
  | Auth.Ok resp =>
      let row :=
        signed_up_row request (Auth.next_user_id t)
          (Auth.hash_password (Auth.Models.signup_password request) salt)
          now in
      ~ registered t (Auth.Models.signup_email request)
      /\ ~ token_stored t fresh_token
      /\ Auth.UserProfile t' = Auth.UserProfile t ++ [row]
      /\ Auth.RefreshTokens t' =
         Auth.RefreshTokens t
           ++ [issued_token t (Auth.next_user_id t) fresh_token refresh_expire
                 now]
      /\ (forall u, In u (Auth.UserProfile t) ->
                    (Auth.user_id u < Auth.next_user_id t)%Z)
      /\ Auth.Models.user resp = Auth.profile_of row
      /\ Auth.Models.refresh_token resp = fresh_token
      /\ Auth.Models.access_token resp =
         Auth.create_access_token (Auth.next_user_id t) utcnow
      /\ (emails_unique t -> emails_unique t')
  end.
Proof.
  rewrite signup_cases.
  destruct (Auth.select_user_by_email t _) as [u |] eqn:Eemail.
  { intros [= <- <-]. reflexivity. }
  destruct (existsb _ (Auth.RefreshTokens t)) eqn:Etoken.
  { intros [= <- <-]. reflexivity. }
  intros [= <- <-]. cbv zeta.
  cbn [Auth.UserProfile Auth.RefreshTokens Auth.Models.user
       Auth.Models.refresh_token Auth.Models.access_token].
  assert (Hnew : ~ registered t (Auth.Models.signup_email request)).
  { intros Hreg. apply select_user_by_email_registered in Hreg.
    destruct Hreg as [v Hv]. congruence. }
  split; [exact Hnew |]. split.
  { intros (row & Hin & Er).
    assert (existsb (fun r => (Auth.token r =? fresh_token)%string)
              (Auth.RefreshTokens t) = true); [| congruence].
    apply existsb_exists. exists row. split; [assumption |].
    now apply String.eqb_eq. }
  split; [reflexivity |]. split; [reflexivity |].
  split; [apply next_user_id_fresh |].
  split; [reflexivity |]. split; [reflexivity |]. split; [reflexivity |].
  unfold emails_unique. cbn [Auth.UserProfile]. intros Hnd.
  rewrite map_app. cbn [map signed_up_row Auth.email].
  apply NoDup_app_iff_single; [exact Hnd |].
  intros Hin. apply in_map_iff in Hin. destruct Hin as (v & Ev & Hv).
  apply Hnew. now exists v.
Qed.

End Accounts.

Section Sessions.
Context `{Auth.Crypto}.

(** [login] unfolded by cases. *)
Lemma login_cases (request : Auth.Models.UserLoginRequest)
    (now fresh_token refresh_expire utcnow : string) (t : Auth.Tables) :
  Auth.login request now fresh_token refresh_expire utcnow t =
  match Auth.select_user_by_email t (Auth.Models.login_email request) with
  | None =>
      (Auth.Fails (Auth.HTTPException 401 "Invalid email or password"), t)
  | Some u =>
      if Auth.verify_password (Auth.Models.login_password request)
           (Auth.password_hash u)
      then
        if existsb (fun r => (Auth.token r =? fresh_token)%string)
             (Auth.RefreshTokens t)
        then (Auth.Fails (Auth.IntegrityError "RefreshTokens.token"), t)
        else
          (Auth.Ok
             (Auth.Models.mkAuthSuccessResponse "Login successful"
                (Auth.profile_of u)
                (Auth.create_access_token (Auth.user_id u) utcnow)
                fresh_token "bearer"),
           Auth.mkTables (Auth.UserProfile t)
             (Auth.RefreshTokens t
                ++ [issued_token t (Auth.user_id u) fresh_token refresh_expire
                      now])
             (Auth.last_token_id t + 1))
      else
        (Auth.Fails (Auth.HTTPException 401 "Invalid email or password"), t)
  end.
Proof.
  unfold Auth.login.
  destruct (Auth.select_user_by_email t _) as [u |]; [| reflexivity].
  destruct (Auth.verify_password _ _); [| reflexivity].
  cbn [negb]. unfold Auth.insert_token.
  destruct (existsb _ (Auth.RefreshTokens t)); reflexivity.
Qed.

(** X21. [login] answers an unknown address and a wrong password with the
    same error, 401 "Invalid email or password"; these are its only 401s;
    and whenever it fails the tables are as they were. When it succeeds, the
    accounts are untouched and one refresh token was added, for the account
    of that address. *)
Theorem login_outcome (request : Auth.Models.UserLoginRequest)
    (now fresh_token refresh_expire utcnow : string) (t t' : Auth.Tables)
    (r : Auth.result Auth.Models.AuthSuccessResponse) :
  Auth.login request now fresh_token refresh_expire utcnow t = (r, t') ->
  match r with
  | Auth.Fails e =>
      t' = t
      /\ ((e = Auth.HTTPException 401 "Invalid email or password"
           /\ (~ registered t (Auth.Models.login_email request)
               \/ exists u,
                    Auth.select_user_by_email t (Auth.Models.login_email request)
                    = Some u
                    /\ Auth.verify_password (Auth.Models.login_password request)
                         (Auth.password_hash u) = false))
          \/ (e = Auth.IntegrityError "RefreshTokens.token"
              /\ token_stored t fresh_token))
  | Auth.Ok resp =>
      exists u,
        Auth.select_user_by_email t (Auth.Models.login_email request) = Some u
        /\ Auth.verify_password (Auth.Models.login_password request)
             (Auth.password_hash u) = true
        /\ Auth.Models.user resp = Auth.profile_of u
        /\ Auth.Models.refresh_token resp = fresh_token
        /\ Auth.Models.access_token resp =
           Auth.create_access_token (Auth.user_id u) utcnow
        /\ Auth.UserProfile t' = Auth.UserProfile t
        /\ Auth.RefreshTokens t' =
           Auth.RefreshTokens t
             ++ [issued_token t (Auth.user_id u) fresh_token refresh_expire now]
  end.
Proof.
  rewrite login_cases.
  destruct (Auth.select_user_by_email t _) as [u |] eqn:Eemail.
  - destruct (Auth.verify_password _ _) eqn:Everify.
    + destruct (existsb _ (Auth.RefreshTokens t)) eqn:Etoken.
      * intros [= <- <-]. split; [reflexivity |]. right.
        split; [reflexivity |]. apply existsb_exists in Etoken.
        destruct Etoken as (row & Hin & E). apply String.eqb_eq in E.
        now exists row.
      * intros [= <- <-]. exists u. now repeat split.
    + intros [= <- <-]. split; [reflexivity |]. left.
      split; [reflexivity |]. right. now exists u.
  - intros [= <- <-]. split; [reflexivity |]. left.
    split; [reflexivity |]. left. intros Hreg.
    apply select_user_by_email_registered in Hreg.
    destruct Hreg as [v Hv]. congruence.
Qed.

(** X22. If checking a password against its own hash succeeds, then after a
    successful [signup] a [login] with the same address and password and a
    refresh token not yet stored succeeds too, and shows the account that
    [signup] showed. *)
Theorem signup_then_login (request : Auth.Models.UserSignupRequest)
    (salt now fresh_token refresh_expire utcnow : string)
    (now2 token2 expire2 utcnow2 : string)
    (t t' : Auth.Tables) (resp : Auth.Models.AuthSuccessResponse) :
  (forall password s,
      Auth.verify_password password (Auth.hash_password password s) = true) ->
  Auth.signup request salt now fresh_token refresh_expire utcnow t
  = (Auth.Ok resp, t') ->
  ~ token_stored t' token2 ->
  exists resp2 t'',
    Auth.login
      (Auth.Models.mkUserLoginRequest (Auth.Models.signup_email request)
         (Auth.Models.signup_password request))
      now2 token2 expire2 utcnow2 t'
    = (Auth.Ok resp2, t'')
    /\ Auth.Models.user resp2 = Auth.Models.user resp
    /\ Auth.Models.refresh_token resp2 = token2.
Proof.
  intros Hbcrypt Hsignup Hfresh.
  pose proof (signup_adds_one_account_rows request salt now fresh_token
                refresh_expire utcnow t t' resp Hsignup)
    as (Hnew & Husers & Hresp).
  rewrite login_cases. cbn [Auth.Models.login_email Auth.Models.login_password].
  assert (Esel : Auth.select_user_by_email t' (Auth.Models.signup_email request)
                 = Some (signed_up_row request (Auth.next_user_id t)
                           (Auth.hash_password
                              (Auth.Models.signup_password request) salt) now)).
  { unfold Auth.select_user_by_email. rewrite Husers, find_app_none.
    - cbn [find signed_up_row Auth.email]. now rewrite String.eqb_refl.
    - destruct (find _ (Auth.UserProfile t)) as [u |] eqn:E; [| reflexivity].
      exfalso. apply Hnew. apply select_user_by_email_registered.
      now exists u. }
  rewrite Esel. cbn [signed_up_row Auth.password_hash]. rewrite Hbcrypt.
  destruct (existsb _ (Auth.RefreshTokens t')) eqn:Etoken.
  - exfalso. apply Hfresh. apply existsb_exists in Etoken.
    destruct Etoken as (row & Hin & E). apply String.eqb_eq in E.
    now exists row.
  - eexists. eexists. split; [reflexivity |].
    cbn [Auth.Models.user Auth.Models.refresh_token]. now rewrite Hresp.
Qed.

(** X23. [refresh_token] never changes the tables. It succeeds exactly when
    a stored row holds the presented token with an expiry later than the
    clock (as texts), and the access token is then made for the owner of
    such a row; otherwise it fails with 401. *)
Theorem refresh_token_outcome (presented now utcnow : string)
    (t : Auth.Tables) :
  snd (Auth.refresh_token presented now utcnow t) = t
  /\ match fst (Auth.refresh_token presented now utcnow t) with
     | Auth.Ok access =>
         exists r,
           In r (Auth.RefreshTokens t)
           /\ Auth.token r = presented
           /\ String.ltb now (Auth.expires_at r) = true
           /\ access = Auth.create_access_token (Auth.token_user_id r) utcnow
     | Auth.Fails e =>
         e = Auth.HTTPException 401 "Invalid or expired refresh token"
         /\ forall r,
              In r (Auth.RefreshTokens t) ->
              Auth.token r = presented ->
              String.ltb now (Auth.expires_at r) = false
     end.
Proof.
  unfold Auth.refresh_token.
  destruct (find _ (Auth.RefreshTokens t)) as [row |] eqn:Efind;
    cbn [fst snd]; (split; [reflexivity |]).
  - apply find_some in Efind. destruct Efind as [Hin Hrow].
    apply andb_true_iff in Hrow. destruct Hrow as [Htoken Hlater].
    apply String.eqb_eq in Htoken. exists row. now repeat split.
  - split; [reflexivity |]. intros r Hin Htoken.
    pose proof (find_none _ _ Efind r Hin) as Hr. cbn beta in Hr.
    apply andb_false_iff in Hr. destruct Hr as [Hr | Hr]; [| exact Hr].
    apply String.eqb_neq in Hr. contradiction.
Qed.

(** X24. [logout] always succeeds, whoever the caller is: it deletes every
    row holding the presented token, also one of another user, keeps the
    other rows in their order and the accounts as they are. Afterwards the
    token is not stored, [refresh_token] refuses it at any time, and a second
    [logout] changes nothing. *)
Theorem logout_revokes (presented : string) (current_user : Auth.UserRow)
    (t : Auth.Tables) :
  let t' := snd (Auth.logout presented current_user t) in
  fst (Auth.logout presented current_user t) = Auth.Ok "Logged out successfully"
  /\ Auth.UserProfile t' = Auth.UserProfile t
  /\ Auth.RefreshTokens t' =
     filter (fun r => negb (Auth.token r =? presented)%string)
       (Auth.RefreshTokens t)
  /\ (forall r,
        In r (Auth.RefreshTokens t') <->
        In r (Auth.RefreshTokens t) /\ Auth.token r <> presented)
  /\ ~ token_stored t' presented
  /\ (forall now utcnow,
        Auth.refresh_token presented now utcnow t' =
        (Auth.Fails (Auth.HTTPException 401 "Invalid or expired refresh token"),
         t'))
  /\ (forall other_user, snd (Auth.logout presented other_user t') = t').
Proof.
  cbv zeta. unfold Auth.logout. cbn [fst snd Auth.UserProfile Auth.RefreshTokens
                                     Auth.last_token_id].
  assert (Hrows : forall r,
             In r (filter (fun r => negb (Auth.token r =? presented)%string)
                     (Auth.RefreshTokens t)) <->
             In r (Auth.RefreshTokens t) /\ Auth.token r <> presented).
  { intros r. rewrite filter_In, negb_true_iff, String.eqb_neq. tauto. }
  assert (Hgone : forall now,
             find (fun r => (Auth.token r =? presented)%string
                            && String.ltb now (Auth.expires_at r))
               (filter (fun r => negb (Auth.token r =? presented)%string)
                  (Auth.RefreshTokens t)) = None).
  { intros now.
    destruct (find _ (filter _ _)) as [row |] eqn:Efind; [| reflexivity].
    apply find_some in Efind. destruct Efind as [Hin Hrow].
    apply Hrows in Hin. apply andb_true_iff in Hrow.
    destruct Hrow as [Htoken _]. apply String.eqb_eq in Htoken. tauto. }
  repeat split.
  - now apply Hrows.
  - now apply Hrows.
  - intros Hr. now apply Hrows.
  - intros (r & Hin & Htoken). apply Hrows in Hin. tauto.
  - intros now utcnow. unfold Auth.refresh_token.
    cbn [Auth.RefreshTokens]. now rewrite Hgone.
  - intros other_user. f_equal. apply forallb_filter_id.
    apply forallb_forall. intros r Hin. apply Hrows in Hin.
    now apply negb_true_iff, String.eqb_neq.
Qed.

(** X25. After a successful [login], [refresh_token] with the refresh token
    of the response gives an access token for the account that logged in, as
    long as the clock (as a text) is before the expiry written at login, and
    fails with 401 from then on. *)
Theorem login_then_refresh (request : Auth.Models.UserLoginRequest)
    (now fresh_token refresh_expire utcnow now2 utcnow2 : string)
    (t t' : Auth.Tables) (resp : Auth.Models.AuthSuccessResponse) :
  Auth.login request now fresh_token refresh_expire utcnow t
  = (Auth.Ok resp, t') ->
  Auth.refresh_token (Auth.Models.refresh_token resp) now2 utcnow2 t' =
  (if String.ltb now2 refresh_expire
   then Auth.Ok
          (Auth.create_access_token
             (Auth.Models.profile_user_id (Auth.Models.user resp)) utcnow2)
   else Auth.Fails (Auth.HTTPException 401 "Invalid or expired refresh token"),
   t').
Proof.
  rewrite login_cases.
  destruct (Auth.select_user_by_email t _) as [u |]; [| discriminate].
  destruct (Auth.verify_password _ _); [| discriminate].
  destruct (existsb _ (Auth.RefreshTokens t)) eqn:Etoken; [discriminate |].
  intros [= <- <-]. unfold Auth.refresh_token.
  cbn [Auth.Models.refresh_token Auth.Models.user Auth.RefreshTokens
       Auth.profile_of Auth.Models.profile_user_id].
  rewrite find_app_none.
  - cbn [find issued_token Auth.token Auth.expires_at Auth.token_user_id].
    rewrite String.eqb_refl. cbn [andb].
    now destruct (String.ltb now2 refresh_expire).
  - destruct (find _ (Auth.RefreshTokens t)) as [row |] eqn:Efind;
      [| reflexivity].
    apply find_some in Efind. destruct Efind as [Hin Hrow].
    apply andb_true_iff in Hrow. destruct Hrow as [Htoken _].
    assert (existsb (fun r => (Auth.token r =? fresh_token)%string)
              (Auth.RefreshTokens t) = true) by
      (apply existsb_exists; now exists row).
    congruence.
Qed.

End Sessions.

Section Profile.
Context `{Auth.Crypto}.

Lemma find_map_same_id (id : Z) (f : Auth.UserRow -> Auth.UserRow)
    (rows : list Auth.UserRow) :
  (forall u, Auth.user_id (f u) = Auth.user_id u) ->
  find (fun u => (Auth.user_id u =? id)%Z) (map f rows) =
  option_map f (find (fun u => (Auth.user_id u =? id)%Z) rows).
Proof.
  intros Hid. induction rows as [| u rows IH]; [reflexivity |].
  cbn [map find]. rewrite Hid.
  destruct (Auth.user_id u =? id)%Z; [reflexivity | exact IH].
Qed.

Lemma has_update_false (request : Auth.Models.UserProfileUpdateRequest) :
  Auth.has_update request = false <->
  request = Auth.Models.mkUserProfileUpdateRequest None None None None None.
Proof.
  destruct request as [[n |] [a |] [b |] [g |] [p |]]; cbn;
    split; intros E; try discriminate E; reflexivity.
Qed.

(** The tables after the [UPDATE] of [update_profile]. *)
Lemma update_profile_found (request : Auth.Models.UserProfileUpdateRequest)
    (current_user u : Auth.UserRow) (salt now : string) (t : Auth.Tables) :
  Auth.select_user t (Auth.user_id current_user) = Some u ->
  Auth.update_profile request current_user salt now t =
  if Auth.has_update request
  then
    (Auth.Ok (Auth.profile_of (Auth.apply_update request salt now u)),
     Auth.mkTables
       (map (fun u0 => if (Auth.user_id u0 =? Auth.user_id current_user)%Z
                       then Auth.apply_update request salt now u0 else u0)
          (Auth.UserProfile t))
       (Auth.RefreshTokens t) (Auth.last_token_id t))
  else (Auth.Ok (Auth.profile_of u), t).
Proof.
  intros Hfound. unfold Auth.update_profile. cbv zeta.
  destruct (Auth.has_update request).
  - unfold Auth.select_user in *. cbn [Auth.UserProfile].
    rewrite find_map_same_id.
    + rewrite Hfound. pose proof (find_some _ _ Hfound) as [_ Hid].
      cbn beta in Hid. cbn [option_map]. now rewrite Hid.
    + intros u0. now destruct (Auth.user_id u0 =? _)%Z.
  - now rewrite Hfound.
Qed.

(** X26. For an account that exists, [update_profile] answers with the row
    as it is stored afterwards: each field the request gives is replaced,
    each one it leaves out is kept; the password hash changes only with a new
    password; id, address and creation date never change; the update date is
    the clock when some field is given, and with no field at all the tables
    are left as they were. *)
Theorem update_profile_result (request : Auth.Models.UserProfileUpdateRequest)
    (current_user u : Auth.UserRow) (salt now : string) (t : Auth.Tables) :
  Auth.select_user t (Auth.user_id current_user) = Some u ->
  exists u',
    fst (Auth.update_profile request current_user salt now t)
    = Auth.Ok (Auth.profile_of u')
    /\ Auth.select_user
         (snd (Auth.update_profile request current_user salt now t))
         (Auth.user_id current_user) = Some u'
    /\ Auth.user_id u' = Auth.user_id u
    /\ Auth.email u' = Auth.email u
    /\ Auth.created_at u' = Auth.created_at u
    /\ Auth.name u' = match Auth.Models.new_name request with
                      | Some v => v
                      | None => Auth.name u
                      end
    /\ Auth.age u' = match Auth.Models.new_age request with
                     | Some v => v
                     | None => Auth.age u
                     end
    /\ Auth.bmi u' = match Auth.Models.new_bmi request with
                     | Some v => v
                     | None => Auth.bmi u
                     end
    /\ Auth.gender u' = match Auth.Models.new_gender request with
                        | Some v => v
                        | None => Auth.gender u
                        end
    /\ Auth.password_hash u' =
       match Auth.Models.new_password request with
       | Some p => Auth.hash_password p salt
       | None => Auth.password_hash u
       end
    /\ Auth.updated_at u' =
       (if Auth.has_update request then now else Auth.updated_at u)
    /\ (Auth.has_update request = false ->
        snd (Auth.update_profile request current_user salt now t) = t).
Proof.
  intros Hfound. rewrite (update_profile_found request current_user u salt now t Hfound).
  destruct (Auth.has_update request) eqn:Eupdate; cbn [fst snd].
  - exists (Auth.apply_update request salt now u).
    split; [reflexivity |]. split.
    + unfold Auth.select_user in *. cbn [Auth.UserProfile].
      rewrite find_map_same_id.
      * rewrite Hfound. pose proof (find_some _ _ Hfound) as [_ Hid].
        cbn beta in Hid. cbn [option_map]. now rewrite Hid.
      * intros u0. now destruct (Auth.user_id u0 =? _)%Z.
    + repeat split; try reflexivity. discriminate.
  - exists u. apply has_update_false in Eupdate. subst request.
    cbn [Auth.Models.new_name Auth.Models.new_age Auth.Models.new_bmi
         Auth.Models.new_gender Auth.Models.new_password].
    now repeat split.
Qed.

(** The tables [update_profile] leaves. *)
Lemma update_profile_tables (request : Auth.Models.UserProfileUpdateRequest)
    (current_user : Auth.UserRow) (salt now : string) (t : Auth.Tables) :
  snd (Auth.update_profile request current_user salt now t) =
  if Auth.has_update request
  then Auth.mkTables
         (map (fun u => if (Auth.user_id u =? Auth.user_id current_user)%Z
                        then Auth.apply_update request salt now u else u)
            (Auth.UserProfile t))
         (Auth.RefreshTokens t) (Auth.last_token_id t)
  else t.
Proof.
  unfold Auth.update_profile. cbv zeta.
  destruct (Auth.has_update request); now destruct (Auth.select_user _ _).
Qed.

(** X27. Whatever the request, [update_profile] leaves the refresh tokens
    alone, keeps every account in its place with its id and address, and
    leaves the rows of all other accounts as they were. For a caller whose
    account is not stored it raises the [TypeError] of [dict(None)], and the
    rows are as before. *)
Theorem update_profile_frame (request : Auth.Models.UserProfileUpdateRequest)
    (current_user : Auth.UserRow) (salt now : string) (t : Auth.Tables) :
  let t' := snd (Auth.update_profile request current_user salt now t) in
  Auth.RefreshTokens t' = Auth.RefreshTokens t
  /\ Auth.last_token_id t' = Auth.last_token_id t
  /\ Forall2
       (fun u u' =>
          Auth.user_id u' = Auth.user_id u
          /\ Auth.email u' = Auth.email u
          /\ (Auth.user_id u <> Auth.user_id current_user -> u' = u))
       (Auth.UserProfile t) (Auth.UserProfile t')
  /\ (Auth.select_user t (Auth.user_id current_user) = None ->
      fst (Auth.update_profile request current_user salt now t)
      = Auth.Fails Auth.TypeError
      /\ Auth.UserProfile t' = Auth.UserProfile t).
Proof.
  cbv zeta. rewrite update_profile_tables.
  assert (Hmissing :
            Auth.select_user t (Auth.user_id current_user) = None ->
            map (fun u => if (Auth.user_id u =? Auth.user_id current_user)%Z
                          then Auth.apply_update request salt now u else u)
              (Auth.UserProfile t) = Auth.UserProfile t).
  { intros Hnone. rewrite <- (map_id (Auth.UserProfile t)) at 2.
    apply map_ext_in. intros u Hin.
    pose proof (find_none _ _ Hnone u Hin) as Hu. cbn beta in Hu.
    now rewrite Hu. }
  split; [| split; [| split]].
  - now destruct (Auth.has_update request).
  - now destruct (Auth.has_update request).
  - clear Hmissing. destruct (Auth.has_update request); cbn [Auth.UserProfile].
    + induction (Auth.UserProfile t) as [| u rows IH]; [constructor |].
      cbn [map]. constructor; [| exact IH].
      destruct (Auth.user_id u =? Auth.user_id current_user)%Z eqn:Eid.
      * apply Z.eqb_eq in Eid. cbn. repeat split. intros Hne. contradiction.
      * now repeat split.
    + induction (Auth.UserProfile t) as [| u rows IH]; constructor;
        [now repeat split | exact IH].
  - intros Hnone. split.
    + unfold Auth.update_profile. cbv zeta.
      destruct (Auth.has_update request).
      * unfold Auth.select_user at 1. cbn [Auth.UserProfile].
        rewrite (Hmissing Hnone). unfold Auth.select_user in Hnone.
        now rewrite Hnone.
      * now rewrite Hnone.
    + destruct (Auth.has_update request); cbn [Auth.UserProfile];
        [exact (Hmissing Hnone) | reflexivity].
Qed.

End Profile.

(** * Runs of the handlers

    Each property above that has a premise, on the fixtures of [Demo]. *)

(** The query ["FE"] finds ["fever"], whatever the case of its letters. *)
Lemma get_symptoms_result_witness :
  Main.get_symptoms (H := Demo.globals) (U := Demo.unicode) "FE" = ["fever"].
Proof.
  destruct (@get_symptoms_result Demo.globals Demo.unicode "FE")
    as (_ & _ & _ & _ & _ & _ & Hascii & _).
  refine (Hascii eq_refl _). repeat constructor.
Defined.

(** A request with a name outside the vocabulary: the 400 comes back as the
    cause of a 500, and names ["itch"]. *)
Lemma predict_unknown_symptom_witness :
  Main.predict (H := Demo.globals) ["fever"; "itch"] 1 "2025-01-03T08:00:00"
    Demo.one_chat
  = (Raises (HTTPException 500
               (PredictionFailed
                  (HTTPException 400 (InvalidSymptoms ["itch"])))),
     Demo.one_chat).
Proof.
  refine (proj1 (@predict_unknown_symptom Demo.globals ["fever"; "itch"] 1
                   "2025-01-03T08:00:00" Demo.one_chat "itch" _ _)).
  - right. left. reflexivity.
  - simpl. intuition discriminate.
Defined.

(** A prediction for two known symptoms creates chat 2. *)
Lemma predict_creates_chat_witness :
  Main.select_chat
    (database
       (snd (Main.predict (H := Demo.globals) ["fever"; "rash"] 1
               "2025-01-03T08:00:00" Demo.one_chat)))
    2 1
  = Some (new_chat_row 1 2 "2025-01-03T08:00:00" [] (Some "Measles")
            ["fever"; "rash"] (Some "75.00%")).
Proof.
  destruct (@predict_creates_chat Demo.globals ["fever"; "rash"] 1
              "2025-01-03T08:00:00" Demo.one_chat _ _ eq_refl)
    as (_ & _ & _ & _ & _ & _ & Hselect).
  exact Hselect.
Defined.

(** With the classifier down, [predict] leaves the table as it was. *)
Lemma predict_failure_writes_nothing_witness :
  database
    (snd (Main.predict (H := Demo.globals_classifier_down) ["fever"] 1
            "2025-01-03T08:00:00" Demo.one_chat))
  = database Demo.one_chat.
Proof.
  exact (proj1 (@predict_failure_writes_nothing Demo.globals_classifier_down
                  ["fever"] 1 "2025-01-03T08:00:00" Demo.one_chat _ _
                  eq_refl)).
Defined.


(** An answered chat message calls no classifier. *)
Lemma conversation_changes_one_log_witness :
  classifier_calls
    (snd (Main.conversation (H := Demo.globals) Demo.question 1
            "2025-01-02 09:00:01" Demo.one_chat))
  = [].
Proof.
  exact (proj1 (@conversation_changes_one_log Demo.globals Demo.question 1
                  "2025-01-02 09:00:01" Demo.one_chat _ _
                  (surjective_pairing _))).
Defined.

(** A row without confidence is computed at 75% and the value is stored. *)
Lemma recomputed_value_is_memoized_witness :
  exists w',
    Main.confidence_of_row (H := Demo.globals) false
      (mkRowDict (Demo.chat 1 [] None "2025-01-01T10:00:00") true)
      Demo.seven_chats
    = (Returns (Some "75.00%"), w')
    /\ has_confidence_column (database w') = true.
Proof.
  destruct (@recomputed_value_is_memoized Demo.globals false
              (mkRowDict (Demo.chat 1 [] None "2025-01-01T10:00:00") true)
              Demo.seven_chats ["fever"] "75.00%")
    as (w' & Hrun & _ & Hcolumn & _).
  - reflexivity.
  - reflexivity.
  - discriminate.
  - right. reflexivity.
  - exists [(1 # 4)%Q; (3 # 4)%Q], (1, (3 # 4)%Q). repeat split.
  - exists w'. split; [exact Hrun | exact Hcolumn].
Defined.


(** A confidence update calls the classifier once. *)
Lemma update_confidence_then_cached_witness :
  List.length
    (classifier_calls
       (snd (Main.update_confidence (H := Demo.globals) 1 1 Demo.one_chat)))
  = 1.
Proof.
  destruct (@update_confidence_then_cached Demo.globals 1 1 Demo.one_chat _ _
              eq_refl)
    as (_ & Hcalls & _).
  exact Hcalls.
Defined.

(** The listing of the seven chats changes confidences only. *)
Lemma listing_changes_only_confidence_witness :
  listed_from 20 Demo.seven_chats
    (snd (Main.chat_hist (H := Demo.globals) 1 1 20 false false
            Demo.seven_chats)).
Proof.
  exact (proj1 (@listing_changes_only_confidence Demo.globals 1 1 20 false
                  false Demo.seven_chats _ _ (surjective_pairing _))).
Defined.

(** Al signs up on empty tables and gets the id 1. *)
Lemma signup_adds_one_account_witness :
  Auth.UserProfile Demo.al_signed_up
  = [signed_up_row Demo.al_request 1 "bcrypt$secret1" "2025-01-01T10:00:00"].
Proof.
  pose proof (@signup_adds_one_account Demo.crypto Demo.al_request "salt"
                "2025-01-01T10:00:00" "token-1" "2025-01-08T10:00:00"
                "2025-01-01T09:00:00" Demo.no_accounts _ _ eq_refl)
    as Hsignup.
  destruct Hsignup as (_ & _ & Hrows & _).
  exact Hrows.
Defined.

(** A wrong password leaves the tables as they were. *)
Lemma login_outcome_witness :
  snd (Auth.login (H := Demo.crypto)
         (Auth.Models.mkUserLoginRequest "a@x.com" "wrong")
         "2025-01-02T10:00:00" "token-2" "2025-01-09T10:00:00"
         "2025-01-02T09:00:00" Demo.al_signed_up)
  = Demo.al_signed_up.
Proof.
  pose proof (@login_outcome Demo.crypto
                (Auth.Models.mkUserLoginRequest "a@x.com" "wrong")
                "2025-01-02T10:00:00" "token-2" "2025-01-09T10:00:00"
                "2025-01-02T09:00:00" Demo.al_signed_up _ _ eq_refl)
    as Hlogin.
  destruct Hlogin as [Hsame _].
  exact Hsame.
Defined.

(** Al logs in with the password of the signup. *)
Lemma signup_then_login_witness :
  exists resp2 t'',
    Auth.login (H := Demo.crypto)
      (Auth.Models.mkUserLoginRequest "a@x.com" "secret1")
      "2025-01-02T10:00:00" "token-2" "2025-01-09T10:00:00"
      "2025-01-02T09:00:00" Demo.al_signed_up
    = (Auth.Ok resp2, t'')
    /\ Auth.Models.refresh_token resp2 = "token-2".
Proof.
  destruct (@signup_then_login Demo.crypto Demo.al_request "salt"
              "2025-01-01T10:00:00" "token-1" "2025-01-08T10:00:00"
              "2025-01-01T09:00:00" "2025-01-02T10:00:00" "token-2"
              "2025-01-09T10:00:00" "2025-01-02T09:00:00" Demo.no_accounts
              Demo.al_signed_up _
              (fun password _ => String.eqb_refl _) eq_refl)
    as (resp2 & t'' & Hlogin & _ & Htoken).
  - intros (r & Hin & Htoken). simpl in Hin.
    destruct Hin as [<- | []]. discriminate Htoken.
  - exists resp2, t''. split; [exact Hlogin | exact Htoken].
Defined.

(** The refresh token of a login on 2 January, good for seven days, gives an
    access token on 5 January. *)
Lemma login_then_refresh_witness :
  fst (Auth.refresh_token (H := Demo.crypto) "token-2" "2025-01-05T00:00:00"
         "2025-01-04T23:00:00"
         (snd (Auth.login (H := Demo.crypto)
                 (Auth.Models.mkUserLoginRequest "a@x.com" "secret1")
                 "2025-01-02T10:00:00" "token-2" "2025-01-09T10:00:00"
                 "2025-01-02T09:00:00" Demo.al_signed_up)))
  = Auth.Ok "jwt.1.2025-01-04T23:00:00".
Proof.
  exact (f_equal fst
           (@login_then_refresh Demo.crypto
              (Auth.Models.mkUserLoginRequest "a@x.com" "secret1")
              "2025-01-02T10:00:00" "token-2" "2025-01-09T10:00:00"
              "2025-01-02T09:00:00" "2025-01-05T00:00:00"
              "2025-01-04T23:00:00" Demo.al_signed_up _ _ eq_refl)).
Defined.

(** Al changes his name: the address stays. *)
Lemma update_profile_result_witness :
  exists u',
    fst (Auth.update_profile (H := Demo.crypto)
           (Auth.Models.mkUserProfileUpdateRequest (Some "Alan") None None None
              None)
           (signed_up_row Demo.al_request 1 "bcrypt$secret1"
              "2025-01-01T10:00:00")
           "salt" "2025-02-01T10:00:00" Demo.al_signed_up)
    = Auth.Ok (Auth.profile_of u')
    /\ Auth.name u' = "Alan"
    /\ Auth.email u' = "a@x.com"
    /\ Auth.updated_at u' = "2025-02-01T10:00:00".
Proof.
  destruct (@update_profile_result Demo.crypto
              (Auth.Models.mkUserProfileUpdateRequest (Some "Alan") None None
                 None None)
              (signed_up_row Demo.al_request 1 "bcrypt$secret1"
                 "2025-01-01T10:00:00")
              (signed_up_row Demo.al_request 1 "bcrypt$secret1"
                 "2025-01-01T10:00:00")
              "salt" "2025-02-01T10:00:00" Demo.al_signed_up eq_refl)
    as (u' & Hrun & _ & _ & Hemail & _ & Hname & _ & _ & _ & _ & Hdate & _).
  exists u'. split; [exact Hrun |]. split; [exact Hname |].
  split; [exact Hemail | exact Hdate].
Defined.
